(** * rede-cnpj downloaders: a shallow embedding

    This development embeds the two download scripts of the repository,

    - [rede_cria_tabelas/dados_tse_baixa.py]           (module [Tse]) and
    - [rede_cria_tabelas/doe/diarios_ceara_scraper.py] (module [Doe]),

    and states their properties: the policy for files that exist, resuming
    and restarting a download, retries, the URLs, formats and file names of
    the links found on a page.

    Modelling conventions.

    - A Python [str] is a [string] holding the UTF-8 bytes of the text.  The
      methods [lower], [strip], [isalnum] and [len] are modelled on ASCII
      text: bytes above 127 are left alone by [lower] and are neither spaces
      nor alphanumerics.  Every literal the code compares against is ASCII,
      except the page markers of [test_shortcut_url], which are in lower
      case already.
    - The file system is a finite map from paths to file contents; opening
      and writing a file succeed.  The network is a function answering
      requests; [input()] reads from a list of pending answers.  Every
      network request, body read, sleep and prompt is appended to a trace of
      events.  Printing, logging and progress bars are left out.
    - Exceptions are values: a computation returns [Ok] or [Raise], and
      keeps the world it reached.  Interruption from the keyboard is left
      out.
    - Functions of the Python standard library and of BeautifulSoup that
      parse URLs, headers and HTML are not part of the repository.  The
      URL and regular-expression functions are the fields of the class
      [PyLib], and the general statements hold for every instance of it;
      [SimpleLib] is the instance used to run the scripts on sample inputs.
      Parsed HTML is given as records holding what the code reads from the
      soup. *)

From stdpp Require Import gmap strings list.
From Stdlib Require Import Ascii Init.Byte Lia.

Local Open Scope string_scope.
Local Open Scope nat_scope.
Local Open Scope list_scope.

(** ** Python string methods *)

Module PyStr.

(** [c.lower()] for one character. *)
Definition lower_char (c : ascii) : ascii :=
  let n := nat_of_ascii c in
  if (65 <=? n) && (n <=? 90) then ascii_of_nat (n + 32) else c.

(** [s.lower()]. *)
Fixpoint lower (s : string) : string :=
  match s with
  | EmptyString => EmptyString
  | String c s' => String (lower_char c) (lower s')
  end.

(** [c.isalnum()]. *)
Definition isalnum (c : ascii) : bool :=
  let n := nat_of_ascii c in
  ((48 <=? n) && (n <=? 57)) || ((65 <=? n) && (n <=? 90))
  || ((97 <=? n) && (n <=? 122)).

(** [c.isspace()]. *)
Definition isspace (c : ascii) : bool :=
  let n := nat_of_ascii c in
  ((9 <=? n) && (n <=? 13)) || ((28 <=? n) && (n <=? 32)).

(** [c in chars]. *)
Fixpoint mem_char (c : ascii) (chars : string) : bool :=
  match chars with
  | EmptyString => false
  | String d chars' => Ascii.eqb c d || mem_char c chars'
  end.

(** [s.startswith(p)]. *)
Fixpoint startswith (s p : string) {struct p} : bool :=
  match p with
  | EmptyString => true
  | String d p' =>
      match s with
      | EmptyString => false
      | String c s' => Ascii.eqb c d && startswith s' p'
      end
  end.

(** [s.endswith(suf)]: some tail of [s] is [suf]. *)
Fixpoint endswith (s suf : string) : bool :=
  String.eqb s suf
  || match s with
     | EmptyString => false
     | String _ s' => endswith s' suf
     end.

(** [s.endswith((suf1, suf2, ...))]. *)
Definition endswith_any (s : string) (sufs : list string) : bool :=
  existsb (endswith s) sufs.

(** [sub in s]: [sub] starts at some position of [s]. *)
Fixpoint contains (s sub : string) : bool :=
  startswith s sub
  || match s with
     | EmptyString => false
     | String _ s' => contains s' sub
     end.

(** [s.lstrip(chars)] with the set of characters given as a predicate. *)
Fixpoint lstrip_by (p : ascii -> bool) (s : string) : string :=
  match s with
  | EmptyString => EmptyString
  | String c s' => if p c then lstrip_by p s' else s
  end.

(** [s.rstrip(chars)]: the characters of a tail made of stripped
    characters only are dropped. *)
Fixpoint rstrip_by (p : ascii -> bool) (s : string) : string :=
  match s with
  | EmptyString => EmptyString
  | String c s' =>
      match rstrip_by p s' with
      | EmptyString => if p c then EmptyString else String c EmptyString
      | r => String c r
      end
  end.

Definition strip_by (p : ascii -> bool) (s : string) : string :=
  rstrip_by p (lstrip_by p s).

(** [s.strip()], [s.rstrip(chars)], [s.strip(chars)]. *)
Definition strip (s : string) : string := strip_by isspace s.
Definition rstrip (s chars : string) : string :=
  rstrip_by (fun c => mem_char c chars) s.
Definition strip_chars (s chars : string) : string :=
  strip_by (fun c => mem_char c chars) s.

(** ["".join(c for c in s if p c)]. *)
Fixpoint filter_chars (p : ascii -> bool) (s : string) : string :=
  match s with
  | EmptyString => EmptyString
  | String c s' =>
      if p c then String c (filter_chars p s') else filter_chars p s'
  end.

(** [all(p c for c in s)]. *)
Fixpoint all_chars (p : ascii -> bool) (s : string) : bool :=
  match s with
  | EmptyString => true
  | String c s' => p c && all_chars p s'
  end.

(** [s in names] for a list of strings. *)
Definition mem_str (s : string) (names : list string) : bool :=
  existsb (String.eqb s) names.

(** Truthiness of a string: [bool(s)]. *)
Definition nonempty (s : string) : bool :=
  match s with EmptyString => false | _ => true end.

(** [s[:n]]. *)
Fixpoint take (n : nat) (s : string) : string :=
  match n, s with
  | S n', String c s' => String c (take n' s')
  | _, _ => EmptyString
  end.

End PyStr.

(** ** [os.path] on POSIX paths *)

Module OsPath.
Import PyStr.

(** [os.path.basename(p)]: what follows the last ['/']. *)
Fixpoint basename (p : string) : string :=
  match p with
  | EmptyString => EmptyString
  | String c p' =>
      if contains p' "/" then basename p'
      else if Ascii.eqb c "/" then p' else p
  end.

(** The head of [os.path.split(p)] before trailing slashes are removed:
    everything up to and including the last ['/']. *)
Fixpoint head_of (p : string) : string :=
  match p with
  | EmptyString => EmptyString
  | String c p' =>
      if contains p' "/" then String c (head_of p')
      else if Ascii.eqb c "/" then "/" else EmptyString
  end.

(** [os.path.dirname(p)]: the head, without its trailing slashes unless
    it consists of slashes only. *)
Definition dirname (p : string) : string :=
  let h := head_of p in
  if all_chars (fun c => Ascii.eqb c "/") h then h
  else rstrip h "/".

(** [os.path.join(a, b)]. *)
Definition join (a b : string) : string :=
  if startswith b "/" then b
  else if negb (nonempty a) || endswith a "/" then a +:+ b
  else a +:+ "/" +:+ b.

End OsPath.


(** ** Library functions the scripts call *)

(** [urllib.parse] and the two regular expressions of the scripts. *)
Class PyLib := {
  (** [urlparse(url).path] *)
  urlparse_path : string -> string;
  urlparse_path_empty : urlparse_path EmptyString = EmptyString;
  (** [parse_qs(urlparse(url).query)[param][0]] when [param] is a key *)
  query_first : string -> string -> option string;
  (** [unquote(s)] *)
  unquote : string -> string;
  (** [urljoin(base, ref)] *)
  urljoin : string -> string -> string;
  (** [re.search(r'([^/]+\.pdf)', path, re.IGNORECASE)], group 1 *)
  re_search_pdf : string -> option string;
  (** group 1 of the case-insensitive search, in a Content-Disposition
      header, for the word filename, then characters other than semicolon,
      equals sign and newline, then an equals sign, then the group: a text
      between two single or two double quotes, or else the characters up
      to the next semicolon or newline *)
  re_search_filename : string -> option string
}.

(** ** Exceptions, responses, the world *)

(** The exceptions the scripts can meet.  [HTTPError] is the subclass of
    [requests.RequestException] that [raise_for_status] raises. *)
Inductive exn :=
| RequestException (msg : string)
| HTTPError (status : nat)
| ValueError
| EOFError.

Inductive outcome (A : Type) :=
| Ok (a : A)
| Raise (e : exn).
Arguments Ok {A} a.
Arguments Raise {A} e.

(** The [Content-Length] header as [int(headers.get('content-length', 0))]
    sees it: absent, a number, or text that [int] rejects. *)
Inductive length_header :=
| NoLength
| Length (n : nat)
| BadLength.

(** What the scripts read of a streamed [requests] response.  [body] is the
    sequence of chunks [iter_content] yields; when [body_error] is set the
    iteration raises it after the last chunk. *)
Record response := {
  status_code : nat;
  content_length : length_header;
  content_disposition : string;
  body : list (list byte);
  body_error : option exn
}.

(** [requests.get(url, headers, stream=True)]: the URL, the offset of the
    [Range: bytes=<offset>-] header if it is sent, and the number of
    requests made before this one. *)
Definition transport := string -> option nat -> nat -> outcome response.

Inductive event :=
| EvGet (url : string) (range : option nat)
| EvHead (url : string)
| EvRecv (nbytes : nat)
| EvSleep (seconds : nat)
| EvPrompt.

Record world := {
  fs : gmap string (list byte);
  stdin : list string;
  trace : list event
}.

Definition is_request (e : event) : bool :=
  match e with EvGet _ _ | EvHead _ => true | _ => false end.

Fixpoint requests (t : list event) : nat :=
  match t with
  | [] => 0
  | e :: t' => (if is_request e then 1 else 0) + requests t'
  end.

Definition requests_made (w : world) : nat := requests (trace w).

Definition log (e : event) (w : world) : world :=
  {| fs := fs w; stdin := stdin w; trace := trace w ++ [e] |}.

(** Bytes received in response bodies. *)
Fixpoint bytes_received (t : list event) : nat :=
  match t with
  | [] => 0
  | EvRecv n :: t' => n + bytes_received t'
  | _ :: t' => bytes_received t'
  end.

(** Waits, in order. *)
Fixpoint sleeps (t : list event) : list nat :=
  match t with
  | [] => []
  | EvSleep n :: t' => n :: sleeps t'
  | _ :: t' => sleeps t'
  end.

(** Number of [requests.get] calls. *)
Fixpoint gets (t : list event) : nat :=
  match t with
  | [] => 0
  | EvGet _ _ :: t' => S (gets t')
  | _ :: t' => gets t'
  end.

(** ** Computations: state and exceptions *)

Definition M (A : Type) : Type := world -> outcome A * world.

Definition ret {A} (a : A) : M A := fun w => (Ok a, w).
Definition raise {A} (e : exn) : M A := fun w => (Raise e, w).
Definition bind {A B} (m : M A) (k : A -> M B) : M B :=
  fun w =>
    match m w with
    | (Ok a, w') => k a w'
    | (Raise e, w') => (Raise e, w')
    end.
(** [try: m  except Exception as e: h e] *)
Definition try_except {A} (m : M A) (h : exn -> M A) : M A :=
  fun w =>
    match m w with
    | (Ok a, w') => (Ok a, w')
    | (Raise e, w') => h e w'
    end.

Notation "'let*' x ':=' m 'in' k" := (bind m (fun x => k))
  (at level 10, x name, m at level 100, k at level 200, only parsing).

(** [os.path.exists(p)] and [os.path.getsize(p)] for a file that exists. *)
Definition path_exists (w : world) (p : string) : bool :=
  match fs w !! p with Some _ => true | None => false end.
Definition getsize (w : world) (p : string) : nat :=
  match fs w !! p with Some c => length c | None => 0 end.

Definition get_world : M world := fun w => (Ok w, w).

(** [requests.get(url, headers={.., 'Range': 'bytes=<k>-'}, stream=True)] *)
Definition http_get (net : transport) (url : string) (range : option nat)
  : M response :=
  fun w => (net url range (requests_made w), log (EvGet url range) w).

(** [response.raise_for_status()]: statuses 400 to 599 raise. *)
Definition check_status (status : nat) : M unit :=
  if (400 <=? status) && (status <? 600)
  then raise (HTTPError status)
  else ret tt.
Definition raise_for_status (r : response) : M unit :=
  check_status (status_code r).

(** [int(response.headers.get('content-length', 0))] *)
Definition int_content_length (r : response) : M nat :=
  match content_length r with
  | NoLength => ret 0
  | Length n => ret n
  | BadLength => raise ValueError
  end.

(** The chunk loop: [for chunk in iter_content(8192): if chunk: f.write(chunk)]. *)
Definition write_chunks (start : list byte) (chunks : list (list byte))
  : list byte :=
  fold_left (fun f chunk => match chunk with [] => f | _ => f ++ chunk end)
            chunks start.

Inductive open_mode := wb | ab.

(** [with open(path, mode) as f:] followed by the chunk loop.  Opening in
    [wb] truncates, in [ab] keeps what is there; what was written before the
    stream broke stays in the file. *)
Definition write_stream (path : string) (mode : open_mode) (r : response)
  : M unit :=
  fun w =>
    let start :=
      match mode with
      | wb => []
      | ab => match fs w !! path with Some c => c | None => [] end
      end in
    let w' := {| fs := <[path := write_chunks start (body r)]> (fs w);
                 stdin := stdin w;
                 trace := trace w ++ [EvRecv (length (concat (body r)))] |} in
    match body_error r with
    | Some e => (Raise e, w')
    | None => (Ok tt, w')
    end.

(** [time.sleep(n)] *)
Definition sleep (n : nat) : M unit := fun w => (Ok tt, log (EvSleep n) w).

(** The [while True: choice = input(..).strip().lower(); ...] loops: answers
    are read until one is understood; [input] raises [EOFError] when none is
    left. *)
Fixpoint prompt_loop {A} (parse : string -> option A) (answers : list string)
  (w : world) : outcome A * world :=
  match answers with
  | [] => (Raise EOFError,
           {| fs := fs w; stdin := []; trace := trace w ++ [EvPrompt] |})
  | a :: rest =>
      let w' := {| fs := fs w; stdin := rest; trace := trace w ++ [EvPrompt] |} in
      match parse (PyStr.lower (PyStr.strip a)) with
      | Some v => (Ok v, w')
      | None => prompt_loop parse rest w'
      end
  end.

Definition prompt {A} (parse : string -> option A) : M A :=
  fun w => prompt_loop parse (stdin w) w.

(** Number of [input()] calls. *)
Fixpoint prompts (t : list event) : nat :=
  match t with
  | [] => 0
  | EvPrompt :: t' => S (prompts t')
  | _ :: t' => prompts t'
  end.

(** ** dados_tse_baixa.py *)

Module Tse.
Import PyStr.

Definition BASE_URL : string := "https://dadosabertos.tse.jus.br".
Definition PASTA_BASE : string := "dados-tse".

(** The suffixes of [download_url.endswith((...))]. *)
Definition EXTENSIONS : list string :=
  [".zip"; ".csv"; ".pdf"; ".txt"; ".xlsx"; ".xls"; ".jpg"; ".jpeg"].

(** *** What the code reads from the soup *)

(** An [a] element: [.string], [.get_text(strip=True)], [.get('href')]. *)
Record anchor := {
  a_string : option string;
  a_text : string;
  a_href : option string
}.

(** A resource item ([li] whose class mentions resource): the text of its
    first [h3]/[h4]/[a] whose class mentions heading, its anchors and its
    text nodes, in document order. *)
Record res_item := {
  heading_text : option string;
  item_anchors : list anchor;
  item_strings : list string
}.

(** A parsed page: the [.string] of its [h2] elements, its resource items,
    its anchors. *)
Record soup := {
  h2_strings : list (option string);
  resource_items : list res_item;
  soup_anchors : list anchor
}.

(** [requests.get(url, headers=HEADERS, timeout=30)] followed by
    [BeautifulSoup(response.text, 'lxml')]: status code and parsed page. *)
Definition web := string -> nat -> outcome (nat * soup).

Record resource := {
  name : string;
  title : string;
  url : string;
  format : string;
  size : option string
}.

Inductive action := skip | overwrite.

Record failure := {
  f_year : string;
  f_filename : string;
  f_url : string;
  f_error : option exn
}.

(** The counters and flags of [main]. *)
Record run_state := {
  total_downloaded : nat;
  total_skipped : nat;
  total_failed : nat;
  failed_downloads : list failure;
  global_skip_all : bool;
  global_overwrite_all : bool
}.

Definition initial_state : run_state :=
  {| total_downloaded := 0; total_skipped := 0; total_failed := 0;
     failed_downloads := []; global_skip_all := false;
     global_overwrite_all := false |}.

Section WithLib.
Context {lib : PyLib}.

(** [requests.get] of a page, [raise_for_status], parse. *)
Definition fetch (pages : web) (page_url : string) : M soup :=
  let* r := (fun w => (pages page_url (requests_made w),
                       log (EvGet page_url None) w)) in
  let* _ := check_status (fst r) in
  ret (snd r).

(** Lines 168-184: the format of a download URL. *)
Definition file_format_of (download_url : string) : string :=
  if nonempty download_url then
    let path := lower (urlparse_path download_url) in
    if endswith path ".zip" then "ZIP"
    else if endswith path ".csv" then "CSV"
    else if endswith path ".pdf" then "PDF"
    else if endswith path ".txt" then "TXT"
    else if endswith_any path [".xlsx"; ".xls"] then "XLSX"
    else if endswith_any path [".jpg"; ".jpeg"] then "JPEG"
    else "unknown"
  else "unknown".

(** Lines 126-136: the anchor holding the download URL. *)
Definition is_ir_para_recurso (a : anchor) : bool :=
  match a_string a with
  | Some x => nonempty x && contains (lower x) "ir para recurso"
  | None => false
  end.

Definition looks_like_download (a : anchor) : bool :=
  match a_href a with
  | Some href =>
      startswith href "http"
      && (contains href "cdn.tse.jus.br" || contains (lower href) "download")
  | None => false
  end.

Definition find_download_link (item : res_item) : option anchor :=
  match find is_ir_para_recurso (item_anchors item) with
  | Some a => Some a
  | None => find looks_like_download (item_anchors item)
  end.

(** Lines 154-157: the anchor searched on the page of the resource. *)
Definition is_direct_download (a : anchor) : bool :=
  match a_href a with
  | Some x =>
      nonempty x
      && (endswith_any x EXTENSIONS
          || contains (lower x) "download"
          || contains x "cdn.tse.jus.br")
  | None => false
  end.

Definition href_of (a : anchor) : string :=
  match a_href a with Some h => h | None => EmptyString end.

(** Lines 144-163: follow the link to the page of the resource. *)
Definition follow_resource_page (pages : web) (download_url : string)
  : M string :=
  if nonempty download_url && negb (endswith_any download_url EXTENSIONS)
  then
    if startswith download_url "/" || contains download_url "dataset"
    then
      let resource_page_url := urljoin BASE_URL download_url in
      try_except
        (let* res_soup := fetch pages resource_page_url in
         match find is_direct_download (soup_anchors res_soup) with
         | Some direct_download =>
             let u := href_of direct_download in
             ret (if startswith u "/" then urljoin BASE_URL u else u)
         | None => ret download_url
         end)
        (fun _ => ret download_url)
    else ret download_url
  else ret download_url.

(** The characters of [rstrip('. \n\r\t')]. *)
Definition TRAILING : string :=
  String "." (String " " (String "010" (String "013"
    (String "009" EmptyString)))).

Definition mentions_size (x : string) : bool :=
  nonempty x
  && (contains (lower x) "mb" || contains (lower x) "kb"
      || contains (lower x) "gb").

(** [re.sub(r'[-\s]+', '-', s)] *)
Fixpoint collapse_separators (after_separator : bool) (s : string)
  : string :=
  match s with
  | EmptyString => EmptyString
  | String c s' =>
      if Ascii.eqb c "-" || isspace c then
        if after_separator then collapse_separators true s'
        else String "-" (collapse_separators true s')
      else String c (collapse_separators false s')
  end.

(** Lines 196-198. *)
Definition safe_title_of (title : string) : string :=
  let kept :=
    filter_chars
      (fun c => isalnum c || Ascii.eqb c "_" || isspace c || Ascii.eqb c "-")
      title in
  collapse_separators false (strip kept).

(** Lines 193-199. *)
Definition filename_of (download_url title file_format : string)
  : string :=
  let filename := OsPath.basename (urlparse_path download_url) in
  if negb (nonempty filename) || String.eqb filename "/"
  then safe_title_of title +:+ "." +:+ lower file_format
  else filename.

(** The body of the loop over resource items, lines 113-211: [None] is
    [continue]. *)
Definition resource_of_item (pages : web) (item : res_item)
  : M (option resource) :=
  let title_elem :=
    match heading_text item with
    | Some t => Some t
    | None =>
        match find (fun a => bool_decide (is_Some (a_href a)))
                   (item_anchors item) with
        | Some a => Some (a_text a)
        | None => None
        end
    end in
  match title_elem with
  | None => ret None
  | Some title =>
      match find_download_link item with
      | None => ret None
      | Some ir_recurso_link =>
          let* followed := follow_resource_page pages (href_of ir_recurso_link) in
          let download_url := rstrip followed TRAILING in
          let file_format := file_format_of download_url in
          let file_size :=
            match find mentions_size (item_strings item) with
            | Some x => Some (strip x)
            | None => None
            end in
          ret (Some {| name := filename_of download_url title file_format;
                       title := title;
                       url := download_url;
                       format := file_format;
                       size := file_size |})
      end
  end.

Fixpoint resources_of_items (pages : web) (items : list res_item)
  : M (list resource) :=
  match items with
  | [] => ret []
  | item :: rest =>
      let* r := resource_of_item pages item in
      let* rs := resources_of_items pages rest in
      ret (match r with Some x => x :: rs | None => rs end)
  end.

Definition is_dados_section (s : option string) : bool :=
  match s with
  | Some x =>
      nonempty x && contains (lower x) "dados"
      && contains (lower x) "recursos"
  | None => false
  end.

(** Lines 89-217. *)
Definition get_resources_from_year (pages : web) (year_url : string)
  : M (list resource) :=
  try_except
    (let* page := fetch pages year_url in
     match find is_dados_section (h2_strings page) with
     | None => ret []
     | Some _ => resources_of_items pages (resource_items page)
     end)
    (fun _ => ret []).

(** Lines 227-229: the offset of the [Range] header, when one is sent. *)
Definition resume_offset (w : world) (output_path : string)
  : option nat :=
  if path_exists w output_path then Some (getsize w output_path)
  else None.

(** Lines 220-268.  The message [str(e)] is represented by the exception. *)
Definition download_file (net : transport) (url output_path : string)
  : M (bool * option exn) :=
  try_except
    (let* w0 := get_world in
     let resume_header := resume_offset w0 output_path in
     let* response := http_get net url resume_header in
     let* rr := (if status_code response =? 416
                 then (let* again := http_get net url None in
                       ret (None, again))
                 else ret (resume_header, response)) in
     let resume_header := fst rr in
     let response := snd rr in
     let* _ := raise_for_status response in
     let* total_size := int_content_length response in
     let* w1 := get_world in
     let mode :=
       if bool_decide (is_Some resume_header) && path_exists w1 output_path
       then ab else wb in
     let* _ := write_stream output_path mode response in
     ret (true, None))
    (fun e => ret (false, Some e)).

(** The answers understood by the prompt of [handle_existing_file]. *)
Definition parse_choice (choice : string) : option (action * bool * bool) :=
  if String.eqb choice "s" then Some (skip, false, false)
  else if String.eqb choice "o" then Some (overwrite, false, false)
  else if String.eqb choice "sa" then Some (skip, true, false)
  else if String.eqb choice "oa" then Some (overwrite, false, true)
  else None.

(** Lines 320-357. *)
Definition handle_existing_file (filepath : string)
  (global_skip_all global_overwrite_all : bool)
  : M (action * bool * bool) :=
  let* w := get_world in
  if negb (path_exists w filepath)
  then ret (overwrite, global_skip_all, global_overwrite_all)
  else if global_skip_all
  then ret (skip, global_skip_all, global_overwrite_all)
  else if global_overwrite_all
  then ret (overwrite, global_skip_all, global_overwrite_all)
  else prompt parse_choice.

Definition set_flags (st : run_state) (s o : bool) : run_state :=
  {| total_downloaded := total_downloaded st;
     total_skipped := total_skipped st;
     total_failed := total_failed st;
     failed_downloads := failed_downloads st;
     global_skip_all := s;
     global_overwrite_all := o |}.

Definition count_downloaded (st : run_state) : run_state :=
  {| total_downloaded := total_downloaded st + 1;
     total_skipped := total_skipped st;
     total_failed := total_failed st;
     failed_downloads := failed_downloads st;
     global_skip_all := global_skip_all st;
     global_overwrite_all := global_overwrite_all st |}.

Definition count_skipped (st : run_state) : run_state :=
  {| total_downloaded := total_downloaded st;
     total_skipped := total_skipped st + 1;
     total_failed := total_failed st;
     failed_downloads := failed_downloads st;
     global_skip_all := global_skip_all st;
     global_overwrite_all := global_overwrite_all st |}.

Definition count_failed (f : failure) (st : run_state) : run_state :=
  {| total_downloaded := total_downloaded st;
     total_skipped := total_skipped st;
     total_failed := total_failed st + 1;
     failed_downloads := failed_downloads st ++ [f];
     global_skip_all := global_skip_all st;
     global_overwrite_all := global_overwrite_all st |}.

(** Lines 430-452: [for attempt in range(1, max_retries + 1)]. *)
Fixpoint retry_loop (net : transport) (year : string) (res : resource)
  (output_path : string) (max_retries : nat) (attempts : list nat)
  (st : run_state) : M run_state :=
  match attempts with
  | [] => ret st
  | attempt :: rest =>
      let* _ := (if 1 <? attempt then sleep (2 ^ attempt) else ret tt) in
      let* r := download_file net (url res) output_path in
      if fst r then ret (count_downloaded st)
      else if attempt <? max_retries
      then retry_loop net year res output_path max_retries rest st
      else
        retry_loop net year res output_path max_retries rest
          (count_failed {| f_year := year; f_filename := name res;
                           f_url := url res; f_error := snd r |} st)
  end.

Definition max_retries : nat := 3.

(** Lines 410-452: the body of the loop over the resources of a year. *)
Definition process_resource (net : transport) (year year_dir : string)
  (res : resource) (st : run_state) : M run_state :=
  let output_path := OsPath.join year_dir (name res) in
  let* d := handle_existing_file output_path
              (global_skip_all st) (global_overwrite_all st) in
  let st := set_flags st (snd (fst d)) (snd d) in
  match fst (fst d) with
  | skip => ret (count_skipped st)
  | overwrite =>
      retry_loop net year res output_path max_retries
        (seq 1 max_retries) st
  end.

Fixpoint process_resources (net : transport) (year year_dir : string)
  (resources : list resource) (st : run_state) : M run_state :=
  match resources with
  | [] => ret st
  | res :: rest =>
      let* st' := process_resource net year year_dir res st in
      process_resources net year year_dir rest st'
  end.

(** Lines 395-452: the loop of [main] over the selected years, each
    given as [str(year)] and its URL. *)
Fixpoint process_years (pages : web) (net : transport)
  (selected_years : list (string * string)) (st : run_state)
  : M run_state :=
  match selected_years with
  | [] => ret st
  | (year, year_url) :: rest =>
      let year_dir := OsPath.join PASTA_BASE year in
      let* resources := get_resources_from_year pages year_url in
      let* st' := process_resources net year year_dir resources st in
      process_years pages net rest st'
  end.

End WithLib.
End Tse.

(** ** Errors of the URL functions *)

(** [urlparse] and [urljoin] raise [ValueError] on some texts, such as a
    host that opens a bracket and does not close it.  These fields tell
    when they return; [urlparse_path] and [urljoin] of [PyLib] are what
    they give then. *)
Class UrlErrors := {
  (** [urlparse(url)] returns *)
  urlparse_returns : string -> bool;
  (** [urljoin(base, ref)] returns *)
  urljoin_returns : string -> string -> bool
}.

(** ** doe/diarios_ceara_scraper.py *)

Module Doe.
Import PyStr.

Definition BASE_URL_SHORTCUT : string :=
  "http://pesquisa.doe.seplag.ce.gov.br/doepesquisa/sead.do?page=ultimasDetalhe&cmd=10&action=Cadernos&data=".
Definition BASE_DIR : string := "diarios_ceara".

(** *** What the code reads from the soup *)

(** An [a] element with an [href]: the attribute and
    [get_text(strip=True)]. *)
Record link := {
  href : string;
  link_text : string
}.

(** A [td] or [th]: [get_text(strip=True)] and [find('a', href=True)]. *)
Record cell := {
  cell_text : string;
  cell_link : option link
}.

(** A parsed page: for each table its rows, for each row its cells; the
    anchors that have an [href]; [soup.get_text()]. *)
Record soup := {
  tables : list (list (list cell));
  all_links : list link;
  page_text : string
}.

(** [requests.get(url, headers, timeout=30)] and
    [BeautifulSoup(response.content, 'html.parser')]. *)
Definition web := string -> nat -> outcome (nat * soup).

(** [requests.head(url, ..)]: the [Content-Disposition] header of the
    answer, empty when absent. *)
Definition prober := string -> nat -> outcome string.

Inductive status := downloaded | skipped | failed.

(** The counters of [main]. *)
Record totals := {
  total_downloaded : nat;
  total_skipped : nat;
  total_failed : nat
}.

Definition GENERIC_NAMES : list string :=
  ["visualizar.pdf"; "visualizar"; "baixar.pdf"; "download.pdf"].
Definition ACTION_WORDS : list string :=
  ["visualizar"; "baixar"; "download"; "ver"].
Definition QUERY_PARAMS : list string :=
  ["arquivo"; "file"; "filename"; "nome"; "documento"].
(** The names [download_file] replaces, line 555. *)
Definition REPLACEABLE_NAMES : list string :=
  ["visualizar.pdf"; "baixar.pdf"; "download.pdf"; "documento.pdf"].
(** The phrases of line 222, in UTF-8. *)
Definition EMPTY_MARKERS : list string :=
  ["não há"; "sem dados"; "nenhuma publicação"; "não existem"].
(** The characters of [strip] at lines 105 and 548: both quotes. *)
Definition QUOTES : string :=
  String (ascii_of_nat 34) (String (ascii_of_nat 39) EmptyString).
(** The characters kept by line 671 besides alphanumerics. *)
Definition SAFE_PUNCTUATION : string := "._- ".

Section WithLib.
Context {lib : PyLib} {urls : UrlErrors}.

(** [len(s)]: the characters of a text in UTF-8, one for every byte that
    is not a continuation byte. *)
Definition char_count (s : string) : nat :=
  String.length
    (filter_chars
       (fun c => negb ((128 <=? nat_of_ascii c) && (nat_of_ascii c <? 192)))
       s).

(** Lines 62-66: the first parameter whose first value is a PDF name. *)
Fixpoint filename_in_query (url : string) (params : list string)
  : option string :=
  match params with
  | [] => None
  | param :: rest =>
      match query_first url param with
      | Some filename =>
          if nonempty filename && endswith (lower filename) ".pdf"
          then Some (unquote filename)
          else filename_in_query url rest
      | None => filename_in_query url rest
      end
  end.

(** Lines 47-84.  The [ValueError] of [urlparse] at line 58 is caught at
    line 82. *)
Definition extract_filename_from_url (url : string) : option string :=
  if negb (urlparse_returns url) then None
  else
    match filename_in_query url QUERY_PARAMS with
    | Some f => Some f
    | None =>
        let path := urlparse_path url in
        if nonempty path then
          match re_search_pdf path with
          | Some m => Some (unquote m)
          | None =>
              let basename := OsPath.basename path in
              if nonempty basename && endswith (lower basename) ".pdf"
              then Some (unquote basename)
              else None
          end
        else None
    end.

(** Lines 100-106 and 543-549: the file name a [Content-Disposition]
    header carries. *)
Definition filename_of_disposition (content_disposition : string)
  : option string :=
  if nonempty content_disposition then
    match re_search_filename content_disposition with
    | Some g => Some (unquote (strip_chars g QUOTES))
    | None => None
    end
  else None.

(** Lines 87-109. *)
Definition get_filename_from_content_disposition (probe : prober)
  (url : string) : M (option string) :=
  try_except
    (let* cd := (fun w => (probe url (requests_made w),
                           log (EvHead url) w)) in
     ret (filename_of_disposition cd))
    (fun _ => ret None).

(** Lines 151-156 and 204-209. *)
Definition full_url_of (href : string) : string :=
  if startswith href "/"
  then "http://pesquisa.doe.seplag.ce.gov.br" +:+ href
  else if startswith href "http" then href
  else "http://pesquisa.doe.seplag.ce.gov.br/doepesquisa/" +:+ href.

(** [not filename or filename.lower() in [...]] *)
Definition still_unnamed (filename : option string) : bool :=
  match filename with
  | None => true
  | Some f => negb (nonempty f) || mem_str (lower f) GENERIC_NAMES
  end.

(** [if not filename.endswith('.pdf'): filename += '.pdf'] *)
Definition ensure_pdf (filename : string) : string :=
  if endswith filename ".pdf" then filename else filename +:+ ".pdf".

(** Lines 169-171. *)
Definition cell_names_file (c : cell) : bool :=
  nonempty (cell_text c)
  && negb (mem_str (lower (cell_text c)) ACTION_WORDS)
  && (endswith (lower (cell_text c)) ".pdf"
      || (5 <? char_count (cell_text c))).

(** Lines 188 and 214: [os.path.basename(urlparse(full_url).path) or
    'documento.pdf'], outside the handlers of the helpers: the
    [ValueError] of [urlparse] goes up to line 230. *)
Definition basename_of_url (full_url : string) : M string :=
  if urlparse_returns full_url then
    let b := OsPath.basename (urlparse_path full_url) in
    ret (if nonempty b then b else "documento.pdf")
  else raise ValueError.

(** Lines 158-197: the name of the file behind [lnk], found in a row
    with cells [cells]. *)
Definition resolve_filename (probe : prober) (cells : list cell)
  (lnk : link) (full_url : string) : M string :=
  (* Method 1 *)
  let filename := extract_filename_from_url full_url in
  (* Method 2 *)
  let filename :=
    if still_unnamed filename then
      match find cell_names_file cells with
      | Some other_cell => Some (ensure_pdf (cell_text other_cell))
      | None => filename
      end
    else filename in
  (* Method 3 *)
  let* filename :=
    (if still_unnamed filename
     then get_filename_from_content_disposition probe full_url
     else ret filename) in
  (* Method 4 *)
  let* filename :=
    (if still_unnamed filename then
       if nonempty (link_text lnk)
          && negb (mem_str (lower (link_text lnk)) ACTION_WORDS)
       then ret (link_text lnk)
       else basename_of_url full_url
     else ret (match filename with Some f => f | None => EmptyString end)) in
  ret (unquote (ensure_pdf filename)).

(** Line 147. *)
Definition looks_like_pdf_link (href : string) : bool :=
  contains (lower href) ".pdf" || contains (lower href) "download"
  || contains (lower href) "baixar".

(** The body of the loop over the cells of a row, lines 141-197:
    [None] is [continue]. *)
Definition link_of_cell (probe : prober) (cells : list cell) (c : cell)
  : M (option (string * string)) :=
  match cell_link c with
  | None => ret None
  | Some lnk =>
      if negb (looks_like_pdf_link (href lnk)) then ret None
      else
        let full_url := full_url_of (href lnk) in
        let* filename := resolve_filename probe cells lnk full_url in
        ret (Some (filename, full_url))
  end.

Fixpoint links_of_cells (probe : prober) (cells todo : list cell)
  : M (list (string * string)) :=
  match todo with
  | [] => ret []
  | c :: rest =>
      let* l := link_of_cell probe cells c in
      let* ls := links_of_cells probe cells rest in
      ret (match l with Some x => x :: ls | None => ls end)
  end.

Fixpoint links_of_rows (probe : prober) (rows : list (list cell))
  : M (list (string * string)) :=
  match rows with
  | [] => ret []
  | cells :: rest =>
      let* l := links_of_cells probe cells cells in
      let* ls := links_of_rows probe rest in
      ret (l ++ ls)
  end.

Fixpoint links_of_tables (probe : prober)
  (tbls : list (list (list cell))) : M (list (string * string)) :=
  match tbls with
  | [] => ret []
  | rows :: rest =>
      let* l := links_of_rows probe rows in
      let* ls := links_of_tables probe rest in
      ret (l ++ ls)
  end.

(** Lines 203-218: the body of the loop over the direct PDF links of the
    page; [None] when the link is passed over. *)
Definition direct_link (lnk : link) : M (option (string * string)) :=
  if endswith (lower (href lnk)) ".pdf" then
    let full_url := full_url_of (href lnk) in
    let* filename :=
      (match extract_filename_from_url full_url with
       | Some f => if nonempty f then ret f else basename_of_url full_url
       | None => basename_of_url full_url
       end) in
    ret (Some (ensure_pdf (unquote filename), full_url))
  else ret None.

Fixpoint direct_links (lnks : list link) : M (list (string * string)) :=
  match lnks with
  | [] => ret []
  | lnk :: rest =>
      let* l := direct_link lnk in
      let* ls := direct_links rest in
      ret (match l with Some x => x :: ls | None => ls end)
  end.

(** Line 222. *)
Definition says_no_publications (text : string) : bool :=
  existsb (fun phrase => contains (lower text) phrase) EMPTY_MARKERS.

(** Lines 112-232. *)
Definition test_shortcut_url (pages : web) (probe : prober)
  (date_str : string) : M (bool * list (string * string)) :=
  let url := BASE_URL_SHORTCUT +:+ date_str in
  try_except
    (let* r := (fun w => (pages url (requests_made w),
                          log (EvGet url None) w)) in
     let* _ := check_status (fst r) in
     let page := snd r in
     let* links := links_of_tables probe (tables page) in
     let* links :=
       (match links with
        | [] => direct_links (all_links page)
        | _ => ret links
        end) in
     if says_no_publications (page_text page)
     then ret (true, [])
     else ret (true, links))
    (fun _ => ret (false, [])).

(** Lines 320-332. *)
Definition extract_pdf_links_shortcut (pages : web) (probe : prober)
  (date_str : string) : M (list (string * string) * bool) :=
  let* r := test_shortcut_url pages probe date_str in
  ret (snd r, fst r).

(** The answers understood by the prompt of [should_overwrite_file]. *)
Definition parse_choice (choice : string) : option bool :=
  if String.eqb choice "s" || String.eqb choice "skip" then Some false
  else if String.eqb choice "o" || String.eqb choice "overwrite"
  then Some true
  else None.

(** Lines 487-519. *)
Definition should_overwrite_file (filepath : string) (remote_size : nat)
  : M bool :=
  let* w := get_world in
  if negb (path_exists w filepath) then ret true
  else prompt parse_choice.

(** Lines 542-559: the path the attempt writes to. *)
Definition choose_filepath (filepath : string) (r : response) : string :=
  match filename_of_disposition (content_disposition r) with
  | Some actual_filename =>
      if nonempty actual_filename
         && endswith (lower actual_filename) ".pdf"
      then
        let current_basename := lower (OsPath.basename filepath) in
        if mem_str current_basename REPLACEABLE_NAMES
        then OsPath.join (OsPath.dirname filepath) actual_filename
        else filepath
      else filepath
  | None => filepath
  end.

(** Lines 561-603: what follows the choice of the path. *)
Definition save_response (filepath : string) (r : response)
  : M (bool * status) :=
  let* total_size := int_content_length r in
  let* w := get_world in
  let* keep :=
    (if path_exists w filepath
     then (let* ow := should_overwrite_file filepath total_size in
           ret (negb ow))
     else ret false) in
  if keep then ret (true, skipped)
  else
    let* _ := write_stream filepath wb r in
    ret (true, downloaded).

(** Lines 538-603: the [try] block of one attempt.  The path is
    returned with the outcome: an exception raised after line 558 leaves
    the new path in [filepath] for the next attempt. *)
Definition attempt_download (net : transport) (url filepath : string)
  (w : world) : string * outcome (bool * status) * world :=
  match http_get net url None w with
  | (Raise e, w1) => (filepath, Raise e, w1)
  | (Ok r, w1) =>
      match raise_for_status r w1 with
      | (Raise e, w2) => (filepath, Raise e, w2)
      | (Ok _, w2) =>
          let filepath' := choose_filepath filepath r in
          let (res, w3) := save_response filepath' r w2 in
          (filepath', res, w3)
      end
  end.

(** Lines 537-618: [for attempt in range(max_retries)]. *)
Fixpoint download_loop (net : transport) (url : string)
  (max_retries : nat) (attempts : list nat) (filepath : string)
  : M (bool * status) :=
  fun w =>
    match attempts with
    | [] => (Ok (false, failed), w)
    | attempt :: rest =>
        match attempt_download net url filepath w with
        | (_, Ok res, w') => (Ok res, w')
        | (filepath', Raise _, w') =>
            if attempt <? max_retries - 1
            then download_loop net url max_retries rest filepath' w'
            else (Ok (false, failed), w')
        end
    end.

(** Lines 522-618. *)
Definition download_file (net : transport) (url filepath : string)
  (max_retries : nat) : M (bool * status) :=
  download_loop net url max_retries (seq 0 max_retries) filepath.

(** Lines 671-673. *)
Definition safe_filename_of (filename : string) : string :=
  let safe_filename :=
    filter_chars (fun c => isalnum c || mem_char c SAFE_PUNCTUATION)
                 filename in
  if endswith safe_filename ".pdf" then safe_filename
  else safe_filename +:+ ".pdf".

Definition count (s : status) (t : totals) : totals :=
  match s with
  | downloaded =>
      {| total_downloaded := total_downloaded t + 1;
         total_skipped := total_skipped t;
         total_failed := total_failed t |}
  | skipped =>
      {| total_downloaded := total_downloaded t;
         total_skipped := total_skipped t + 1;
         total_failed := total_failed t |}
  | failed =>
      {| total_downloaded := total_downloaded t;
         total_skipped := total_skipped t;
         total_failed := total_failed t + 1 |}
  end.

(** Lines 669-683: the loop of [main] over the links of a date, with
    [year] standing for [str(year)]. *)
Fixpoint download_links (net : transport) (year : string)
  (links : list (string * string)) (t : totals) : M totals :=
  match links with
  | [] => ret t
  | (filename, url) :: rest =>
      let safe_filename := safe_filename_of filename in
      let filepath :=
        OsPath.join (OsPath.join BASE_DIR year) safe_filename in
      let* r := download_file net url filepath 3 in
      download_links net year rest (count (snd r) t)
  end.

(** The file name [main] gives to a link found by [test_shortcut_url]:
    lines 158-197 followed by lines 671-673. *)
Definition resolve (probe : prober) (cells : list cell) (lnk : link)
  : M string :=
  let* filename :=
    resolve_filename probe cells lnk (full_url_of (href lnk)) in
  ret (safe_filename_of filename).

End WithLib.
End Doe.

(** ** A model of the library functions

    [SimpleLib] gives the fields of [PyLib] on plain inputs: URLs of the
    form scheme://host/path?query#fragment or relative references, without
    parameters after a semicolon and without dot segments; queries without
    plus signs or escapes in the keys.  It is used to run the scripts on
    concrete inputs. *)

Module SimpleLib.
Import PyStr.

(** [s[n:]] *)
Fixpoint drop (n : nat) (s : string) : string :=
  match n, s with
  | S n', String _ s' => drop n' s'
  | _, _ => s
  end.

(** The longest prefix whose characters satisfy [p]. *)
Fixpoint take_while (p : ascii -> bool) (s : string) : string :=
  match s with
  | EmptyString => EmptyString
  | String c s' => if p c then String c (take_while p s') else EmptyString
  end.

(** [s.split(sep, 1)] when [sep] occurs in [s]. *)
Fixpoint split_on (sep s : string) : option (string * string) :=
  if startswith s sep then Some (EmptyString, drop (String.length sep) s)
  else
    match s with
    | EmptyString => None
    | String c s' =>
        match split_on sep s' with
        | Some (a, b) => Some (String c a, b)
        | None => None
        end
    end.

(** [s.split(sep)] for a separator of one character. *)
Fixpoint split_char (sep : ascii) (s : string) : list string :=
  match s with
  | EmptyString => [EmptyString]
  | String c s' =>
      let r := split_char sep s' in
      if Ascii.eqb c sep then EmptyString :: r
      else
        match r with
        | h :: t => String c h :: t
        | [] => [String c EmptyString]
        end
  end.

Definition is_scheme_char (c : ascii) : bool :=
  isalnum c || mem_char c "+-.".

(** What follows scheme and host. *)
Definition after_netloc (u : string) : string :=
  match split_on "://" u with
  | Some (scheme, r) =>
      if nonempty scheme && all_chars is_scheme_char scheme
      then lstrip_by (fun c => negb (mem_char c "/?#")) r
      else u
  | None => u
  end.

Definition path_of (u : string) : string :=
  take_while (fun c => negb (mem_char c "?#")) (after_netloc u).

Definition query_of (u : string) : string :=
  match split_on "?" (take_while (fun c => negb (Ascii.eqb c "#")) u) with
  | Some (_, q) => q
  | None => EmptyString
  end.

Definition hex_digit (c : ascii) : option nat :=
  let n := nat_of_ascii c in
  if (48 <=? n) && (n <=? 57) then Some (n - 48)
  else if (65 <=? n) && (n <=? 70) then Some (n - 55)
  else if (97 <=? n) && (n <=? 102) then Some (n - 87)
  else None.

(** Percent-decoding. *)
Fixpoint unquote_model (s : string) : string :=
  match s with
  | EmptyString => EmptyString
  | String c s1 =>
      match s1 with
      | String h1 (String h2 rest) =>
          match Ascii.eqb c "%", hex_digit h1, hex_digit h2 with
          | true, Some a, Some b =>
              String (ascii_of_nat (16 * a + b)) (unquote_model rest)
          | _, _, _ => String c (unquote_model s1)
          end
      | _ => String c (unquote_model s1)
      end
  end.

(** The first non-blank value of [param] among the pairs of the query. *)
Definition query_first_model (u param : string) : option string :=
  let pairs := split_char "&" (query_of u) in
  let value_of (kv : string) : option string :=
    match split_on "=" kv with
    | Some (k, v) =>
        if String.eqb k param && nonempty v
        then Some (unquote_model v) else None
    | None => None
    end in
  match omap value_of pairs with
  | v :: _ => Some v
  | [] => None
  end.

Definition origin_of (base : string) : string :=
  match split_on "://" base with
  | Some (scheme, r) =>
      scheme +:+ "://" +:+ take_while (fun c => negb (mem_char c "/?#")) r
  | None => EmptyString
  end.

Definition urljoin_model (base ref : string) : string :=
  if negb (nonempty ref) then base
  else if contains ref "://" then ref
  else if startswith ref "/" then origin_of base +:+ ref
  else
    origin_of base
    +:+ OsPath.head_of (path_of base)
    +:+ (if nonempty (OsPath.head_of (path_of base)) then EmptyString
         else "/")
    +:+ ref.

(** The longest prefix of [s] that ends with [.pdf], in any case. *)
Fixpoint longest_pdf_prefix (s : string) : option string :=
  match s with
  | EmptyString => None
  | String c s' =>
      match longest_pdf_prefix s' with
      | Some r => Some (String c r)
      | None =>
          if startswith (lower s) ".pdf" then Some (take 4 s) else None
      end
  end.

(** The pattern needs one character before [.pdf]. *)
Definition pdf_in_segment (seg : string) : option string :=
  match seg with
  | EmptyString => None
  | String c s' =>
      match longest_pdf_prefix s' with
      | Some r => Some (String c r)
      | None => None
      end
  end.

Definition re_search_pdf_model (path : string) : option string :=
  match omap pdf_in_segment (split_char "/" path) with
  | m :: _ => Some m
  | [] => None
  end.

Definition is_quote (c : ascii) : bool :=
  Ascii.eqb c (ascii_of_nat 34) || Ascii.eqb c (ascii_of_nat 39).
Definition is_newline (c : ascii) : bool := Ascii.eqb c (ascii_of_nat 10).

(** The text up to the closing quote [q], when it comes before any
    newline. *)
Fixpoint quoted (q : ascii) (s : string) : option string :=
  match s with
  | EmptyString => None
  | String c s' =>
      if Ascii.eqb c q then Some (String q EmptyString)
      else if is_newline c then None
      else
        match quoted q s' with
        | Some r => Some (String c r)
        | None => None
        end
  end.

Definition filename_group (v : string) : string :=
  let plain :=
    take_while (fun c => negb (Ascii.eqb c ";" || is_newline c)) v in
  match v with
  | String q v' =>
      if is_quote q then
        match quoted q v' with
        | Some r => String q r
        | None => plain
        end
      else plain
  | EmptyString => plain
  end.

Definition filename_at (s : string) : option string :=
  if startswith (lower s) "filename" then
    match lstrip_by (fun c => negb (Ascii.eqb c ";" || Ascii.eqb c "="
                                    || is_newline c))
                    (drop 8 s) with
    | String c v => if Ascii.eqb c "=" then Some (filename_group v) else None
    | EmptyString => None
    end
  else None.

Fixpoint re_search_filename_model (s : string) : option string :=
  match filename_at s with
  | Some g => Some g
  | None =>
      match s with
      | EmptyString => None
      | String _ s' => re_search_filename_model s'
      end
  end.

#[export] Instance simple_lib : PyLib := {|
  urlparse_path := path_of;
  urlparse_path_empty := eq_refl;
  query_first := query_first_model;
  unquote := unquote_model;
  urljoin := urljoin_model;
  re_search_pdf := re_search_pdf_model;
  re_search_filename := re_search_filename_model
|}.

(** The host: what follows the two slashes after the scheme, or at the
    start of a reference, up to the path. *)
Definition netloc_of (u : string) : string :=
  let host (r : string) :=
    take_while (fun c => negb (mem_char c "/?#")) r in
  match split_on "://" u with
  | Some (scheme, r) =>
      if nonempty scheme && all_chars is_scheme_char scheme then host r
      else EmptyString
  | None => if startswith u "//" then host (drop 2 u) else EmptyString
  end.

(** [urlparse] raises on a host that holds one of the two brackets and
    not the other. *)
Definition urlparse_returns_model (u : string) : bool :=
  Bool.eqb (contains (netloc_of u) "[") (contains (netloc_of u) "]").

(** [urljoin] parses both of its arguments. *)
Definition urljoin_returns_model (base ref : string) : bool :=
  urlparse_returns_model base && urlparse_returns_model ref.

#[export] Instance simple_urls : UrlErrors := {|
  urlparse_returns := urlparse_returns_model;
  urljoin_returns := urljoin_returns_model
|}.

End SimpleLib.

(** ** Servers *)

Module Server.

(** [iter_content(chunk_size)] over a body already received: pieces of
    [chunk_size] bytes, the last one possibly shorter. *)
Fixpoint chunks (fuel chunk_size : nat) (data : list byte)
  : list (list byte) :=
  match fuel, data with
  | S fuel', _ :: _ =>
      take chunk_size data :: chunks fuel' chunk_size (drop chunk_size data)
  | _, _ => []
  end.
Definition iter_content (chunk_size : nat) (data : list byte)
  : list (list byte) :=
  chunks (length data) chunk_size data.

Definition answer (status : nat) (data : list byte) : response :=
  {| status_code := status;
     content_length := Length (length data);
     content_disposition := EmptyString;
     body := iter_content 8192 data;
     body_error := None |}.

(** A server that holds [content] and honours byte ranges: 206 with the
    rest of the content from the offset, 416 when the offset is not inside
    the content, 200 with everything when no range is asked. *)
Definition range_server (content : list byte) : transport :=
  fun _ range _ =>
    match range with
    | None => Ok (answer 200 content)
    | Some k =>
        if k <? length content then Ok (answer 206 (drop k content))
        else Ok (answer 416 [])
    end.

(** A server that rejects every range with 416. *)
Definition no_range_server (content : list byte) : transport :=
  fun _ range _ =>
    match range with
    | None => Ok (answer 200 content)
    | Some _ => Ok (answer 416 [])
    end.

(** A server that ignores the [Range] header and always sends everything. *)
Definition rangeless_server (content : list byte) : transport :=
  fun _ _ _ => Ok (answer 200 content).

(** A transport on which every request fails. *)
Definition broken_transport (e : exn) : transport :=
  fun _ _ _ => Raise e.

(** A server that names the file it sends. *)
Definition naming_server (disposition : string) (content : list byte)
  : transport :=
  fun _ _ _ =>
    Ok {| status_code := 200;
          content_length := Length (length content);
          content_disposition := disposition;
          body := iter_content 8192 content;
          body_error := None |}.

(** A probe that finds no [Content-Disposition] header. *)
Definition silent_probe : Doe.prober := fun _ _ => Ok EmptyString.

End Server.

(** ** Properties of transports *)

(** [net] serves [content] at [url] and honours byte ranges inside it. *)
Definition serves_ranges (net : transport) (url : string)
  (content : list byte) : Prop :=
  forall k n, k < length content ->
    exists r, net url (Some k) n = Ok r
      /\ status_code r = 206
      /\ content_length r <> BadLength
      /\ concat (body r) = drop k content
      /\ body_error r = None.

(** [net] answers 416 to every request at [url] that carries a range. *)
Definition rejects_ranges (net : transport) (url : string) : Prop :=
  forall k n, exists r, net url (Some k) n = Ok r /\ status_code r = 416.

(** [net] serves [content] in full at [url] to requests without a range. *)
Definition serves_full (net : transport) (url : string)
  (content : list byte) : Prop :=
  forall n, exists r, net url None n = Ok r
    /\ status_code r = 200
    /\ content_length r <> BadLength
    /\ concat (body r) = content
    /\ body_error r = None.

(** Every request at [url] raises. *)
Definition always_raises (net : transport) (url : string) : Prop :=
  forall range n, exists e, net url range n = Raise e.

(** ** Sample inputs *)

Module Sample.

Definition world_with (files : list (string * list byte))
  (answers : list string) : world :=
  {| fs := list_to_map files; stdin := answers; trace := [] |}.

(** A resource of five bytes, of which two are on disk. *)
Definition content : list byte := [x01; x02; x03; x04; x05].
Definition partial : list byte := [x01; x02].

Definition down : exn := RequestException "connection refused".

(** dados_tse_baixa.py *)
Definition zip_url : string :=
  "https://cdn.tse.jus.br/estatistica/sead/odsele/consulta_cand/consulta_cand_2022.zip".
Definition zip_path : string := "dados-tse/2022/consulta_cand_2022.zip".
Definition other_path : string := "dados-tse/2022/bem_candidato_2022.zip".

Definition zip_resource : Tse.resource :=
  {| Tse.name := "consulta_cand_2022.zip";
     Tse.title := "Candidatos 2022";
     Tse.url := zip_url;
     Tse.format := "ZIP";
     Tse.size := None |}.

Definition other_resource : Tse.resource :=
  {| Tse.name := "bem_candidato_2022.zip";
     Tse.title := "Bens de candidatos 2022";
     Tse.url := "https://cdn.tse.jus.br/estatistica/sead/odsele/bem_candidato/bem_candidato_2022.zip";
     Tse.format := "ZIP";
     Tse.size := None |}.

Definition skipping_all : Tse.run_state :=
  Tse.set_flags Tse.initial_state true false.

Definition unreachable : Tse.web :=
  fun _ _ => Raise (RequestException "unreachable").

Definition ir_para_recurso (href : option string) : Tse.anchor :=
  {| Tse.a_string := Some "Ir para recurso";
     Tse.a_text := "Ir para recurso";
     Tse.a_href := href |}.

(** A resource item whose link is absolute. *)
Definition zip_item : Tse.res_item :=
  {| Tse.heading_text := Some "Candidatos 2022";
     Tse.item_anchors := [ir_para_recurso (Some zip_url)];
     Tse.item_strings := ["Candidatos 2022"; "Ir para recurso"] |}.

(** A resource item whose link is relative to the site. *)
Definition relative_item : Tse.res_item :=
  {| Tse.heading_text := Some "Candidatos 2022";
     Tse.item_anchors :=
       [ir_para_recurso (Some "/arquivos/consulta_cand_2022.zip")];
     Tse.item_strings := ["Candidatos 2022"; "Ir para recurso"] |}.

(** A resource item whose link has no [href]. *)
Definition hrefless_item : Tse.res_item :=
  {| Tse.heading_text := Some "Candidatos 2022";
     Tse.item_anchors := [ir_para_recurso None];
     Tse.item_strings := ["Candidatos 2022"; "Ir para recurso"] |}.

(** diarios_ceara_scraper.py *)
Definition pdf_url : string :=
  "http://pesquisa.doe.seplag.ce.gov.br/doepesquisa/baixar?id=3".
Definition pdf_path : string := "diarios_ceara/2024/do20240102p01.pdf".

Definition baixar_link : Doe.link :=
  {| Doe.href := "baixar?id=3"; Doe.link_text := "Baixar" |}.
Definition link_cell : Doe.cell :=
  {| Doe.cell_text := "Baixar"; Doe.cell_link := Some baixar_link |}.
Definition edital_cell : Doe.cell :=
  {| Doe.cell_text := "Edital 045/2024.pdf"; Doe.cell_link := None |}.

(** A cell of five characters, seven bytes in UTF-8. *)
Definition secao_cell : Doe.cell :=
  {| Doe.cell_text := "Seção"; Doe.cell_link := None |}.

Definition quiet_page : Doe.soup :=
  {| Doe.tables := [[[link_cell; edital_cell]]];
     Doe.all_links := [baixar_link];
     Doe.page_text := "Aviso: não há publicações nesta data. Baixar Edital 045/2024.pdf" |}.





End Sample.

(** ** Predicates on computations and worlds *)

(** [m], run from [w], returns normally with a value and a world that
    satisfy [Q]. *)
Definition post {A} (m : M A) (w : world) (Q : A -> world -> Prop) : Prop :=
  match m w with
  | (Ok a, w') => Q a w'
  | (Raise _, _) => False
  end.

(** Whatever the outcome, the world [m] reaches from [w] is related to [w]. *)
Definition preserves {A} (R : world -> world -> Prop) (m : M A) : Prop :=
  forall w, R w (snd (m w)).

(** No answer is read and no prompt is shown. *)
Definition quiet (w w' : world) : Prop :=
  stdin w' = stdin w /\ prompts (trace w') = prompts (trace w).

(** No request is sent. *)
Definition offline (w w' : world) : Prop :=
  gets (trace w') = gets (trace w) /\ fs w' = fs w.

(** The two flags of the policy are unchanged. *)
Definition same_flags (st st' : Tse.run_state) : Prop :=
  Tse.global_skip_all st' = Tse.global_skip_all st
  /\ Tse.global_overwrite_all st' = Tse.global_overwrite_all st.

(** Only the file at [path] may differ. *)
Definition frame_except (path : string) (w w' : world) : Prop :=
  forall p, p <> path -> fs w' !! p = fs w !! p.

(** What licenses a write next to the requested path. *)
Definition renamed_by_header {lib : PyLib} (net : transport) (url filepath : string)
  : Prop :=
  PyStr.mem_str (PyStr.lower (OsPath.basename filepath))
                Doe.REPLACEABLE_NAMES = true
  /\ exists n r actual_filename,
      net url None n = Ok r
      /\ Doe.filename_of_disposition (content_disposition r)
         = Some actual_filename
      /\ PyStr.endswith (PyStr.lower actual_filename) ".pdf" = true.

(** The characters line 671 keeps. *)
Definition safe_char (c : ascii) : bool :=
  PyStr.isalnum c || PyStr.mem_char c Doe.SAFE_PUNCTUATION.


(** A text of ASCII characters. *)
Definition is_ascii (s : string) : bool :=
  PyStr.all_chars (fun c => nat_of_ascii c <? 128) s.







(** ** More predicates *)

(** The resources [main] of dados_tse_baixa.py has accounted for. *)
Definition accounted (st : Tse.run_state) : nat :=
  Tse.total_downloaded st + Tse.total_skipped st + Tse.total_failed st.

(** The links [main] of diarios_ceara_scraper.py has accounted for. *)
Definition doe_accounted (t : Doe.totals) : nat :=
  Doe.total_downloaded t + Doe.total_skipped t + Doe.total_failed t.

(** Only the file at [path] may differ, and it is not removed. *)
Definition keeps_files (path : string) (w w' : world) : Prop :=
  (forall p, p <> path -> fs w' !! p = fs w !! p)
  /\ (path_exists w path = true -> path_exists w' path = true).

(** An answer the prompt does not understand. *)
Definition misunderstood {A} (parse : string -> option A) (answer : string)
  : Prop :=
  parse (PyStr.lower (PyStr.strip answer)) = None.

(** [c not in s] for a character. *)
Definition lacks (c : ascii) (s : string) : Prop :=
  PyStr.mem_char c s = false.

(** What processing one resource keeps. *)
Definition counted_once (st st' : Tse.run_state) (n : nat) : Prop :=
  accounted st' = accounted st + n
  /\ (length (Tse.failed_downloads st) = Tse.total_failed st ->
      length (Tse.failed_downloads st') = Tse.total_failed st')
  /\ (Tse.global_skip_all st && Tse.global_overwrite_all st = false ->
      Tse.global_skip_all st' && Tse.global_overwrite_all st' = false).


(** What is on disk at [path], nothing when there is no file. *)
Definition on_disk (w : world) (path : string) : list byte :=
  match fs w !! path with Some c => c | None => [] end.

(** The page of a year gives no list of resources: the request raises an
    exception of [requests], the status is an error, or no heading names
    the section of the resources. *)
Definition no_listing (pages : Tse.web) (year_url : string) (n : nat)
  : Prop :=
  match pages year_url n with
  | Raise (RequestException _) => True
  | Raise (HTTPError _) => True
  | Raise _ => False
  | Ok (status, page) =>
      (400 <=? status) && (status <? 600) = true
      \/ find Tse.is_dados_section (Tse.h2_strings page) = None
  end.

(** The characters of a name made from a title: alphanumerics, underscore,
    hyphen. *)
Definition title_char (c : ascii) : bool :=
  PyStr.isalnum c || Ascii.eqb c "_" || Ascii.eqb c "-".

(** The characters the pattern for a word keeps, on ASCII: alphanumerics
    and underscore. *)
Definition word_char (c : ascii) : bool :=
  PyStr.isalnum c || Ascii.eqb c "_".

(** [c] is not the slash. *)
Definition not_slash (c : ascii) : bool := negb (Ascii.eqb c "/").

(** [k] more requests, all of them GETs, and no wait; when no answer is
    left on the input, none appears and the files that exist stay as they
    are. *)
Definition after_gets (k : nat) (w w' : world) : Prop :=
  gets (trace w') = gets (trace w) + k
  /\ requests_made w' = requests_made w + k
  /\ sleeps (trace w') = sleeps (trace w)
  /\ (stdin w = [] ->
      stdin w' = []
      /\ forall p c, fs w !! p = Some c -> fs w' !! p = Some c).

(** A response [download_file] of diarios_ceara_scraper.py accepts for
    [filepath]: no error status, a readable length, no other name for the
    file. *)
Definition plain_answer {lib : PyLib} (filepath : string) (r : response)
  : Prop :=
  (400 <=? status_code r) && (status_code r <? 600) = false
  /\ content_length r <> BadLength
  /\ Doe.choose_filepath filepath r = filepath.

(** The three results of [download_file] of diarios_ceara_scraper.py. *)
Definition doe_result (res : bool * Doe.status) : Prop :=
  res = (true, Doe.downloaded) \/ res = (true, Doe.skipped)
  \/ res = (false, Doe.failed).


(** An exception of [requests]. *)
Definition request_error (e : exn) : Prop :=
  match e with
  | RequestException _ | HTTPError _ => True
  | _ => False
  end.

(** At most [k] more GETs, and nothing else: no file written, no answer
    read, no prompt, no wait. *)
Definition reads_only (k : nat) (w w' : world) : Prop :=
  fs w' = fs w /\ stdin w' = stdin w
  /\ gets (trace w') <= gets (trace w) + k
  /\ prompts (trace w') = prompts (trace w)
  /\ sleeps (trace w') = sleeps (trace w).

(** Every request for a page raises nothing but an exception of
    [requests]. *)
Definition raises_request_errors (pages : Tse.web) : Prop :=
  forall page_url n e, pages page_url n = Raise e -> request_error e.

(** ** The years and the menus *)

From Stdlib Require Import Sorted.

(** dados_tse_baixa.py: the years offered and the choice among them.
    [int_of] is [int(s)], with [None] for [ValueError]; [year_in] is the
    number read by the search, in the text of a link, for a word made of 19
    or 20 and two digits. *)
Module TseYears.
Import PyStr.

Definition CANDIDATOS_URL : string :=
  Tse.BASE_URL +:+ "/dataset/?groups=candidatos".

(** [c.isdigit()], on ASCII: the digits the pattern of the year needs are
    ASCII digits, so a text without them gives no year either way. *)
Definition isdigit (c : ascii) : bool :=
  let n := nat_of_ascii c in (48 <=? n) && (n <=? 57).

(** [any(p(c) for c in s)]. *)
Fixpoint any_char (p : ascii -> bool) (s : string) : bool :=
  match s with
  | EmptyString => false
  | String c s' => p c || any_char p s'
  end.

(** [s.split()]: the words between blanks. *)
Fixpoint words (s : string) : list string :=
  match s with
  | EmptyString => []
  | String c s' =>
      if isspace c then words s'
      else
        match s' with
        | EmptyString => [String c EmptyString]
        | String d _ =>
            if isspace d then String c EmptyString :: words s'
            else
              match words s' with
              | word :: rest => String c word :: rest
              | [] => [String c EmptyString]
              end
        end
  end.

(** [l[:n]] for an integer that may be negative. *)
Definition slice_to {A} (n : Z) (l : list A) : list A :=
  if (0 <=? n)%Z then firstn (Z.to_nat n) l
  else firstn (length l - Z.to_nat (- n)) l.

(** Lines 303-305: the entry of an index, when it is in range. *)
Definition pick {A} (available_years : list A) (idx : Z) : option A :=
  if (1 <=? idx)%Z && (idx <=? Z.of_nat (length available_years))%Z
  then available_years !! Z.to_nat (idx - 1)
  else None.

(** [years_data.sort(key=lambda x: x[0], reverse=True)]: the sort is
    stable, entries of the same year keep their order. *)
Fixpoint insert_desc (x : nat * string) (l : list (nat * string))
  : list (nat * string) :=
  match l with
  | [] => [x]
  | y :: l' => if fst x <? fst y then y :: insert_desc x l' else x :: l
  end.

Definition sort_desc (l : list (nat * string)) : list (nat * string) :=
  foldr insert_desc [] l.

Section WithLib.
Context {lib : PyLib} {urls : UrlErrors}.
Variable int_of : string -> option Z.
Variable year_in : string -> option nat.

(** Lines 56-76: what a link adds to [years_data]; [None] when it adds
    nothing.  [urljoin] at line 68 may raise [ValueError]. *)
Definition year_entry (base_url : string) (link : Tse.anchor)
  : outcome (option (nat * string)) :=
  match Tse.a_href link with
  | None => Ok None
  | Some href =>
      let text := Tse.a_text link in
      if contains text "Candidatos" && any_char isdigit text then
        match year_in text with
        | Some year =>
            if startswith href "/" then
              if urljoin_returns base_url href
              then Ok (Some (year, urljoin base_url href))
              else Raise ValueError
            else if startswith href "http" then Ok (Some (year, href))
            else Ok None
        | None => Ok None
        end
      else Ok None
  end.

(** Lines 55-76: the loop over the links, which an exception ends. *)
Fixpoint collect_years (base_url : string) (all_links : list Tse.anchor)
  (years_data : list (nat * string)) : outcome (list (nat * string)) :=
  match all_links with
  | [] => Ok years_data
  | link :: rest =>
      match year_entry base_url link with
      | Ok (Some entry) =>
          if bool_decide (entry ∈ years_data)
          then collect_years base_url rest years_data
          else collect_years base_url rest (years_data ++ [entry])
      | Ok None => collect_years base_url rest years_data
      | Raise e => Raise e
      end
  end.

(** Lines 39-86.  [None] is [sys.exit(1)]; line 84 catches the exceptions
    of [requests] and no other. *)
Definition get_election_years (pages : Tse.web) (base_url : string)
  : M (option (list (nat * string))) :=
  fun w =>
    match Tse.fetch pages CANDIDATOS_URL w with
    | (Ok page, w') =>
        match collect_years base_url (Tse.soup_anchors page) [] with
        | Ok years_data => (Ok (Some (sort_desc years_data)), w')
        | Raise e => (Raise e, w')
        end
    | (Raise (RequestException _), w') => (Ok None, w')
    | (Raise (HTTPError _), w') => (Ok None, w')
    | (Raise e, w') => (Raise e, w')
    end.

(** Lines 287-317: the answer, stripped and in lower case; [None] when the
    question is asked again. *)
Definition parse_selection {A} (available_years : list A) (choice : string)
  : option (list A) :=
  if mem_str choice ["all"; "a"] then Some available_years
  else if startswith choice "last " || startswith choice "l " then
    match last (words choice) with
    | Some word =>
        match int_of word with
        | Some n => Some (slice_to n available_years)
        | None => None
        end
    | None => None
    end
  else
    match mapM (fun x => int_of (strip x)) (SimpleLib.split_char "," choice)
    with
    | Some indices =>
        match omap (pick available_years) indices with
        | [] => None
        | selected => Some selected
        end
    | None => None
    end.

(** Lines 271-317. *)
Definition prompt_year_selection {A} (available_years : list A)
  : M (list A) :=
  prompt (parse_selection available_years).

End WithLib.
End TseYears.

(** diarios_ceara_scraper.py: the mode and its value.  [int_of] is
    [int(s)], [now_year] is [datetime.now().year]. *)
Module DoeInput.
Import PyStr.

Inductive mode := year | days.

(** The world after one [input()] that left [rest] on the input. *)
Definition asked (rest : list string) (w : world) : world :=
  {| fs := fs w; stdin := rest; trace := trace w ++ [EvPrompt] |}.

Section WithInt.
Variable int_of : string -> option Z.
Variable now_year : Z.

(** Lines 242-265: the loop, on the answers still to be read. *)
Fixpoint get_user_input_from (answers : list string) (w : world)
  : outcome (mode * Z) * world :=
  match answers with
  | [] => (Raise EOFError, asked [] w)
  | choice :: rest =>
      let w1 := asked rest w in
      if String.eqb (strip choice) "1" then
        match rest with
        | [] => (Raise EOFError, asked [] w1)
        | year_text :: rest' =>
            let w2 := asked rest' w1 in
            match int_of (strip year_text) with
            | Some year_int =>
                if (2000 <=? year_int)%Z && (year_int <=? now_year + 1)%Z
                then (Ok (year, year_int), w2)
                else get_user_input_from rest' w2
            | None => get_user_input_from rest' w2
            end
        end
      else if String.eqb (strip choice) "2" then
        match rest with
        | [] => (Raise EOFError, asked [] w1)
        | days_text :: rest' =>
            let w2 := asked rest' w1 in
            match int_of (strip days_text) with
            | Some days_int =>
                if (0 <? days_int)%Z
                then (Ok (days, days_int), w2)
                else get_user_input_from rest' w2
            | None => get_user_input_from rest' w2
            end
        end
      else get_user_input_from rest w1
  end.

(** Lines 235-265. *)
Definition get_user_input : M (mode * Z) :=
  fun w => get_user_input_from (stdin w) w.

End WithInt.
End DoeInput.

(** ** Predicates on the years and the menus *)

(** [b] is not more recent than [a]. *)
Definition not_older (a b : nat * string) : Prop := fst b <= fst a.

(** The URL of an entry: the href itself when it starts with http, or an
    href that starts with a slash joined to the base. *)
Definition resolved_url {lib : PyLib} (base_url : string)
  (entry : nat * string) : Prop :=
  PyStr.startswith (snd entry) "http" = true
  \/ exists href,
      PyStr.startswith href "/" = true
      /\ snd entry = urljoin base_url href.

(** [urljoin] raises on the href of the link, which line 68 hands to it:
    the text of the link names Candidatos and a year, and its href starts
    with a slash. *)
Definition unjoinable {urls : UrlErrors} (year_in : string -> option nat)
  (base_url : string) (link : Tse.anchor) : Prop :=
  exists href year,
    Tse.a_href link = Some href
    /\ PyStr.contains (Tse.a_text link) "Candidatos" = true
    /\ TseYears.any_char TseYears.isdigit (Tse.a_text link) = true
    /\ year_in (Tse.a_text link) = Some year
    /\ PyStr.startswith href "/" = true
    /\ urljoin_returns base_url href = false.

(** What [get_election_years] returns for a page. *)
Definition years_of_page {lib : PyLib} {urls : UrlErrors}
  (year_in : string -> option nat)
  (base_url : string) (page : Tse.soup) (years : list (nat * string))
  : Prop :=
  StronglySorted not_older years
  /\ NoDup years
  /\ (forall entry,
        entry ∈ years
        <-> exists link,
              link ∈ Tse.soup_anchors page
              /\ TseYears.year_entry year_in base_url link
                 = Ok (Some entry))
  /\ Forall (resolved_url base_url) years.

(** What an answer to the menu of the years selects, in the words of the
    menu: all the years; the first N of the list for last N, or all but
    the last -N when N is negative; the years whose numbers are given, in
    the order given, the numbers out of range being dropped, if one is
    left. *)
Inductive answer_selects {A} (int_of : string -> option Z)
  (available_years : list A) (choice : string) : list A -> Prop :=
| selects_all :
    choice = "all" \/ choice = "a" ->
    answer_selects int_of available_years choice available_years
| selects_first (word : string) (n : Z) :
    ~ (choice = "all" \/ choice = "a") ->
    PyStr.startswith choice "last " = true
    \/ PyStr.startswith choice "l " = true ->
    last (TseYears.words choice) = Some word ->
    int_of word = Some n ->
    (0 <= n)%Z ->
    answer_selects int_of available_years choice
      (firstn (Z.to_nat n) available_years)
| selects_but_last (word : string) (n : Z) :
    ~ (choice = "all" \/ choice = "a") ->
    PyStr.startswith choice "last " = true
    \/ PyStr.startswith choice "l " = true ->
    last (TseYears.words choice) = Some word ->
    int_of word = Some n ->
    (n < 0)%Z ->
    answer_selects int_of available_years choice
      (firstn (length available_years - Z.to_nat (- n)) available_years)
| selects_numbers (indices : list Z) (selected : list A) :
    ~ (choice = "all" \/ choice = "a") ->
    PyStr.startswith choice "last " = false ->
    PyStr.startswith choice "l " = false ->
    Forall2 (fun x idx => int_of (PyStr.strip x) = Some idx)
            (SimpleLib.split_char "," choice) indices ->
    selected = omap (TseYears.pick available_years) indices ->
    selected <> [] ->
    answer_selects int_of available_years choice selected.

(** A value [get_user_input] accepts. *)
Definition valid_input (now_year : Z) (input : DoeInput.mode * Z) : Prop :=
  match fst input with
  | DoeInput.year => (2000 <= snd input <= now_year + 1)%Z
  | DoeInput.days => (0 < snd input)%Z
  end.

(** ** More sample inputs *)

Module Case.
Import Sample Server.

(** An answer whose stream breaks after two bytes. *)
Definition breaking_answer : response :=
  {| status_code := 200;
     content_length := Length 5;
     content_disposition := EmptyString;
     body := [partial];
     body_error := Some down |}.

(** A server whose first answer breaks after two bytes and which then
    serves [content] and honours ranges. *)
Definition flaky_server : transport :=
  fun url range n =>
    if n =? 0 then Ok breaking_answer else range_server content url range n.

(** A server that does not have the file. *)
Definition missing_server : transport :=
  fun _ _ _ => Ok (answer 404 []).

(** A server whose every answer breaks after two bytes. *)
Definition breaking_server : transport :=
  fun _ _ _ => Ok breaking_answer.

(** The policy after the answer oa. *)
Definition overwriting_all : Tse.run_state :=
  Tse.set_flags Tse.initial_state false true.

(** A download URL whose path ends with a slash. *)
Definition folder_url : string :=
  "https://dadosabertos.tse.jus.br/dataset/candidatos-2022/".

(** [int] on the decimal digits, with a sign. *)
Definition digit_of (c : ascii) : option Z :=
  let n := nat_of_ascii c in
  if (48 <=? n) && (n <=? 57) then Some (Z.of_nat (n - 48)) else None.

Fixpoint digits_of (acc : Z) (s : string) : option Z :=
  match s with
  | EmptyString => Some acc
  | String c s' =>
      match digit_of c with
      | Some d => digits_of (10 * acc + d)%Z s'
      | None => None
      end
  end.

Definition int_of (s : string) : option Z :=
  match PyStr.strip s with
  | EmptyString => None
  | String "-" EmptyString => None
  | String "-" r => option_map Z.opp (digits_of 0 r)
  | r => digits_of 0 r
  end.

(** The first year that follows the word Candidatos and a hyphen. *)
Definition year_after_candidatos (text : string) : option nat :=
  match SimpleLib.split_on "Candidatos - " text with
  | Some (_, r) =>
      match digits_of 0 (PyStr.take 4 r) with
      | Some y => Some (Z.to_nat y)
      | None => None
      end
  | None => None
  end.

Definition year_link (text href : string) : Tse.anchor :=
  {| Tse.a_string := Some text; Tse.a_text := text;
     Tse.a_href := Some href |}.

(** A page of the portal: three years, one of them twice, one link without
    a year and one whose href is relative to the page. *)
Definition years_page : Tse.soup :=
  {| Tse.h2_strings := [];
     Tse.resource_items := [];
     Tse.soup_anchors :=
       [year_link "Candidatos - 2020" "/dataset/candidatos-2020";
        year_link "Candidatos - 2024" "/dataset/candidatos-2024";
        year_link "Sobre" "/about";
        year_link "Candidatos - 2020" "/dataset/candidatos-2020";
        year_link "Candidatos - 2022"
          "https://dadosabertos.tse.jus.br/dataset/candidatos-2022";
        year_link "Candidatos - 2018" "dataset/candidatos-2018"] |}.

Definition years_web : Tse.web := fun _ _ => Ok (200, years_page).

(** The same page with one more link, whose href names a host that opens
    a bracket and does not close it. *)
Definition broken_years_page : Tse.soup :=
  {| Tse.h2_strings := [];
     Tse.resource_items := [];
     Tse.soup_anchors :=
       Tse.soup_anchors years_page
       ++ [year_link "Candidatos - 2016" "//[tse/dataset/candidatos-2016"] |}.

Definition broken_years_web : Tse.web :=
  fun _ _ => Ok (200, broken_years_page).

(** The page of a year, with one resource. *)
Definition resources_page : Tse.soup :=
  {| Tse.h2_strings := [Some "Dados e recursos"];
     Tse.resource_items := [zip_item];
     Tse.soup_anchors := [] |}.

Definition resources_web : Tse.web := fun _ _ => Ok (200, resources_page).

End Case.
Example lower_ex : PyStr.lower "Baixar.PDF" = "baixar.pdf".
Proof. reflexivity. Qed.
Example strip_ex : PyStr.strip "  sa " = "sa".
Proof. reflexivity. Qed.
Example rstrip_ex : PyStr.rstrip "http://x/a.zip. " ". " = "http://x/a.zip".
Proof. reflexivity. Qed.
Example basename_ex : OsPath.basename "/doepesquisa/baixar" = "baixar".
Proof. reflexivity. Qed.
Example dirname_ex : OsPath.dirname "diarios_ceara/2024/baixar.pdf" = "diarios_ceara/2024".
Proof. reflexivity. Qed.
Example join_ex : OsPath.join "diarios_ceara/2024" "x.pdf" = "diarios_ceara/2024/x.pdf".
Proof. reflexivity. Qed.

(** * Properties *)

(** ** Strings *)

Section StringFacts.
Import PyStr.

Lemma app_cons (c : ascii) (s t : string) :
  String c s +:+ t = String c (s +:+ t).
Proof. reflexivity. Qed.

Lemma app_empty_l (t : string) : EmptyString +:+ t = t.
Proof. reflexivity. Qed.

Lemma app_assoc_str (a b c : string) : (a +:+ b) +:+ c = a +:+ (b +:+ c).
Proof.
  induction a as [|x a IH]; [reflexivity|].
  rewrite !app_cons. by rewrite IH.
Qed.

Lemma app_length_str (a b : string) :
  String.length (a +:+ b) = String.length a + String.length b.
Proof.
  induction a as [|x a IH]; [reflexivity|].
  rewrite app_cons. simpl. by rewrite IH.
Qed.

Lemma eqb_refl_str (s : string) : String.eqb s s = true.
Proof. apply String.eqb_refl. Qed.

Lemma endswith_self (s : string) : endswith s s = true.
Proof. destruct s; cbn [endswith]; by rewrite eqb_refl_str. Qed.

(** [endswith] is the suffix relation. *)
Lemma endswith_spec (s suf : string) :
  endswith s suf = true <-> exists p, s = p +:+ suf.
Proof.
  split.
  - induction s as [|c s IH]; cbn [endswith].
    + rewrite orb_false_r. intros H. apply String.eqb_eq in H.
      exists EmptyString. by subst.
    + intros H. apply orb_true_iff in H as [H|H].
      * apply String.eqb_eq in H. exists EmptyString. by rewrite <- H.
      * destruct (IH H) as [p ->]. exists (String c p). reflexivity.
  - intros [p ->]. induction p as [|c p IH].
    + rewrite app_empty_l. apply endswith_self.
    + rewrite app_cons. cbn [endswith]. rewrite IH. apply orb_true_r.
Qed.

Lemma endswith_app (s suf : string) : endswith (s +:+ suf) suf = true.
Proof. apply endswith_spec. by exists s. Qed.

Lemma endswith_nonempty (s suf : string) :
  endswith s suf = true -> suf <> EmptyString -> s <> EmptyString.
Proof.
  intros H Hsuf ->. cbn [endswith] in H. rewrite orb_false_r in H.
  apply String.eqb_eq in H. by subst.
Qed.

(** A suffix of a suffix is a suffix. *)
Lemma endswith_tail (s a b : string) :
  endswith s (a +:+ b) = true -> endswith s b = true.
Proof.
  intros H. apply endswith_spec in H as [p ->].
  rewrite <- app_assoc_str. apply endswith_app.
Qed.

(** Two suffixes of the same length are the same. *)
Lemma app_inv_same_length (p q a b : string) :
  p +:+ a = q +:+ b -> String.length a = String.length b -> a = b.
Proof.
  revert q. induction p as [|c p IH]; intros q H Hlen.
  - rewrite app_empty_l in H. subst a.
    destruct q as [|d q]; [reflexivity|].
    rewrite app_length_str in Hlen. simpl in Hlen. lia.
  - destruct q as [|d q].
    + rewrite app_empty_l in H. subst b.
      rewrite app_length_str in Hlen. simpl in Hlen. lia.
    + rewrite !app_cons in H. injection H as _ H. eauto.
Qed.

Lemma endswith_same_length (s a b : string) :
  endswith s a = true -> endswith s b = true ->
  String.length a = String.length b -> a = b.
Proof.
  intros Ha Hb Hlen.
  apply endswith_spec in Ha as [p ->]. apply endswith_spec in Hb as [q Hq].
  by eapply app_inv_same_length.
Qed.

Lemma startswith_app (p r : string) : startswith (p +:+ r) p = true.
Proof.
  induction p as [|c p IH]; [reflexivity|].
  rewrite app_cons. simpl. by rewrite Ascii.eqb_refl, IH.
Qed.

(** A string that holds [sub] between two others contains it. *)
Lemma contains_app (a sub b : string) :
  contains (a +:+ sub +:+ b) sub = true.
Proof.
  induction a as [|c a IH].
  - rewrite app_empty_l.
    destruct sub as [|d sub]; [by destruct b|].
    rewrite app_cons. cbn [contains].
    rewrite <- app_cons, startswith_app. reflexivity.
  - rewrite app_cons. cbn [contains]. rewrite IH. apply orb_true_r.
Qed.


Lemma all_chars_filter (p : ascii -> bool) (s : string) :
  all_chars p (filter_chars p s) = true.
Proof.
  induction s as [|c s IH]; [reflexivity|].
  simpl. destruct (p c) eqn:E; [|done]. simpl. by rewrite E, IH.
Qed.

Lemma all_chars_app (p : ascii -> bool) (a b : string) :
  all_chars p (a +:+ b) = all_chars p a && all_chars p b.
Proof.
  induction a as [|c a IH]; [reflexivity|].
  rewrite app_cons. simpl. rewrite IH. by rewrite andb_assoc.
Qed.

End StringFacts.

Section SuffixFacts.
Import PyStr.

(** Of two suffixes of a string, one is a suffix of the other. *)
Lemma suffixes_comparable (s a b : string) :
  endswith s a = true -> endswith s b = true ->
  endswith a b = true \/ endswith b a = true.
Proof.
  intros Ha Hb.
  apply endswith_spec in Ha as [p ->]. apply endswith_spec in Hb as [q Hq].
  revert q Hq. induction p as [|c p IH]; intros q Hq.
  - left. apply endswith_spec. exists q. by rewrite app_empty_l in Hq.
  - destruct q as [|d q].
    + right. apply endswith_spec. exists (String c p).
      by rewrite app_empty_l in Hq.
    + rewrite !app_cons in Hq. injection Hq as _ Hq. eauto.
Qed.

Lemma endswith_any_false (s : string) (sufs : list string) :
  endswith_any s sufs = false ->
  forall suf, In suf sufs -> endswith s suf = false.
Proof.
  unfold endswith_any. intros H suf Hin.
  destruct (endswith s suf) eqn:E; [|done].
  assert (existsb (endswith s) sufs = true) as F
    by (apply existsb_exists; eauto).
  congruence.
Qed.
End SuffixFacts.

(** When [H] says that [s] ends with one extension, the test for another
    one fails. *)
Ltac other_suffix H :=
  match goal with
  | |- context [PyStr.endswith ?s ?b] =>
      let E := fresh "E" in
      destruct (PyStr.endswith s b) eqn:E;
      [ first
          [ reflexivity
          | exfalso;
            destruct (suffixes_comparable _ _ _ H E) as [F|F];
            vm_compute in F; discriminate F ]
      | ]
  end.

(** ** Formats (dados_tse_baixa.py) *)

Section Format.
Context {lib : PyLib}.
Import PyStr.

Lemma file_format_of_empty :
  Tse.file_format_of EmptyString = "unknown".
Proof. reflexivity. Qed.

(** The table of lines 173-184 does not depend on the order of the tests. *)
Lemma file_format_table (download_url : string) :
  let path := lower (urlparse_path download_url) in
  (endswith path ".zip" = true -> Tse.file_format_of download_url = "ZIP")
  /\ (endswith path ".csv" = true -> Tse.file_format_of download_url = "CSV")
  /\ (endswith path ".pdf" = true -> Tse.file_format_of download_url = "PDF")
  /\ (endswith path ".txt" = true -> Tse.file_format_of download_url = "TXT")
  /\ (endswith path ".xlsx" = true -> Tse.file_format_of download_url = "XLSX")
  /\ (endswith path ".xls" = true -> Tse.file_format_of download_url = "XLSX")
  /\ (endswith path ".jpg" = true -> Tse.file_format_of download_url = "JPEG")
  /\ (endswith path ".jpeg" = true -> Tse.file_format_of download_url = "JPEG")
  /\ (endswith_any path Tse.EXTENSIONS = false ->
      Tse.file_format_of download_url = "unknown").
Proof.
  intros path.
  assert (nonempty download_url = false -> path = EmptyString) as Hempty.
  { destruct download_url; [|discriminate]. intros _. unfold path.
    by rewrite urlparse_path_empty. }
  unfold Tse.file_format_of. fold path.
  destruct (nonempty download_url) eqn:Hne.
  2:{ specialize (Hempty eq_refl). rewrite Hempty.
      repeat split; intros H; first [discriminate H | reflexivity]. }
  clear Hempty. unfold endswith_any. cbn [existsb].
  repeat split; intros H.
  - by rewrite H.
  - repeat (first [rewrite H; cbn [orb] | other_suffix H]); reflexivity.
  - repeat (first [rewrite H; cbn [orb] | other_suffix H]); reflexivity.
  - repeat (first [rewrite H; cbn [orb] | other_suffix H]); reflexivity.
  - repeat (first [rewrite H; cbn [orb] | other_suffix H]); reflexivity.
  - repeat (first [rewrite H; cbn [orb] | other_suffix H]); reflexivity.
  - repeat (first [rewrite H; cbn [orb] | other_suffix H]); reflexivity.
  - repeat (first [rewrite H; cbn [orb] | other_suffix H]); reflexivity.
  - unfold Tse.EXTENSIONS in H. cbn [existsb] in H.
    repeat (apply orb_false_iff in H as [? H]).
    repeat match goal with E : endswith path _ = false |- _ =>
             rewrite E; clear E end.
    reflexivity.
Qed.

(** The format of a resource is the format of its URL. *)
Lemma resource_format_of_url (pages : Tse.web) (item : Tse.res_item)
  (w w' : world) (r : Tse.resource) :
  Tse.resource_of_item pages item w = (Ok (Some r), w') ->
  Tse.format r = Tse.file_format_of (Tse.url r).
Proof.
  unfold Tse.resource_of_item.
  destruct (match Tse.heading_text item with
            | Some t => Some t
            | None => _ end) as [title|]; [|discriminate].
  destruct (Tse.find_download_link item) as [a|]; [|discriminate].
  unfold bind.
  destruct (Tse.follow_resource_page pages (Tse.href_of a) w)
    as [[followed|e] w1]; [|discriminate].
  unfold ret. intros [= <- <-]. reflexivity.
Qed.

End Format.

(** C9.  Every resource produced by [get_resources_from_year] carries the
    format that the extension table assigns to the path of its download URL,
    compared in lower case: .zip gives ZIP, .csv CSV, .pdf PDF, .txt TXT,
    .xlsx and .xls XLSX, .jpg and .jpeg JPEG; when the path ends with none
    of them the format is unknown. *)
Theorem format_from_url_suffix {lib : PyLib} (pages : Tse.web)
  (item : Tse.res_item) (w w' : world) (r : Tse.resource) :
  Tse.resource_of_item pages item w = (Ok (Some r), w') ->
  let path := PyStr.lower (urlparse_path (Tse.url r)) in
  (PyStr.endswith path ".zip" = true -> Tse.format r = "ZIP")
  /\ (PyStr.endswith path ".csv" = true -> Tse.format r = "CSV")
  /\ (PyStr.endswith path ".pdf" = true -> Tse.format r = "PDF")
  /\ (PyStr.endswith path ".txt" = true -> Tse.format r = "TXT")
  /\ (PyStr.endswith path ".xlsx" = true -> Tse.format r = "XLSX")
  /\ (PyStr.endswith path ".xls" = true -> Tse.format r = "XLSX")
  /\ (PyStr.endswith path ".jpg" = true -> Tse.format r = "JPEG")
  /\ (PyStr.endswith path ".jpeg" = true -> Tse.format r = "JPEG")
  /\ (PyStr.endswith_any path Tse.EXTENSIONS = false ->
      Tse.format r = "unknown").
Proof.
  intros H. rewrite (resource_format_of_url _ _ _ _ _ H).
  apply file_format_table.
Qed.

(** ** Computations *)

Section MonadFacts.
Context {A B : Type}.

Lemma post_ret (a : A) (w : world) (Q : A -> world -> Prop) :
  Q a w -> post (ret a) w Q.
Proof. done. Qed.

Lemma post_bind (m : M A) (k : A -> M B) (w : world)
  (Q : B -> world -> Prop) :
  post m w (fun a w1 => post (k a) w1 Q) -> post (bind m k) w Q.
Proof.
  unfold post, bind. destruct (m w) as [[a|e] w1]; [|done]. done.
Qed.

Lemma post_mono (m : M A) (w : world) (Q Q' : A -> world -> Prop) :
  (forall a w', Q a w' -> Q' a w') -> post m w Q -> post m w Q'.
Proof. unfold post. destruct (m w) as [[a|e] w1]; eauto. Qed.

Lemma post_elim (m : M A) (w : world) (Q : A -> world -> Prop) :
  post m w Q -> exists a w', m w = (Ok a, w') /\ Q a w'.
Proof. unfold post. destruct (m w) as [[a|e] w1]; [eauto|done]. Qed.

Lemma post_intro (m : M A) (w w' : world) (a : A)
  (Q : A -> world -> Prop) :
  m w = (Ok a, w') -> Q a w' -> post m w Q.
Proof. unfold post. by intros ->. Qed.

Lemma preserves_ret (R : world -> world -> Prop) `{!Reflexive R} (a : A) :
  preserves R (ret a).
Proof. intros w. simpl. reflexivity. Qed.

Lemma preserves_raise (R : world -> world -> Prop) `{!Reflexive R}
  (e : exn) : preserves R (raise e : M A).
Proof. intros w. simpl. reflexivity. Qed.

Lemma preserves_bind (R : world -> world -> Prop) `{!Transitive R}
  (m : M A) (k : A -> M B) :
  preserves R m -> (forall a, preserves R (k a)) ->
  preserves R (bind m k).
Proof.
  intros Hm Hk w. unfold bind. specialize (Hm w).
  destruct (m w) as [[a|e] w1]; simpl in *; [|done].
  etransitivity; [exact Hm|apply Hk].
Qed.

Lemma preserves_try_except (R : world -> world -> Prop) `{!Transitive R}
  (m : M A) (h : exn -> M A) :
  preserves R m -> (forall e, preserves R (h e)) ->
  preserves R (try_except m h).
Proof.
  intros Hm Hh w. unfold try_except. specialize (Hm w).
  destruct (m w) as [[a|e] w1]; simpl in *; [done|].
  etransitivity; [exact Hm|apply Hh].
Qed.

(** A [try] whose handler returns a value returns a value. *)
Lemma try_except_returns (m : M A) (h : exn -> A) (w : world) :
  exists a, try_except m (fun e => ret (h e)) w = (Ok a, snd (m w)).
Proof.
  unfold try_except. destruct (m w) as [[a|e] w1]; simpl; eauto.
Qed.
End MonadFacts.

Lemma prompts_app (t u : list event) :
  prompts (t ++ u) = prompts t + prompts u.
Proof.
  induction t as [|e t IH]; [done|]. destruct e; simpl; by rewrite ?IH.
Qed.

Lemma gets_app (t u : list event) : gets (t ++ u) = gets t + gets u.
Proof.
  induction t as [|e t IH]; [done|]. destruct e; simpl; by rewrite ?IH.
Qed.

Lemma sleeps_app (t u : list event) : sleeps (t ++ u) = sleeps t ++ sleeps u.
Proof.
  induction t as [|e t IH]; [done|]. destruct e; simpl; by rewrite ?IH.
Qed.

Lemma bytes_received_app (t u : list event) :
  bytes_received (t ++ u) = bytes_received t + bytes_received u.
Proof.
  induction t as [|e t IH]; [done|]. destruct e; simpl; rewrite ?IH; lia.
Qed.

#[local] Instance quiet_refl : Reflexive quiet.
Proof. by intros w. Qed.
#[local] Instance quiet_trans : Transitive quiet.
Proof. intros a b c [? ?] [? ?]. split; congruence. Qed.
#[local] Instance offline_refl : Reflexive offline.
Proof. by intros w. Qed.
#[local] Instance offline_trans : Transitive offline.
Proof. intros a b c [? ?] [? ?]. split; congruence. Qed.

Lemma quiet_get_world : preserves quiet get_world.
Proof. by intros w. Qed.

Lemma quiet_http_get (net : transport) (url : string) (range : option nat) :
  preserves quiet (http_get net url range).
Proof.
  intros w. split; simpl; [done|]. rewrite prompts_app. simpl. lia.
Qed.

Lemma quiet_check_status (status : nat) : preserves quiet (check_status status).
Proof. intros w. unfold check_status. by destruct (_ && _). Qed.

Lemma quiet_int_content_length (r : response) :
  preserves quiet (int_content_length r).
Proof. intros w. unfold int_content_length. by destruct (content_length r). Qed.

Lemma quiet_write_stream (path : string) (mode : open_mode) (r : response) :
  preserves quiet (write_stream path mode r).
Proof.
  intros w. unfold write_stream.
  destruct (body_error r); split; simpl; try done;
    rewrite prompts_app; simpl; lia.
Qed.

Lemma quiet_sleep (n : nat) : preserves quiet (sleep n).
Proof.
  intros w. split; simpl; [done|]. rewrite prompts_app. simpl. lia.
Qed.

(** The chunk loop appends the chunks. *)
Lemma write_chunks_concat (start : list byte) (chunks : list (list byte)) :
  write_chunks start chunks = start ++ concat chunks.
Proof.
  unfold write_chunks. revert start.
  induction chunks as [|c chunks IH]; intros start; simpl.
  - by rewrite app_nil_r.
  - rewrite IH. destruct c; [done|]. by rewrite <- app_assoc.
Qed.

(** ** The existing-file policy (dados_tse_baixa.py) *)

Section Policy.
Context {lib : PyLib}.

(** With the skip-all flag set, [handle_existing_file] answers at once:
    [skip] for a file that exists, [overwrite] for one that does not. *)
Lemma handle_existing_file_skip_all (filepath : string) (go : bool)
  (w : world) :
  Tse.handle_existing_file filepath true go w
  = (Ok (if path_exists w filepath then Tse.skip else Tse.overwrite,
         true, go), w).
Proof.
  unfold Tse.handle_existing_file, bind, get_world, ret.
  by destruct (path_exists w filepath).
Qed.

(** The answer sa to the prompt sets the flag. *)
Lemma handle_existing_file_sa (filepath a : string) (rest : list string)
  (w : world) :
  path_exists w filepath = true -> stdin w = a :: rest ->
  PyStr.lower (PyStr.strip a) = "sa" ->
  Tse.handle_existing_file filepath false false w
  = (Ok (Tse.skip, true, false),
     {| fs := fs w; stdin := rest; trace := trace w ++ [EvPrompt] |}).
Proof.
  intros Hex Hin Ha.
  unfold Tse.handle_existing_file, bind, get_world.
  rewrite Hex. cbn [negb]. unfold prompt. rewrite Hin.
  cbn [prompt_loop]. by rewrite Ha.
Qed.

Lemma tse_download_file_quiet (net : transport) (url p : string) :
  preserves quiet (Tse.download_file net url p).
Proof.
  unfold Tse.download_file.
  apply preserves_try_except; [apply _| |intros; by apply preserves_ret].
  apply preserves_bind; [apply _|apply quiet_get_world|intros w0].
  apply preserves_bind; [apply _|apply quiet_http_get|intros resp].
  apply preserves_bind; [apply _| |intros rr].
  { destruct (_ =? 416); [|by apply preserves_ret].
    apply preserves_bind; [apply _|apply quiet_http_get|].
    intros; by apply preserves_ret. }
  apply preserves_bind; [apply _|apply quiet_check_status|intros _].
  apply preserves_bind; [apply _|apply quiet_int_content_length|intros n].
  apply preserves_bind; [apply _|apply quiet_get_world|intros w1].
  apply preserves_bind; [apply _|apply quiet_write_stream|intros _].
  by apply preserves_ret.
Qed.

(** [download_file] catches every exception. *)
Lemma tse_download_file_returns (net : transport) (url p : string)
  (w : world) :
  exists r w', Tse.download_file net url p w = (Ok r, w') /\ quiet w w'.
Proof.
  pose proof (tse_download_file_quiet net url p w) as Hq.
  unfold Tse.download_file in *.
  match goal with
  | |- context [try_except ?m _] =>
      destruct (try_except_returns m (fun e => (false, Some e)) w)
        as [a Ha]
  end.
  rewrite Ha in *. eauto.
Qed.

Lemma retry_loop_quiet (net : transport) (year : string)
  (res : Tse.resource) (p : string) (m : nat) (attempts : list nat)
  (st : Tse.run_state) (w : world) :
  post (Tse.retry_loop net year res p m attempts st) w
       (fun st' w' => same_flags st st' /\ quiet w w').
Proof.
  revert st w. induction attempts as [|attempt rest IH]; intros st w.
  - by apply post_ret.
  - cbn [Tse.retry_loop]. apply post_bind.
    assert (post (if 1 <? attempt then sleep (2 ^ attempt) else ret tt) w
                 (fun _ w1 => quiet w w1)) as Hs.
    { destruct (1 <? attempt); [|by apply post_ret].
      unfold post. simpl. apply (quiet_sleep _ w). }
    eapply post_mono; [|exact Hs]. clear Hs. intros u w1 Hq1. simpl in Hq1.
    apply post_bind.
    destruct (tse_download_file_returns net (Tse.url res) p w1)
      as (r & w2 & Hd & Hq2).
    eapply post_intro; [exact Hd|].
    assert (quiet w w2) as Hq by (etransitivity; eauto).
    destruct (fst r).
    { apply post_ret. by split. }
    destruct (attempt <? m).
    + eapply post_mono; [|apply IH]. intros st' w' [Hf Hq3].
      split; [done|]. etransitivity; eauto.
    + eapply post_mono; [|apply IH]. intros st' w' [[Hf1 Hf2] Hq3].
      split; [by split|]. etransitivity; eauto.
Qed.

Lemma process_resource_skip_all (net : transport) (year year_dir : string)
  (res : Tse.resource) (st : Tse.run_state) (w : world) :
  Tse.global_skip_all st = true ->
  post (Tse.process_resource net year year_dir res st) w
       (fun st' w' => same_flags st st' /\ quiet w w').
Proof.
  intros Hs. unfold Tse.process_resource. apply post_bind. rewrite Hs.
  eapply post_intro; [apply handle_existing_file_skip_all|]. cbn [fst snd].
  destruct (path_exists w _).
  - apply post_ret. unfold same_flags. cbn. rewrite Hs.
    split; [split|]; reflexivity.
  - eapply post_mono; [|apply retry_loop_quiet].
    intros st' w' [[Hf1 Hf2] Hq]. cbn [Tse.set_flags Tse.global_skip_all
      Tse.global_overwrite_all] in *. unfold same_flags. rewrite Hs.
    split; [split|]; assumption.
Qed.

Lemma process_resources_skip_all (net : transport) (year year_dir : string)
  (resources : list Tse.resource) (st : Tse.run_state) (w : world) :
  Tse.global_skip_all st = true ->
  post (Tse.process_resources net year year_dir resources st) w
       (fun st' w' => same_flags st st' /\ quiet w w').
Proof.
  revert st w. induction resources as [|res rest IH]; intros st w Hs.
  - by apply post_ret.
  - cbn [Tse.process_resources]. apply post_bind.
    eapply post_mono; [|by apply process_resource_skip_all].
    intros st1 w1 [[Hf1 Hf2] Hq1].
    eapply post_mono; [|apply IH; congruence].
    intros st2 w2 [[Hf3 Hf4] Hq2].
    split; [split; congruence|]. etransitivity; eauto.
Qed.
End Policy.

(** C1 (as amended).  Once the skip-all flag is set, every call of
    [handle_existing_file] returns at once, without a prompt and with the
    world and the flags as they were: [skip] for every path that exists,
    [overwrite] for every path that does not exist.  The flag stays set
    through the rest of the run: processing any list of resources returns
    normally, reads no answer, shows no prompt and leaves both flags as they
    were. *)
Theorem skip_all_is_permanent {lib : PyLib} (net : transport)
  (year year_dir : string) (resources : list Tse.resource)
  (st : Tse.run_state) (w : world) :
  Tse.global_skip_all st = true ->
  (forall filepath w1,
      Tse.handle_existing_file filepath (Tse.global_skip_all st)
        (Tse.global_overwrite_all st) w1
      = (Ok (if path_exists w1 filepath then Tse.skip else Tse.overwrite,
             true, Tse.global_overwrite_all st), w1))
  /\ exists st' w',
      Tse.process_resources net year year_dir resources st w = (Ok st', w')
      /\ Tse.global_skip_all st' = true
      /\ Tse.global_overwrite_all st' = Tse.global_overwrite_all st
      /\ stdin w' = stdin w
      /\ prompts (trace w') = prompts (trace w).
Proof.
  intros Hs. split.
  - intros filepath w1. rewrite Hs. apply handle_existing_file_skip_all.
  - destruct (post_elim _ _ _
                (process_resources_skip_all net year year_dir resources st w Hs))
      as (st' & w' & Hrun & [Hf1 Hf2] & Hq1 & Hq2).
    exists st', w'. repeat split; try done. congruence.
Qed.

(** ** The downloader of dados_tse_baixa.py *)

Section TseDownload.
Context {lib : PyLib}.

Lemma check_status_ok (status : nat) (w : world) :
  (400 <=? status) && (status <? 600) = false ->
  check_status status w = (Ok tt, w).
Proof. unfold check_status. by intros ->. Qed.

Lemma int_content_length_ok (r : response) (w : world) :
  content_length r <> BadLength ->
  exists n, int_content_length r w = (Ok n, w).
Proof.
  unfold int_content_length. destruct (content_length r); eauto. done.
Qed.

(** Resuming: the file holds [old], the server honours ranges. *)
Lemma tse_download_file_resumes (net : transport) (url path : string)
  (content old : list byte) (w : world) :
  serves_ranges net url content ->
  fs w !! path = Some old ->
  length old < length content ->
  Tse.download_file net url path w
  = (Ok (true, None),
     {| fs := <[path := old ++ drop (length old) content]> (fs w);
        stdin := stdin w;
        trace := trace w ++ [EvGet url (Some (length old));
                             EvRecv (length content - length old)] |}).
Proof.
  intros Hnet Hold Hlt.
  destruct (Hnet (length old) (requests_made w) Hlt)
    as (r & Hr & Hst & Hcl & Hbody & Herr).
  unfold Tse.download_file, try_except, bind, get_world, http_get.
  unfold Tse.resume_offset, path_exists, getsize. rewrite Hold, Hr, Hst.
  cbn [Nat.eqb ret fst snd]. unfold raise_for_status. rewrite Hst.
  rewrite check_status_ok by reflexivity.
  destruct (int_content_length_ok r (log (EvGet url (Some (length old))) w) Hcl)
    as [n ->].
  unfold write_stream, log. cbn [fs stdin trace]. rewrite Hold, Herr.
  rewrite bool_decide_eq_true_2 by done. cbn [andb].
  rewrite write_chunks_concat, Hbody, length_drop.
  by rewrite <- app_assoc.
Qed.

(** Starting: there is no file, no range is asked. *)
Lemma tse_download_file_starts (net : transport) (url path : string)
  (content : list byte) (w : world) :
  serves_full net url content ->
  fs w !! path = None ->
  Tse.download_file net url path w
  = (Ok (true, None),
     {| fs := <[path := content]> (fs w);
        stdin := stdin w;
        trace := trace w ++ [EvGet url None; EvRecv (length content)] |}).
Proof.
  intros Hfull Hnone.
  destruct (Hfull (requests_made w)) as (r & Hr & Hst & Hcl & Hbody & Herr).
  unfold Tse.download_file, try_except, bind, get_world, http_get.
  unfold Tse.resume_offset, path_exists, getsize. rewrite Hnone, Hr, Hst.
  cbn [Nat.eqb ret fst snd]. unfold raise_for_status. rewrite Hst.
  rewrite check_status_ok by reflexivity.
  destruct (int_content_length_ok r (log (EvGet url None) w) Hcl) as [n ->].
  unfold write_stream, log. cbn [fs stdin trace]. rewrite Herr.
  rewrite bool_decide_eq_false_2 by (by intros [? ?]). cbn [andb].
  rewrite write_chunks_concat, Hbody. cbn [app].
  by rewrite <- !app_assoc.
Qed.

(** A request that raises: [download_file] reports the exception. *)
Lemma tse_download_file_fails (net : transport) (url path : string)
  (w : world) (e : exn) :
  net url (Tse.resume_offset w path) (requests_made w) = Raise e ->
  Tse.download_file net url path w
  = (Ok (false, Some e), log (EvGet url (Tse.resume_offset w path)) w).
Proof.
  intros H.
  unfold Tse.download_file, try_except, bind, get_world, http_get.
  by rewrite H.
Qed.

Lemma resume_offset_same_files (w w' : world) (path : string) :
  fs w' = fs w -> Tse.resume_offset w' path = Tse.resume_offset w path.
Proof.
  intros H. unfold Tse.resume_offset, path_exists, getsize. by rewrite H.
Qed.

(** The three attempts of [main] on a transport that always raises. *)
Lemma retry_loop_always_raises (net : transport) (year : string)
  (res : Tse.resource) (path : string) (st : Tse.run_state) (w : world) :
  always_raises net (Tse.url res) ->
  let range := Tse.resume_offset w path in
  exists e,
    Tse.retry_loop net year res path Tse.max_retries
      (seq 1 Tse.max_retries) st w
    = (Ok (Tse.count_failed
             {| Tse.f_year := year; Tse.f_filename := Tse.name res;
                Tse.f_url := Tse.url res; Tse.f_error := Some e |} st),
       {| fs := fs w; stdin := stdin w;
          trace := trace w ++ [EvGet (Tse.url res) range; EvSleep (2 ^ 2);
                               EvGet (Tse.url res) range; EvSleep (2 ^ 3);
                               EvGet (Tse.url res) range] |}).
Proof.
  intros Hnet range.
  set (w1 := log (EvGet (Tse.url res) range) w).
  set (w2 := log (EvSleep (2 ^ 2)) w1).
  set (w3 := log (EvGet (Tse.url res) range) w2).
  set (w4 := log (EvSleep (2 ^ 3)) w3).
  assert (Tse.resume_offset w2 path = range) as R2 by reflexivity.
  assert (Tse.resume_offset w4 path = range) as R4 by reflexivity.
  destruct (Hnet range (requests_made w)) as [e1 H1].
  destruct (Hnet range (requests_made w2)) as [e2 H2].
  destruct (Hnet range (requests_made w4)) as [e3 H3].
  exists e3.
  unfold Tse.max_retries. cbn [seq Tse.retry_loop Nat.ltb Nat.leb].
  unfold bind at 1. cbn [ret].
  unfold bind at 1. rewrite (tse_download_file_fails net _ path w e1 H1).
  cbn [fst snd]. fold range. fold w1.
  unfold bind at 1. unfold sleep at 1. fold w2.
  unfold bind at 1. rewrite <- R2 in H2.
  rewrite (tse_download_file_fails net _ path w2 e2 H2).
  rewrite R2. fold w3. cbn [fst snd].
  unfold bind at 1. unfold sleep at 1. fold w4.
  unfold bind at 1. rewrite <- R4 in H3.
  rewrite (tse_download_file_fails net _ path w4 e3 H3).
  rewrite R4. cbn [fst snd ret].
  unfold w4, w3, w2, w1, log. cbn [fs stdin trace].
  by rewrite <- !app_assoc.
Qed.
End TseDownload.

(** ** The downloader of diarios_ceara_scraper.py *)

Section DoeDownload.
Context {lib : PyLib}.

(** A path whose basename is not one of the replaceable names, whatever
    its case, is kept. *)
Lemma choose_filepath_keeps (filepath : string) (r : response) :
  PyStr.mem_str (PyStr.lower (OsPath.basename filepath))
                Doe.REPLACEABLE_NAMES = false ->
  Doe.choose_filepath filepath r = filepath.
Proof.
  intros H. unfold Doe.choose_filepath. rewrite H.
  destruct (Doe.filename_of_disposition _); [|done].
  by destruct (_ && _).
Qed.

(** The path changes only for a replaceable name and a header that
    carries a PDF name. *)
Lemma choose_filepath_changes (filepath : string) (r : response) :
  Doe.choose_filepath filepath r <> filepath ->
  PyStr.mem_str (PyStr.lower (OsPath.basename filepath))
                Doe.REPLACEABLE_NAMES = true
  /\ exists actual_filename,
      Doe.filename_of_disposition (content_disposition r)
      = Some actual_filename
      /\ PyStr.endswith (PyStr.lower actual_filename) ".pdf" = true
      /\ Doe.choose_filepath filepath r
         = OsPath.join (OsPath.dirname filepath) actual_filename.
Proof.
  unfold Doe.choose_filepath.
  destruct (Doe.filename_of_disposition _) as [actual|]; [|done].
  destruct (PyStr.nonempty actual) eqn:Hne; [|done]. cbn [andb].
  destruct (PyStr.endswith _ ".pdf") eqn:Hpdf; [|done].
  destruct (PyStr.mem_str _ _) eqn:Hgen; [|done].
  intros _. split; [done|]. by exists actual.
Qed.

(** One attempt on a transport that raises. *)
Lemma attempt_download_raises (net : transport) (url filepath : string)
  (w : world) (e : exn) :
  net url None (requests_made w) = Raise e ->
  Doe.attempt_download net url filepath w
  = (filepath, Raise e, log (EvGet url None) w).
Proof.
  intros H. unfold Doe.attempt_download, http_get. by rewrite H.
Qed.

Lemma requests_made_log_get (w : world) (url : string) (rg : option nat) :
  requests_made (log (EvGet url rg) w) = S (requests_made w).
Proof.
  unfold requests_made, log. cbn [trace].
  induction (trace w) as [|e t IH]; [done|]. cbn [app requests].
  rewrite IH. lia.
Qed.

(** The retries of [download_file] on a transport that always raises:
    one request per attempt, nothing else. *)
Lemma download_loop_always_raises (net : transport) (url : string)
  (max_retries : nat) (attempts : list nat) (filepath : string)
  (w : world) :
  always_raises net url ->
  Forall (fun attempt => attempt < max_retries - 1) (removelast attempts) ->
  Doe.download_loop net url max_retries attempts filepath w
  = (Ok (false, Doe.failed),
     {| fs := fs w; stdin := stdin w;
        trace := trace w ++ repeat (EvGet url None) (length attempts) |}).
Proof.
  intros Hnet. revert w.
  induction attempts as [|attempt rest IH]; intros w Hlt.
  - cbn. rewrite app_nil_r. by destruct w.
  - cbn [Doe.download_loop].
    destruct (Hnet None (requests_made w)) as [e He].
    rewrite (attempt_download_raises _ _ _ _ _ He).
    destruct rest as [|next rest'].
    + cbn [Doe.download_loop]. by destruct (attempt <? max_retries - 1).
    + cbn [removelast] in Hlt. apply Forall_cons in Hlt as [Hlt1 Hlt].
      apply Nat.ltb_lt in Hlt1. rewrite Hlt1.
      rewrite IH by exact Hlt. unfold log. cbn [fs stdin trace].
      by rewrite <- app_assoc.
Qed.

Lemma removelast_seq (start len : nat) :
  Forall (fun attempt => attempt < start + len - 1)
         (removelast (seq start len)).
Proof.
  revert start. induction len as [|len IH]; intros start; [constructor|].
  destruct len as [|len]; [constructor|].
  change (removelast (seq start (S (S len))))
    with (start :: removelast (seq (S start) (S len))).
  constructor; [lia|].
  eapply Forall_impl; [apply IH|]. intros; simpl in *; lia.
Qed.

Lemma doe_download_file_always_raises (net : transport)
  (url filepath : string) (max_retries : nat) (w : world) :
  always_raises net url ->
  Doe.download_file net url filepath max_retries w
  = (Ok (false, Doe.failed),
     {| fs := fs w; stdin := stdin w;
        trace := trace w ++ repeat (EvGet url None) max_retries |}).
Proof.
  intros Hnet. unfold Doe.download_file.
  rewrite download_loop_always_raises; [by rewrite length_seq|done|].
  apply (removelast_seq 0).
Qed.

(** The file is there and the answer is to skip it: the request has been
    sent, the body is not read. *)
Lemma doe_download_file_skips (net : transport) (url filepath a : string)
  (rest : list string) (r : response) (max_retries : nat) (w : world) :
  0 < max_retries ->
  net url None (requests_made w) = Ok r ->
  (400 <=? status_code r) && (status_code r <? 600) = false ->
  content_length r <> BadLength ->
  path_exists w (Doe.choose_filepath filepath r) = true ->
  stdin w = a :: rest ->
  Doe.parse_choice (PyStr.lower (PyStr.strip a)) = Some false ->
  Doe.download_file net url filepath max_retries w
  = (Ok (true, Doe.skipped),
     {| fs := fs w; stdin := rest;
        trace := trace w ++ [EvGet url None; EvPrompt] |}).
Proof.
  intros Hm Hr Hst Hcl Hex Hin Ha.
  unfold path_exists in Hex.
  destruct (fs w !! Doe.choose_filepath filepath r) eqn:Hfile; [|done].
  unfold Doe.download_file. destruct max_retries as [|m]; [lia|].
  cbn [seq Doe.download_loop].
  unfold Doe.attempt_download, http_get. rewrite Hr.
  unfold raise_for_status. rewrite check_status_ok by exact Hst.
  unfold Doe.save_response, bind.
  destruct (int_content_length_ok r (log (EvGet url None) w) Hcl)
    as [n ->].
  unfold get_world, Doe.should_overwrite_file, bind, get_world.
  unfold path_exists, prompt, log.
  repeat first [progress cbn [fs stdin trace negb]
               | rewrite Hfile | rewrite Hin].
  cbn [prompt_loop]. rewrite Ha.
  cbn [ret negb fs trace].
  by rewrite <- app_assoc.
Qed.

(** The file is there and the answer is to overwrite it: the whole body
    is read and replaces the file. *)
Lemma doe_download_file_overwrites (net : transport)
  (url filepath a : string) (rest : list string) (r : response)
  (max_retries : nat) (w : world) :
  0 < max_retries ->
  net url None (requests_made w) = Ok r ->
  (400 <=? status_code r) && (status_code r <? 600) = false ->
  content_length r <> BadLength ->
  body_error r = None ->
  path_exists w (Doe.choose_filepath filepath r) = true ->
  stdin w = a :: rest ->
  Doe.parse_choice (PyStr.lower (PyStr.strip a)) = Some true ->
  Doe.download_file net url filepath max_retries w
  = (Ok (true, Doe.downloaded),
     {| fs := <[Doe.choose_filepath filepath r := concat (body r)]> (fs w);
        stdin := rest;
        trace := trace w ++ [EvGet url None; EvPrompt;
                             EvRecv (length (concat (body r)))] |}).
Proof.
  intros Hm Hr Hst Hcl Herr Hex Hin Ha.
  unfold path_exists in Hex.
  destruct (fs w !! Doe.choose_filepath filepath r) eqn:Hfile; [|done].
  unfold Doe.download_file. destruct max_retries as [|m]; [lia|].
  cbn [seq Doe.download_loop].
  unfold Doe.attempt_download, http_get. rewrite Hr.
  unfold raise_for_status. rewrite check_status_ok by exact Hst.
  unfold Doe.save_response, bind.
  destruct (int_content_length_ok r (log (EvGet url None) w) Hcl)
    as [n ->].
  unfold get_world, Doe.should_overwrite_file, bind, get_world.
  unfold path_exists, prompt, log.
  repeat first [progress cbn [fs stdin trace negb]
               | rewrite Hfile | rewrite Hin].
  cbn [prompt_loop]. rewrite Ha.
  cbn [ret negb].
  unfold write_stream. cbn [fs stdin trace]. rewrite Herr.
  rewrite write_chunks_concat. cbn [app].
  by rewrite <- !app_assoc.
Qed.

(** No file is there: the body is read and written. *)
Lemma doe_download_file_fresh (net : transport) (url filepath : string)
  (r : response) (max_retries : nat) (w : world) :
  0 < max_retries ->
  net url None (requests_made w) = Ok r ->
  (400 <=? status_code r) && (status_code r <? 600) = false ->
  content_length r <> BadLength ->
  body_error r = None ->
  path_exists w (Doe.choose_filepath filepath r) = false ->
  Doe.download_file net url filepath max_retries w
  = (Ok (true, Doe.downloaded),
     {| fs := <[Doe.choose_filepath filepath r := concat (body r)]> (fs w);
        stdin := stdin w;
        trace := trace w ++ [EvGet url None;
                             EvRecv (length (concat (body r)))] |}).
Proof.
  intros Hm Hr Hst Hcl Herr Hex.
  unfold path_exists in Hex.
  destruct (fs w !! Doe.choose_filepath filepath r) eqn:Hfile; [done|].
  unfold Doe.download_file. destruct max_retries as [|m]; [lia|].
  cbn [seq Doe.download_loop].
  unfold Doe.attempt_download, http_get. rewrite Hr.
  unfold raise_for_status. rewrite check_status_ok by exact Hst.
  unfold Doe.save_response, bind.
  destruct (int_content_length_ok r (log (EvGet url None) w) Hcl)
    as [n ->].
  unfold get_world, path_exists, log. cbn [fs stdin trace].
  rewrite Hfile. cbn [ret].
  unfold write_stream. cbn [fs stdin trace]. rewrite Herr.
  rewrite write_chunks_concat. cbn [app].
  by rewrite <- !app_assoc.
Qed.
End DoeDownload.

(** ** The policy comes first (dados_tse_baixa.py) *)

Section PolicyFirst.
Context {lib : PyLib}.

Lemma prompt_loop_offline {A} (parse : string -> option A)
  (answers : list string) (w : world) :
  offline w (snd (prompt_loop parse answers w)).
Proof.
  revert w. induction answers as [|a rest IH]; intros w.
  - split; cbn; [|done]. rewrite gets_app. cbn. lia.
  - cbn [prompt_loop].
    set (w1 := {| fs := fs w; stdin := rest;
                  trace := trace w ++ [EvPrompt] |}).
    assert (offline w w1) as H1.
    { split; cbn; [|done]. rewrite gets_app. cbn. lia. }
    destruct (parse _); [exact H1|].
    etransitivity; [exact H1|apply IH].
Qed.

Lemma handle_existing_file_offline (filepath : string) (gs go : bool) :
  preserves offline (Tse.handle_existing_file filepath gs go).
Proof.
  intros w. unfold Tse.handle_existing_file, bind, get_world.
  destruct (negb _); [done|]. destruct gs; [done|]. destruct go; [done|].
  apply prompt_loop_offline.
Qed.

(** What [main] does with a resource once the policy has answered. *)
Lemma process_resource_after_policy (net : transport)
  (year year_dir : string) (res : Tse.resource) (st : Tse.run_state)
  (w w1 : world) (d : Tse.action * bool * bool) :
  Tse.handle_existing_file (OsPath.join year_dir (Tse.name res))
    (Tse.global_skip_all st) (Tse.global_overwrite_all st) w = (Ok d, w1) ->
  Tse.process_resource net year year_dir res st w
  = match fst (fst d) with
    | Tse.skip =>
        (Ok (Tse.count_skipped (Tse.set_flags st (snd (fst d)) (snd d))), w1)
    | Tse.overwrite =>
        Tse.retry_loop net year res (OsPath.join year_dir (Tse.name res))
          Tse.max_retries (seq 1 Tse.max_retries)
          (Tse.set_flags st (snd (fst d)) (snd d)) w1
    end.
Proof.
  intros H. unfold Tse.process_resource, bind. rewrite H.
  by destruct (fst (fst d)).
Qed.
End PolicyFirst.

(** C3 (as amended).  In dados_tse_baixa.py the policy is consulted before
    any request of the download: when [handle_existing_file] answers [skip],
    [main] counts the resource as skipped in the world the policy left,
    where no request has been sent and no file has changed; when it answers
    [overwrite], the attempts start from that world.  In
    diarios_ceara_scraper.py the request comes first: [download_file]
    sends the GET, then finds the file and asks; on the answer to skip it
    returns [skipped] with the one request sent, the body unread and the
    files unchanged. *)
Theorem skip_short_circuits {lib : PyLib} (net : transport)
  (year year_dir : string) (res : Tse.resource) (st : Tse.run_state)
  (w w1 : world) (d : Tse.action * bool * bool) :
  Tse.handle_existing_file (OsPath.join year_dir (Tse.name res))
    (Tse.global_skip_all st) (Tse.global_overwrite_all st) w = (Ok d, w1) ->
  (gets (trace w1) = gets (trace w) /\ fs w1 = fs w)
  /\ Tse.process_resource net year year_dir res st w
     = match fst (fst d) with
       | Tse.skip =>
           (Ok (Tse.count_skipped (Tse.set_flags st (snd (fst d)) (snd d))),
            w1)
       | Tse.overwrite =>
           Tse.retry_loop net year res (OsPath.join year_dir (Tse.name res))
             Tse.max_retries (seq 1 Tse.max_retries)
             (Tse.set_flags st (snd (fst d)) (snd d)) w1
       end
  /\ forall (url filepath a : string) (rest : list string) (r : response)
       (max_retries : nat) (w2 : world),
      0 < max_retries ->
      net url None (requests_made w2) = Ok r ->
      (400 <=? status_code r) && (status_code r <? 600) = false ->
      content_length r <> BadLength ->
      path_exists w2 (Doe.choose_filepath filepath r) = true ->
      stdin w2 = a :: rest ->
      Doe.parse_choice (PyStr.lower (PyStr.strip a)) = Some false ->
      Doe.download_file net url filepath max_retries w2
      = (Ok (true, Doe.skipped),
         {| fs := fs w2; stdin := rest;
            trace := trace w2 ++ [EvGet url None; EvPrompt] |}).
Proof.
  intros H. split; [|split].
  - pose proof (handle_existing_file_offline
                  (OsPath.join year_dir (Tse.name res))
                  (Tse.global_skip_all st) (Tse.global_overwrite_all st) w)
      as Hoff.
    by rewrite H in Hoff.
  - by apply process_resource_after_policy.
  - intros. by eapply doe_download_file_skips.
Qed.

(** C4 (as amended).  On a transport that raises at every request, both
    scripts make exactly three attempts and report the failure.  [main] of
    dados_tse_baixa.py waits 2^2 seconds before the second attempt and 2^3
    before the third, records the last exception and counts the resource as
    failed.  [download_file] of diarios_ceara_scraper.py makes its
    [max_retries] attempts one after the other, without waiting, and returns
    [failed]. *)
Theorem retries_then_fails {lib : PyLib} (net : transport) (year : string)
  (res : Tse.resource) (path filepath : string) (max_retries : nat)
  (st : Tse.run_state) (w : world) :
  always_raises net (Tse.url res) ->
  (exists e w',
      Tse.retry_loop net year res path Tse.max_retries
        (seq 1 Tse.max_retries) st w
      = (Ok (Tse.count_failed
               {| Tse.f_year := year; Tse.f_filename := Tse.name res;
                  Tse.f_url := Tse.url res; Tse.f_error := Some e |} st), w')
      /\ Tse.max_retries = 3
      /\ gets (trace w') = gets (trace w) + 3
      /\ sleeps (trace w') = sleeps (trace w) ++ [2 ^ 2; 2 ^ 3]
      /\ trace w'
         = trace w
           ++ [EvGet (Tse.url res) (Tse.resume_offset w path); EvSleep 4;
               EvGet (Tse.url res) (Tse.resume_offset w path); EvSleep 8;
               EvGet (Tse.url res) (Tse.resume_offset w path)]
      /\ fs w' = fs w)
  /\ Doe.download_file net (Tse.url res) filepath max_retries w
     = (Ok (false, Doe.failed),
        {| fs := fs w; stdin := stdin w;
           trace := trace w ++ repeat (EvGet (Tse.url res) None) max_retries |}).
Proof.
  intros Hnet. split.
  - destruct (retry_loop_always_raises net year res path st w Hnet)
      as [e He].
    eexists e, _. split; [exact He|]. cbn [fs stdin trace].
    rewrite gets_app, sleeps_app. cbn. repeat split; lia.
  - by apply doe_download_file_always_raises.
Qed.

(** C5.  When the server answers 416 to the request that carries a range,
    and serves the content in full to a request without one,
    [download_file] of dados_tse_baixa.py asks again without a range, opens
    the file for writing from the start and succeeds: the file holds exactly
    the content, whatever it held before, and no error is reported. *)
Theorem range_rejection_falls_back {lib : PyLib} (net : transport)
  (url path : string) (content old : list byte) (w : world) :
  rejects_ranges net url ->
  serves_full net url content ->
  fs w !! path = Some old ->
  Tse.download_file net url path w
  = (Ok (true, None),
     {| fs := <[path := content]> (fs w);
        stdin := stdin w;
        trace := trace w ++ [EvGet url (Some (length old));
                             EvGet url None;
                             EvRecv (length content)] |}).
Proof.
  intros Hrej Hfull Hold.
  destruct (Hrej (length old) (requests_made w)) as (r1 & Hr1 & Hst1).
  set (w1 := log (EvGet url (Some (length old))) w).
  destruct (Hfull (requests_made w1))
    as (r & Hr & Hst & Hcl & Hbody & Herr).
  unfold Tse.download_file, try_except, bind, get_world, http_get.
  unfold Tse.resume_offset, path_exists, getsize. rewrite Hold, Hr1, Hst1.
  cbn [Nat.eqb ret fst snd]. fold w1. rewrite Hr.
  cbn [ret fst snd]. unfold raise_for_status. rewrite Hst.
  rewrite check_status_ok by reflexivity.
  destruct (int_content_length_ok r (log (EvGet url None) w1) Hcl)
    as [n ->].
  unfold write_stream, w1, log. cbn [fs stdin trace]. rewrite Herr.
  rewrite bool_decide_eq_false_2 by (by intros [? ?]). cbn [andb].
  rewrite write_chunks_concat, Hbody. cbn [app].
  by rewrite <- !app_assoc.
Qed.

(** C2 (as amended).  The file holds K bytes and the server holds N bytes,
    K < N, and honours byte ranges.  [download_file] of dados_tse_baixa.py
    asks for the range that starts at K, receives N - K bytes and appends
    them: the file ends with N bytes, what it held followed by the content
    from K on.  [download_file] of diarios_ceara_scraper.py sends no range:
    told to overwrite, it asks for the whole content, receives N bytes and
    writes them over the file, which ends with N bytes too.  When there is no
    file, [download_file] of dados_tse_baixa.py sends no range and writes
    the N bytes it receives. *)
Theorem resume_from_partial_file {lib : PyLib} (net : transport)
  (url path : string) (content old : list byte) (w : world) :
  serves_ranges net url content ->
  fs w !! path = Some old ->
  length old < length content ->
  (exists w',
      Tse.download_file net url path w = (Ok (true, None), w')
      /\ trace w'
         = trace w ++ [EvGet url (Some (length old));
                       EvRecv (length content - length old)]
      /\ bytes_received (trace w')
         = bytes_received (trace w) + (length content - length old)
      /\ fs w' !! path = Some (old ++ drop (length old) content)
      /\ length (old ++ drop (length old) content) = length content
      /\ (old = take (length old) content ->
          fs w' !! path = Some content))
  /\ (forall (a : string) (rest : list string) (max_retries : nat),
      serves_full net url content ->
      0 < max_retries ->
      stdin w = a :: rest ->
      Doe.parse_choice (PyStr.lower (PyStr.strip a)) = Some true ->
      PyStr.mem_str (PyStr.lower (OsPath.basename path))
                    Doe.REPLACEABLE_NAMES = false ->
      exists w',
        Doe.download_file net url path max_retries w
        = (Ok (true, Doe.downloaded), w')
        /\ trace w'
           = trace w ++ [EvGet url None; EvPrompt; EvRecv (length content)]
        /\ fs w' !! path = Some content)
  /\ forall w0,
      serves_full net url content ->
      fs w0 !! path = None ->
      exists w',
        Tse.download_file net url path w0 = (Ok (true, None), w')
        /\ trace w' = trace w0 ++ [EvGet url None; EvRecv (length content)]
        /\ fs w' !! path = Some content.
Proof.
  intros Hrange Hold Hlt. split; [|split].
  - eexists. split; [by apply tse_download_file_resumes|].
    cbn [fs stdin trace]. rewrite bytes_received_app, lookup_insert_eq.
    cbn [bytes_received]. repeat split; try lia.
    + rewrite length_app, length_drop. lia.
    + intros Hpre. f_equal. rewrite Hpre at 1. apply take_drop.
  - intros a rest max_retries Hfull Hm Hin Ha Hname.
    destruct (Hfull (requests_made w)) as (r & Hr & Hst & Hcl & Hbody & Herr).
    pose proof (choose_filepath_keeps path r Hname) as Hkeep.
    eexists. split.
    + eapply doe_download_file_overwrites; eauto.
      * by rewrite Hst.
      * rewrite Hkeep. unfold path_exists. by rewrite Hold.
    + cbn [fs stdin trace]. rewrite Hkeep, Hbody, lookup_insert_eq. done.
  - intros w0 Hfull Hnone. eexists.
    split; [by apply tse_download_file_starts|].
    cbn [fs stdin trace]. by rewrite lookup_insert_eq.
Qed.

(** ** Writes of the downloader (diarios_ceara_scraper.py) *)

#[local] Instance frame_except_refl path : Reflexive (frame_except path).
Proof. by intros w p. Qed.
#[local] Instance frame_except_trans path : Transitive (frame_except path).
Proof. intros a b c H1 H2 p Hp. by rewrite H2, H1. Qed.

Section DoeFrame.
Context {lib : PyLib}.

Lemma prompt_loop_same_files {A} (parse : string -> option A)
  (answers : list string) (w : world) :
  fs (snd (prompt_loop parse answers w)) = fs w.
Proof.
  revert w. induction answers as [|a rest IH]; intros w; [done|].
  cbn [prompt_loop]. destruct (parse _); [done|]. by rewrite IH.
Qed.

Lemma save_response_frame (filepath : string) (r : response) :
  preserves (frame_except filepath) (Doe.save_response filepath r).
Proof.
  unfold Doe.save_response.
  apply preserves_bind; [apply _| |intros n].
  { intros w. unfold int_content_length.
    by destruct (content_length r). }
  apply preserves_bind; [apply _|by intros w|intros w0].
  apply preserves_bind; [apply _| |intros keep].
  { destruct (path_exists w0 filepath); [|by apply preserves_ret].
    apply preserves_bind; [apply _| |intros; by apply preserves_ret].
    intros w p Hp. unfold Doe.should_overwrite_file, bind, get_world.
    destruct (negb _); [done|]. unfold prompt.
    by rewrite prompt_loop_same_files. }
  destruct keep; [by apply preserves_ret|].
  apply preserves_bind; [apply _| |intros; by apply preserves_ret].
  intros w p Hp. unfold write_stream.
  destruct (body_error r); cbn [snd fs]; by rewrite lookup_insert_ne.
Qed.

(** One attempt writes at most the file it has chosen, and the path it
    hands on is the one it was given or the one chosen for a response. *)
Lemma attempt_download_frame (net : transport) (url filepath : string)
  (w : world) :
  let '(filepath', _, w') := Doe.attempt_download net url filepath w in
  frame_except filepath' w w'
  /\ (filepath' = filepath
      \/ exists n r, net url None n = Ok r
                     /\ filepath' = Doe.choose_filepath filepath r).
Proof.
  unfold Doe.attempt_download, http_get.
  destruct (net url None (requests_made w)) as [r|e] eqn:Hr.
  2:{ split; [by intros p|by left]. }
  unfold raise_for_status, check_status.
  destruct (_ && _).
  { split; [by intros p|by left]. }
  cbn [ret].
  pose proof (save_response_frame (Doe.choose_filepath filepath r) r
                (log (EvGet url None) w)) as Hf.
  destruct (Doe.save_response _ r _) as [res w3]. cbn [snd] in Hf.
  split; [exact Hf|]. right. eauto.
Qed.

Lemma download_loop_frame (net : transport) (url : string)
  (max_retries : nat) (attempts : list nat) (filepath : string)
  (w : world) (p : string) :
  fs (snd (Doe.download_loop net url max_retries attempts filepath w)) !! p
  <> fs w !! p ->
  p = filepath \/ renamed_by_header net url filepath.
Proof.
  revert filepath w.
  induction attempts as [|attempt rest IH]; intros filepath w; [done|].
  cbn [Doe.download_loop].
  pose proof (attempt_download_frame net url filepath w) as Hatt.
  destruct (Doe.attempt_download net url filepath w)
    as [[filepath' res] w1].
  destruct Hatt as [Hframe Hpath].
  destruct (decide (filepath' = filepath)) as [->|Hne].
  - destruct (decide (p = filepath)) as [->|Hp]; [by left|].
    specialize (Hframe p Hp).
    destruct res as [ok|e]; cbn [snd]; [by rewrite Hframe|].
    destruct (attempt <? max_retries - 1); cbn [snd];
      [|by rewrite Hframe].
    rewrite <- Hframe. apply IH.
  - intros _. right.
    destruct Hpath as [->|(n & r & Hr & ->)]; [done|].
    destruct (choose_filepath_changes filepath r Hne)
      as (Hgen & actual & Hcd & Hpdf & _).
    split; [done|]. by exists n, r, actual.
Qed.
End DoeFrame.

(** C10 (as amended).  A call of [download_file] of
    diarios_ceara_scraper.py changes a file other than the requested one only
    when the basename of the requested path, put in lower case, is one of
    visualizar.pdf, baixar.pdf, download.pdf, documento.pdf, and a response
    carries a Content-Disposition name that ends, in lower case, with .pdf.
    For every other requested basename the requested path is the only one
    written. *)
Theorem output_path_changes_only_for_generic_names {lib : PyLib}
  (net : transport) (url filepath : string) (max_retries : nat) (w : world)
  (p : string) :
  fs (snd (Doe.download_file net url filepath max_retries w)) !! p
  <> fs w !! p ->
  p = filepath
  \/ (PyStr.mem_str (PyStr.lower (OsPath.basename filepath))
                    Doe.REPLACEABLE_NAMES = true
      /\ exists n r actual_filename,
          net url None n = Ok r
          /\ Doe.filename_of_disposition (content_disposition r)
             = Some actual_filename
          /\ PyStr.endswith (PyStr.lower actual_filename) ".pdf" = true).
Proof. apply download_loop_frame. Qed.

(** ** File names (diarios_ceara_scraper.py) *)

Section DoeNames.
Context {lib : PyLib} {urls : UrlErrors}.
Import PyStr.

(** Lines 671-673 give a name that is not empty, ends with .pdf and holds
    only alphanumerics, dot, underscore, hyphen and space. *)
Lemma safe_filename_of_ok (filename : string) :
  Doe.safe_filename_of filename <> EmptyString
  /\ endswith (Doe.safe_filename_of filename) ".pdf" = true
  /\ all_chars safe_char (Doe.safe_filename_of filename) = true.
Proof.
  unfold Doe.safe_filename_of. fold safe_char.
  destruct (endswith (filter_chars safe_char filename) ".pdf") eqn:E.
  - repeat split; [|done|apply all_chars_filter].
    by eapply endswith_nonempty.
  - assert (endswith (filter_chars safe_char filename +:+ ".pdf") ".pdf"
            = true) as Hend by apply endswith_app.
    repeat split; [|done|].
    + by eapply endswith_nonempty.
    + by rewrite all_chars_app, all_chars_filter.
Qed.






End DoeNames.


(** ** Pages without publications (diarios_ceara_scraper.py) *)





Section Markers.
Context {lib : PyLib} {urls : UrlErrors}.
Import PyStr.


(** *** When the URLs parse, the links are found *)







(** *** Whatever the URLs, the links found are absolute *)









End Markers.


(** ** The servers *)

Section Servers.
Import Server.

Lemma concat_chunks (fuel chunk_size : nat) (data : list byte) :
  0 < chunk_size -> length data <= fuel ->
  concat (chunks fuel chunk_size data) = data.
Proof.
  intros Hpos. revert data.
  induction fuel as [|fuel IH]; intros data Hlen.
  - destruct data; [done|]. simpl in Hlen. lia.
  - destruct data as [|b data]; [done|].
    cbn [chunks concat]. rewrite IH.
    + apply take_drop.
    + rewrite length_drop. simpl in *. lia.
Qed.

Lemma concat_iter_content (data : list byte) :
  concat (iter_content 8192 data) = data.
Proof. apply concat_chunks; [|done]. apply Nat.lt_0_succ. Qed.

Lemma range_server_serves_ranges (url : string) (content : list byte) :
  serves_ranges (range_server content) url content.
Proof.
  intros k n Hk. exists (answer 206 (drop k content)).
  unfold range_server. apply Nat.ltb_lt in Hk. rewrite Hk.
  repeat split; [done|apply concat_iter_content].
Qed.

Lemma range_server_serves_full (url : string) (content : list byte) :
  serves_full (range_server content) url content.
Proof.
  intros n. exists (answer 200 content).
  repeat split; [done|apply concat_iter_content].
Qed.

Lemma no_range_server_rejects_ranges (url : string) (content : list byte) :
  rejects_ranges (no_range_server content) url.
Proof. intros k n. by exists (answer 416 []). Qed.

Lemma no_range_server_serves_full (url : string) (content : list byte) :
  serves_full (no_range_server content) url content.
Proof.
  intros n. exists (answer 200 content).
  repeat split; [done|apply concat_iter_content].
Qed.

Lemma broken_transport_always_raises (e : exn) (url : string) :
  always_raises (broken_transport e) url.
Proof. intros range n. by exists e. Qed.
End Servers.

(** ** The scripts on sample inputs *)

#[local] Existing Instance SimpleLib.simple_lib.
#[local] Existing Instance SimpleLib.simple_urls.

Section Concrete.
Import Sample Server.

(** *** The policy *)

(** C1, counterexample.  The file of the first resource exists and the
    answer is sa: the call returns [skip] and sets the flag.  The next
    call, for a path that does not exist, returns [overwrite]. *)
Lemma skip_all_overwrites_absent_file :
  let w := world_with [(zip_path, partial)] ["sa"] in
  let first := Tse.handle_existing_file zip_path false false w in
  fst first = Ok (Tse.skip, true, false)
  /\ fst (Tse.handle_existing_file other_path true false (snd first))
     = Ok (Tse.overwrite, true, false).
Proof. split; vm_compute; reflexivity. Qed.

Lemma skip_all_is_permanent_witness :
  Tse.global_skip_all skipping_all = true
  /\ exists st' w',
      Tse.process_resources (broken_transport down) "2022" "dados-tse/2022"
        [zip_resource; other_resource] skipping_all
        (world_with [(zip_path, partial)] [])
      = (Ok st', w')
      /\ Tse.global_skip_all st' = true
      /\ Tse.global_overwrite_all st'
         = Tse.global_overwrite_all skipping_all
      /\ stdin w' = stdin (world_with [(zip_path, partial)] [])
      /\ prompts (trace w')
         = prompts (trace (world_with [(zip_path, partial)] [])).
Proof.
  split; [reflexivity|].
  exact (proj2 (skip_all_is_permanent (broken_transport down) "2022"
                  "dados-tse/2022" [zip_resource; other_resource]
                  skipping_all (world_with [(zip_path, partial)] [])
                  eq_refl)).
Defined.

(** *** Resuming *)

(** C2, counterexample.  Two of five bytes are on disk and the server
    honours ranges; [download_file] of diarios_ceara_scraper.py, told to
    overwrite, sends its request without a range and receives the five
    bytes, not the three that are missing. *)
Lemma doe_download_never_resumes :
  let r := Doe.download_file (range_server content) pdf_url pdf_path 3
             (world_with [(pdf_path, partial)] ["o"]) in
  fst r = Ok (true, Doe.downloaded)
  /\ trace (snd r) = [EvGet pdf_url None; EvPrompt; EvRecv 5]
  /\ bytes_received (trace (snd r)) = 5
  /\ length content - length partial = 3.
Proof. repeat split; vm_compute; reflexivity. Qed.

Lemma resume_from_partial_file_witness :
  fs (world_with [(zip_path, partial)] []) !! zip_path = Some partial
  /\ length partial < length content
  /\ exists w',
      Tse.download_file (range_server content) zip_url zip_path
        (world_with [(zip_path, partial)] [])
      = (Ok (true, None), w')
      /\ trace w'
         = trace (world_with [(zip_path, partial)] [])
           ++ [EvGet zip_url (Some (length partial));
               EvRecv (length content - length partial)]
      /\ bytes_received (trace w')
         = bytes_received (trace (world_with [(zip_path, partial)] []))
           + (length content - length partial)
      /\ fs w' !! zip_path
         = Some (partial ++ drop (length partial) content)
      /\ length (partial ++ drop (length partial) content) = length content
      /\ (partial = take (length partial) content ->
          fs w' !! zip_path = Some content).
Proof.
  split; [reflexivity|]. split; [vm_compute; lia|].
  refine (proj1 (resume_from_partial_file (range_server content) zip_url
                   zip_path content partial
                   (world_with [(zip_path, partial)] [])
                   (range_server_serves_ranges _ _)
                   eq_refl _)).
  vm_compute. lia.
Defined.

(** With no file on disk no range is asked. *)
Example tse_download_from_scratch :
  let r := Tse.download_file (range_server content) zip_url zip_path
             (world_with [] []) in
  fst r = Ok (true, None)
  /\ trace (snd r) = [EvGet zip_url None; EvRecv 5]
  /\ fs (snd r) !! zip_path = Some content.
Proof. repeat split; vm_compute; reflexivity. Qed.

(** With the whole file on disk the range is refused and the file is
    fetched again: the same five bytes. *)
Example tse_download_again :
  let r := Tse.download_file (range_server content) zip_url zip_path
             (world_with [(zip_path, content)] []) in
  fst r = Ok (true, None)
  /\ trace (snd r) = [EvGet zip_url (Some 5); EvGet zip_url None; EvRecv 5]
  /\ fs (snd r) !! zip_path = Some content.
Proof. repeat split; vm_compute; reflexivity. Qed.

(** A server that ignores the range sends the five bytes, which
    [download_file] of dados_tse_baixa.py appends to the two on disk. *)
Example tse_download_from_rangeless_server :
  let r := Tse.download_file (rangeless_server content) zip_url zip_path
             (world_with [(zip_path, partial)] []) in
  fst r = Ok (true, None)
  /\ trace (snd r) = [EvGet zip_url (Some 2); EvRecv 5]
  /\ fs (snd r) !! zip_path = Some (partial ++ content).
Proof. repeat split; vm_compute; reflexivity. Qed.

(** A whole run of [main] over one year: the first file exists and the
    answer is sa, the second does not exist and is fetched. *)
Example tse_run_with_skip_all :
  let r := Tse.process_resources (range_server content) "2022"
             "dados-tse/2022" [zip_resource; other_resource]
             Tse.initial_state (world_with [(zip_path, partial)] ["sa"]) in
  match fst r with
  | Ok st =>
      Tse.total_skipped st = 1 /\ Tse.total_downloaded st = 1
      /\ Tse.global_skip_all st = true
  | Raise _ => False
  end
  /\ fs (snd r) !! zip_path = Some partial
  /\ fs (snd r) !! other_path = Some content
  /\ prompts (trace (snd r)) = 1.
Proof. vm_compute. repeat split; reflexivity. Qed.

(** *** The policy and the request *)

(** C3, counterexample.  The file exists and the answer is to skip it:
    [download_file] of diarios_ceara_scraper.py returns [skipped], and its
    request has been sent before the question was asked. *)
Lemma doe_download_asks_after_the_request :
  let r := Doe.download_file (range_server content) pdf_url pdf_path 3
             (world_with [(pdf_path, partial)] ["s"]) in
  fst r = Ok (true, Doe.skipped)
  /\ trace (snd r) = [EvGet pdf_url None; EvPrompt]
  /\ gets (trace (snd r)) = 1.
Proof. repeat split; vm_compute; reflexivity. Qed.

Lemma skip_short_circuits_witness :
  let w := world_with [(zip_path, partial)] ["s"] in
  let w1 := {| fs := fs w; stdin := []; trace := [EvPrompt] |} in
  Tse.handle_existing_file
    (OsPath.join "dados-tse/2022" (Tse.name zip_resource))
    (Tse.global_skip_all Tse.initial_state)
    (Tse.global_overwrite_all Tse.initial_state) w
  = (Ok (Tse.skip, false, false), w1)
  /\ (gets (trace w1) = gets (trace w) /\ fs w1 = fs w)
  /\ Tse.process_resource (range_server content) "2022" "dados-tse/2022"
       zip_resource Tse.initial_state w
     = (Ok (Tse.count_skipped (Tse.set_flags Tse.initial_state false false)),
        w1).
Proof.
  intros w w1.
  assert (Tse.handle_existing_file
            (OsPath.join "dados-tse/2022" (Tse.name zip_resource))
            (Tse.global_skip_all Tse.initial_state)
            (Tse.global_overwrite_all Tse.initial_state) w
          = (Ok (Tse.skip, false, false), w1)) as H by reflexivity.
  split; [exact H|].
  pose proof (skip_short_circuits (range_server content) "2022"
                "dados-tse/2022" zip_resource Tse.initial_state w w1
                (Tse.skip, false, false) H) as T.
  split; [exact (proj1 T)|exact (proj1 (proj2 T))].
Defined.

(** *** Retries *)

(** C4, counterexample.  On a transport that always raises,
    [download_file] of diarios_ceara_scraper.py makes its three requests
    and fails without having waited. *)
Lemma doe_download_retries_without_waiting :
  let r := Doe.download_file (broken_transport down) pdf_url pdf_path 3
             (world_with [] []) in
  fst r = Ok (false, Doe.failed)
  /\ trace (snd r)
     = [EvGet pdf_url None; EvGet pdf_url None; EvGet pdf_url None]
  /\ sleeps (trace (snd r)) = [].
Proof. repeat split; vm_compute; reflexivity. Qed.

Lemma retries_then_fails_witness :
  always_raises (broken_transport down) (Tse.url zip_resource)
  /\ (exists e w',
         Tse.retry_loop (broken_transport down) "2022" zip_resource
           zip_path Tse.max_retries (seq 1 Tse.max_retries)
           Tse.initial_state (world_with [] [])
         = (Ok (Tse.count_failed
                  {| Tse.f_year := "2022";
                     Tse.f_filename := Tse.name zip_resource;
                     Tse.f_url := Tse.url zip_resource;
                     Tse.f_error := Some e |} Tse.initial_state), w')
         /\ Tse.max_retries = 3
         /\ gets (trace w') = gets (trace (world_with [] [])) + 3
         /\ sleeps (trace w')
            = sleeps (trace (world_with [] [])) ++ [2 ^ 2; 2 ^ 3]
         /\ trace w'
            = trace (world_with [] [])
              ++ [EvGet (Tse.url zip_resource)
                    (Tse.resume_offset (world_with [] []) zip_path);
                  EvSleep 4;
                  EvGet (Tse.url zip_resource)
                    (Tse.resume_offset (world_with [] []) zip_path);
                  EvSleep 8;
                  EvGet (Tse.url zip_resource)
                    (Tse.resume_offset (world_with [] []) zip_path)]
         /\ fs w' = fs (world_with [] [])).
Proof.
  split; [apply broken_transport_always_raises|].
  exact (proj1 (retries_then_fails (broken_transport down) "2022"
                  zip_resource zip_path pdf_path 3 Tse.initial_state
                  (world_with [] [])
                  (broken_transport_always_raises _ _))).
Defined.

(** *** Rejected ranges *)

Lemma range_rejection_falls_back_witness :
  fs (world_with [(zip_path, partial)] []) !! zip_path = Some partial
  /\ Tse.download_file (no_range_server content) zip_url zip_path
       (world_with [(zip_path, partial)] [])
     = (Ok (true, None),
        {| fs := <[zip_path := content]>
                   (fs (world_with [(zip_path, partial)] []));
           stdin := stdin (world_with [(zip_path, partial)] []);
           trace := trace (world_with [(zip_path, partial)] [])
                    ++ [EvGet zip_url (Some (length partial));
                        EvGet zip_url None;
                        EvRecv (length content)] |}).
Proof.
  split; [reflexivity|].
  exact (range_rejection_falls_back (no_range_server content) zip_url
           zip_path content partial (world_with [(zip_path, partial)] [])
           (no_range_server_rejects_ranges _ _)
           (no_range_server_serves_full _ _) eq_refl).
Defined.
End Concrete.

Section ConcreteNames.
Import Sample Server.

(** *** Links *)

(** C6, at the failing inputs.  An item whose link Ir para recurso has a
    site-relative [href] that ends with a known extension gives a resource
    whose URL is that [href], not joined to [BASE_URL]; an item whose
    link has no [href] gives a resource with an empty URL. *)
Lemma relative_href_is_not_resolved :
  (exists r w',
      Tse.resource_of_item unreachable relative_item (world_with [] [])
      = (Ok (Some r), w')
      /\ Tse.url r = "/arquivos/consulta_cand_2022.zip"
      /\ PyStr.startswith (Tse.url r) "http" = false)
  /\ (exists r w',
         Tse.resource_of_item unreachable hrefless_item (world_with [] [])
         = (Ok (Some r), w')
         /\ Tse.url r = EmptyString).
Proof.
  split; eexists _, _; (split; [vm_compute; reflexivity|]);
    repeat split.
Qed.

(** The same [href] found on the page of a resource is joined. *)
Example followed_href_is_resolved :
  let page :=
    {| Tse.h2_strings := []; Tse.resource_items := [];
       Tse.soup_anchors :=
         [ir_para_recurso (Some "/arquivos/consulta_cand_2022.zip")] |} in
  fst (Tse.follow_resource_page (fun _ _ => Ok (200, page))
         "/dataset/candidatos-2022/resource/abc" (world_with [] []))
  = Ok "https://dadosabertos.tse.jus.br/arquivos/consulta_cand_2022.zip".
Proof. vm_compute. reflexivity. Qed.

(** *** Formats *)

Lemma format_from_url_suffix_witness :
  exists r w',
    Tse.resource_of_item unreachable zip_item (world_with [] [])
    = (Ok (Some r), w')
    /\ Tse.url r = zip_url
    /\ Tse.format r = "ZIP".
Proof.
  eexists _, _.
  assert (Tse.resource_of_item unreachable zip_item (world_with [] [])
          = (Ok (Some {| Tse.name := "consulta_cand_2022.zip";
                         Tse.title := "Candidatos 2022";
                         Tse.url := zip_url;
                         Tse.format := Tse.file_format_of zip_url;
                         Tse.size := None |}),
             world_with [] [])) as H by reflexivity.
  split; [exact H|]. split; [reflexivity|].
  exact (proj1 (format_from_url_suffix _ _ _ _ _ H) eq_refl).
Defined.

(** *** File names *)



(** A cell of five characters does not name a file, whatever the number
    of its bytes: the probe is asked, and the name is that of the URL. *)
Example short_accented_cell_is_passed_over :
  let r := Doe.resolve silent_probe [link_cell; secao_cell] baixar_link
             (world_with [] []) in
  Doe.char_count (Doe.cell_text secao_cell) = 5
  /\ fst r = Ok "baixar.pdf"
  /\ trace (snd r) = [EvHead pdf_url].
Proof. repeat split; vm_compute; reflexivity. Qed.

(** *** Pages without publications *)



(** Without the marker the same page gives its link. *)
Example links_without_marker :
  let page :=
    {| Doe.tables := Doe.tables quiet_page;
       Doe.all_links := Doe.all_links quiet_page;
       Doe.page_text := "Baixar Edital 045/2024.pdf" |} in
  fst (Doe.test_shortcut_url (fun _ _ => Ok (200, page)) silent_probe
         "20240102" (world_with [] []))
  = Ok (true,
        [("Edital 045/2024.pdf",
          "http://pesquisa.doe.seplag.ce.gov.br/doepesquisa/baixar?id=3")]).
Proof. vm_compute. reflexivity. Qed.

(** *** The path written *)

(** C10, counterexample.  The requested basename is Baixar.pdf, which is
    none of the four names, and the server names the file real.pdf: the
    file is written next to the requested path, which stays absent. *)
Lemma capitalised_generic_name_is_replaced :
  let r := Doe.download_file
             (naming_server "attachment; filename=real.pdf" content)
             pdf_url "diarios_ceara/2024/Baixar.pdf" 3 (world_with [] []) in
  PyStr.mem_str (OsPath.basename "diarios_ceara/2024/Baixar.pdf")
                Doe.REPLACEABLE_NAMES = false
  /\ fst r = Ok (true, Doe.downloaded)
  /\ fs (snd r) !! "diarios_ceara/2024/real.pdf" = Some content
  /\ fs (snd r) !! "diarios_ceara/2024/Baixar.pdf" = None.
Proof. repeat split; vm_compute; reflexivity. Qed.

Lemma output_path_changes_only_for_generic_names_witness :
  let w := world_with [] [] in
  let net := naming_server "attachment; filename=real.pdf" content in
  fs (snd (Doe.download_file net pdf_url "diarios_ceara/2024/baixar.pdf" 3 w))
     !! "diarios_ceara/2024/real.pdf"
  <> fs w !! "diarios_ceara/2024/real.pdf"
  /\ ("diarios_ceara/2024/real.pdf" = "diarios_ceara/2024/baixar.pdf"
      \/ (PyStr.mem_str
            (PyStr.lower (OsPath.basename "diarios_ceara/2024/baixar.pdf"))
            Doe.REPLACEABLE_NAMES = true
          /\ exists n r actual_filename,
              net pdf_url None n = Ok r
              /\ Doe.filename_of_disposition (content_disposition r)
                 = Some actual_filename
              /\ PyStr.endswith (PyStr.lower actual_filename) ".pdf"
                 = true)).
Proof.
  intros w net.
  assert (fs (snd (Doe.download_file net pdf_url
                     "diarios_ceara/2024/baixar.pdf" 3 w))
             !! "diarios_ceara/2024/real.pdf"
          <> fs w !! "diarios_ceara/2024/real.pdf") as H
    by (vm_compute; discriminate).
  split; [exact H|].
  exact (output_path_changes_only_for_generic_names net pdf_url
           "diarios_ceara/2024/baixar.pdf" 3 w
           "diarios_ceara/2024/real.pdf" H).
Defined.
End ConcreteNames.

(** * Further properties *)

(** ** Prompts *)

Section Prompts.
Context {A : Type}.

Lemma trace_more_prompts (t : list event) (n : nat) :
  (t ++ [EvPrompt]) ++ repeat EvPrompt n = t ++ repeat EvPrompt (S n).
Proof. by rewrite <- app_assoc. Qed.

(** The answers that are not understood are read, one prompt each, until
    one is. *)
Lemma prompt_loop_until_understood (parse : string -> option A)
  (bad : list string) (a : string) (rest : list string) (v : A) (w : world) :
  Forall (misunderstood parse) bad ->
  parse (PyStr.lower (PyStr.strip a)) = Some v ->
  prompt_loop parse (bad ++ a :: rest) w
  = (Ok v, {| fs := fs w; stdin := rest;
              trace := trace w ++ repeat EvPrompt (S (length bad)) |}).
Proof.
  intros Hbad Ha. revert w.
  induction Hbad as [|b bad Hb Hbad IH]; intros w.
  - cbn [app prompt_loop length repeat]. by rewrite Ha.
  - cbn [app prompt_loop length]. rewrite Hb. rewrite IH.
    cbn [fs stdin trace]. by rewrite trace_more_prompts.
Qed.

(** When no answer is understood, [input] ends with [EOFError]. *)
Lemma prompt_loop_eof (parse : string -> option A) (answers : list string)
  (w : world) :
  Forall (misunderstood parse) answers ->
  prompt_loop parse answers w
  = (Raise EOFError,
     {| fs := fs w; stdin := [];
        trace := trace w ++ repeat EvPrompt (S (length answers)) |}).
Proof.
  intros Hbad. revert w.
  induction Hbad as [|b bad Hb Hbad IH]; intros w.
  - reflexivity.
  - cbn [prompt_loop length]. rewrite Hb. rewrite IH.
    cbn [fs stdin trace]. by rewrite trace_more_prompts.
Qed.

(** A prompt raises nothing but [EOFError], and then the input is used up. *)
Lemma prompt_loop_outcome (parse : string -> option A)
  (answers : list string) (w : world) :
  match prompt_loop parse answers w with
  | (Ok v, w') =>
      exists a, In a answers /\ parse (PyStr.lower (PyStr.strip a)) = Some v
  | (Raise e, w') => e = EOFError /\ stdin w' = []
  end.
Proof.
  revert w. induction answers as [|a rest IH]; intros w; [done|].
  cbn [prompt_loop]. destruct (parse _) as [v|] eqn:E.
  - exists a. split; [by left|done].
  - specialize (IH {| fs := fs w; stdin := rest;
                      trace := trace w ++ [EvPrompt] |}).
    destruct (prompt_loop parse rest _) as [[v|e] w']; [|done].
    destruct IH as (b & Hin & Hb). exists b. split; [by right|done].
Qed.

(** The two ways a prompt ends: at the first answer that is understood,
    or at the end of the input. *)
Lemma prompt_loop_cases (parse : string -> option A)
  (answers : list string) (w : world) :
  (exists bad a rest v,
      answers = bad ++ a :: rest
      /\ Forall (misunderstood parse) bad
      /\ parse (PyStr.lower (PyStr.strip a)) = Some v
      /\ prompt_loop parse answers w
         = (Ok v, {| fs := fs w; stdin := rest;
                     trace := trace w ++ repeat EvPrompt (S (length bad)) |}))
  \/ (Forall (misunderstood parse) answers
      /\ prompt_loop parse answers w
         = (Raise EOFError,
            {| fs := fs w; stdin := [];
               trace := trace w
                        ++ repeat EvPrompt (S (length answers)) |})).
Proof.
  assert ((exists bad a rest v,
              answers = bad ++ a :: rest
              /\ Forall (misunderstood parse) bad
              /\ parse (PyStr.lower (PyStr.strip a)) = Some v)
          \/ Forall (misunderstood parse) answers) as [H|H].
  { induction answers as [|a rest IH]; [by right|].
    destruct (parse (PyStr.lower (PyStr.strip a))) as [v|] eqn:E.
    - left. by exists [], a, rest, v.
    - destruct IH as [(bad & b & rest' & v & -> & Hbad & Hb)|Hall].
      + left. exists (a :: bad), b, rest', v. split; [done|].
        split; [by constructor|done].
      + right. by constructor. }
  - destruct H as (bad & a & rest & v & -> & Hbad & Ha).
    left. exists bad, a, rest, v. split; [done|]. split; [done|].
    split; [done|]. by apply prompt_loop_until_understood.
  - right. split; [done|]. by apply prompt_loop_eof.
Qed.
End Prompts.

(** ** The policy and the counters of [main] (dados_tse_baixa.py) *)

Section PolicyMore.
Context {lib : PyLib}.

(** With the overwrite-all flag set, and skip-all not,
    [handle_existing_file] answers [overwrite] at once. *)
Lemma handle_existing_file_overwrite_all (filepath : string) (w : world) :
  Tse.handle_existing_file filepath false true w
  = (Ok (Tse.overwrite, false, true), w).
Proof.
  unfold Tse.handle_existing_file, bind, get_world, ret.
  by destruct (path_exists w filepath).
Qed.

(** The attempts keep what the two ways of counting a download keep. *)
Lemma retry_loop_invariant (P : Tse.run_state -> Prop) (net : transport)
  (year : string) (res : Tse.resource) (p : string) (m : nat)
  (attempts : list nat) (st : Tse.run_state) (w : world) :
  (forall s, P s -> P (Tse.count_downloaded s)) ->
  (forall f s, P s -> P (Tse.count_failed f s)) ->
  P st ->
  post (Tse.retry_loop net year res p m attempts st) w
       (fun st' w' => P st' /\ quiet w w').
Proof.
  intros Hd Hf. revert st w.
  induction attempts as [|attempt rest IH]; intros st w HP.
  - by apply post_ret.
  - cbn [Tse.retry_loop]. apply post_bind.
    assert (post (if 1 <? attempt then sleep (2 ^ attempt) else ret tt) w
                 (fun _ w1 => quiet w w1)) as Hs.
    { destruct (1 <? attempt); [|by apply post_ret].
      unfold post. simpl. apply (quiet_sleep _ w). }
    eapply post_mono; [|exact Hs]. clear Hs. intros u w1 Hq1. simpl in Hq1.
    apply post_bind.
    destruct (tse_download_file_returns net (Tse.url res) p w1)
      as (r & w2 & Hdl & Hq2).
    eapply post_intro; [exact Hdl|].
    assert (quiet w w2) as Hq by (etransitivity; eauto).
    destruct (fst r).
    { apply post_ret. split; [by apply Hd|done]. }
    destruct (attempt <? m).
    + eapply post_mono; [|by apply IH]. intros st' w' [HP' Hq3].
      split; [done|]. etransitivity; eauto.
    + eapply post_mono; [|apply IH; by apply Hf]. intros st' w' [HP' Hq3].
      split; [done|]. etransitivity; eauto.
Qed.

Lemma process_resource_overwrite_all (net : transport)
  (year year_dir : string) (res : Tse.resource) (st : Tse.run_state)
  (w : world) :
  Tse.global_skip_all st = false ->
  Tse.global_overwrite_all st = true ->
  post (Tse.process_resource net year year_dir res st) w
       (fun st' w' =>
          (same_flags st st' /\ Tse.total_skipped st' = Tse.total_skipped st)
          /\ quiet w w').
Proof.
  intros Hs Ho. unfold Tse.process_resource. apply post_bind.
  rewrite Hs, Ho.
  eapply post_intro; [apply handle_existing_file_overwrite_all|].
  cbn [fst snd].
  apply (retry_loop_invariant
           (fun s => same_flags st s
                     /\ Tse.total_skipped s = Tse.total_skipped st)).
  - by intros s [[? ?] ?].
  - by intros f s [[? ?] ?].
  - unfold same_flags. cbn. by rewrite Hs, Ho.
Qed.

Lemma process_resources_overwrite_all (net : transport)
  (year year_dir : string) (resources : list Tse.resource)
  (st : Tse.run_state) (w : world) :
  Tse.global_skip_all st = false ->
  Tse.global_overwrite_all st = true ->
  post (Tse.process_resources net year year_dir resources st) w
       (fun st' w' =>
          (same_flags st st' /\ Tse.total_skipped st' = Tse.total_skipped st)
          /\ quiet w w').
Proof.
  revert st w. induction resources as [|res rest IH]; intros st w Hs Ho.
  - by apply post_ret.
  - cbn [Tse.process_resources]. apply post_bind.
    eapply post_mono; [|by apply process_resource_overwrite_all].
    intros st1 w1 [[[Hf1 Hf2] Hk1] Hq1].
    eapply post_mono; [|apply IH; congruence].
    intros st2 w2 [[[Hf3 Hf4] Hk2] Hq2].
    split; [split; [split|]; congruence|]. etransitivity; eauto.
Qed.
End PolicyMore.

(** X1.  Once the overwrite-all flag is set (and skip-all is not), every
    call of [handle_existing_file] returns [overwrite] at once, for every
    path, without a prompt; through the rest of the run no answer is read,
    no prompt is shown, the flags stay as they are and no resource is
    skipped. *)
Theorem overwrite_all_is_permanent (net : transport)
  (year year_dir : string) (resources : list Tse.resource)
  (st : Tse.run_state) (w : world) :
  Tse.global_skip_all st = false ->
  Tse.global_overwrite_all st = true ->
  (forall filepath w1,
      Tse.handle_existing_file filepath (Tse.global_skip_all st)
        (Tse.global_overwrite_all st) w1
      = (Ok (Tse.overwrite, false, true), w1))
  /\ exists st' w',
      Tse.process_resources net year year_dir resources st w = (Ok st', w')
      /\ Tse.global_skip_all st' = false
      /\ Tse.global_overwrite_all st' = true
      /\ Tse.total_skipped st' = Tse.total_skipped st
      /\ stdin w' = stdin w
      /\ prompts (trace w') = prompts (trace w).
Proof.
  intros Hs Ho. split.
  - intros filepath w1. rewrite Hs, Ho.
    apply handle_existing_file_overwrite_all.
  - destruct (post_elim _ _ _
                (process_resources_overwrite_all net year year_dir resources
                   st w Hs Ho))
      as (st' & w' & Hrun & [[Hf1 Hf2] Hk] & Hq1 & Hq2).
    exists st', w'. repeat split; try done; congruence.
Qed.

(** X2.  With no flag set and the file on disk, [handle_existing_file]
    asks until an answer is one of s, o, sa, oa (whatever its case and the
    blanks around it): the answers before it are read and dropped, one
    prompt each, and the decision is the one of that answer. *)
Theorem fresh_policy_asks_until_understood (filepath : string)
  (bad : list string) (a : string) (rest : list string)
  (d : Tse.action * bool * bool) (w : world) :
  path_exists w filepath = true ->
  stdin w = bad ++ a :: rest ->
  Forall (misunderstood Tse.parse_choice) bad ->
  Tse.parse_choice (PyStr.lower (PyStr.strip a)) = Some d ->
  Tse.handle_existing_file filepath false false w
  = (Ok d, {| fs := fs w; stdin := rest;
              trace := trace w ++ repeat EvPrompt (S (length bad)) |}).
Proof.
  intros Hex Hin Hbad Ha.
  unfold Tse.handle_existing_file, bind, get_world.
  rewrite Hex. cbn [negb]. unfold prompt. rewrite Hin.
  by apply prompt_loop_until_understood.
Qed.

(** X3.  With no flag set and the file on disk, when none of the pending
    answers is understood [handle_existing_file] raises [EOFError] after
    having asked once more than there were answers; no file is touched. *)
Theorem fresh_policy_runs_out_of_answers (filepath : string)
  (w : world) :
  path_exists w filepath = true ->
  Forall (misunderstood Tse.parse_choice) (stdin w) ->
  Tse.handle_existing_file filepath false false w
  = (Raise EOFError,
     {| fs := fs w; stdin := [];
        trace := trace w ++ repeat EvPrompt (S (length (stdin w))) |}).
Proof.
  intros Hex Hbad.
  unfold Tse.handle_existing_file, bind, get_world.
  rewrite Hex. cbn [negb]. unfold prompt.
  by apply prompt_loop_eof.
Qed.

Section Accounting.
Context {lib : PyLib}.

(** An answer never sets both flags. *)
Lemma parse_choice_flags (choice : string) (d : Tse.action * bool * bool) :
  Tse.parse_choice choice = Some d -> snd (fst d) && snd d = false.
Proof.
  unfold Tse.parse_choice.
  repeat (destruct (String.eqb choice _); [by intros [= <-]|]).
  done.
Qed.

(** [handle_existing_file] returns the flags it was given or those of an
    answer, and raises nothing but [EOFError]. *)
Lemma handle_existing_file_outcome (filepath : string) (gs go : bool)
  (w : world) :
  match Tse.handle_existing_file filepath gs go w with
  | (Ok d, w') =>
      (snd (fst d) = gs /\ snd d = go) \/ snd (fst d) && snd d = false
  | (Raise e, w') => e = EOFError /\ stdin w' = []
  end.
Proof.
  unfold Tse.handle_existing_file, bind, get_world.
  destruct (negb _); [by left|]. destruct gs; [by left|].
  destruct go; [by left|]. unfold prompt.
  pose proof (prompt_loop_outcome Tse.parse_choice (stdin w) w) as H.
  destruct (prompt_loop _ _ _) as [[d|e] w']; [|done].
  destruct H as (a & _ & Ha). right. by eapply parse_choice_flags.
Qed.

(** The three attempts end with the resource counted as downloaded or as
    failed. *)
Lemma retry_loop_counts_once (net : transport) (year : string)
  (res : Tse.resource) (p : string) (st : Tse.run_state) (w : world) :
  post (Tse.retry_loop net year res p Tse.max_retries
          (seq 1 Tse.max_retries) st) w
       (fun st' _ =>
          st' = Tse.count_downloaded st
          \/ exists f, st' = Tse.count_failed f st).
Proof.
  unfold post, Tse.max_retries. cbn [seq Tse.retry_loop Nat.ltb Nat.leb].
  unfold bind at 1. cbn [ret]. unfold bind at 1.
  destruct (tse_download_file_returns net (Tse.url res) p w)
    as (r1 & w1 & -> & _).
  destruct (fst r1); [by left|].
  unfold bind at 1. unfold sleep at 1. unfold bind at 1.
  destruct (tse_download_file_returns net (Tse.url res) p
              (log (EvSleep (2 ^ 2)) w1)) as (r2 & w2 & -> & _).
  destruct (fst r2); [by left|].
  unfold bind at 1. unfold sleep at 1. unfold bind at 1.
  destruct (tse_download_file_returns net (Tse.url res) p
              (log (EvSleep (2 ^ 3)) w2)) as (r3 & w3 & -> & _).
  destruct (fst r3); [by left|].
  right. eauto.
Qed.

Lemma process_resource_outcome (net : transport) (year year_dir : string)
  (res : Tse.resource) (st : Tse.run_state) (w : world) :
  match Tse.process_resource net year year_dir res st w with
  | (Ok st', w') => counted_once st st' 1
  | (Raise e, w') => e = EOFError /\ stdin w' = []
  end.
Proof.
  unfold Tse.process_resource, bind.
  pose proof (handle_existing_file_outcome
                (OsPath.join year_dir (Tse.name res))
                (Tse.global_skip_all st) (Tse.global_overwrite_all st) w)
    as Hpol.
  destruct (Tse.handle_existing_file _ _ _ w) as [[d|e] w1]; [|done].
  set (st1 := Tse.set_flags st (snd (fst d)) (snd d)).
  assert (counted_once st st1 0) as H1.
  { unfold counted_once, accounted, st1. cbn.
    split; [lia|]. split; [done|]. intros Hex.
    destruct Hpol as [[-> ->]|Hpol]; done. }
  destruct (fst (fst d)).
  - cbn [ret]. destruct H1 as (Ha & Hf & Hx).
    unfold counted_once, accounted in *. cbn in *.
    split; [lia|]. split; done.
  - pose proof (retry_loop_counts_once net year res
                  (OsPath.join year_dir (Tse.name res)) st1 w1) as Hr.
    unfold post in Hr.
    destruct (Tse.retry_loop _ _ _ _ _ _ st1 w1) as [[st'|e] w']; [|done].
    destruct H1 as (Ha & Hf & Hx).
    unfold counted_once, accounted in *.
    destruct Hr as [->|[f ->]]; cbn in *.
    + split; [lia|]. split; done.
    + split; [lia|]. split; [|done].
      intros H. rewrite length_app. cbn. rewrite Hf by done. lia.
Qed.

Lemma process_resources_outcome (net : transport) (year year_dir : string)
  (resources : list Tse.resource) (st : Tse.run_state) (w : world) :
  match Tse.process_resources net year year_dir resources st w with
  | (Ok st', w') => counted_once st st' (length resources)
  | (Raise e, w') => e = EOFError /\ stdin w' = []
  end.
Proof.
  revert st w. induction resources as [|res rest IH]; intros st w.
  - cbn. unfold counted_once. split; [lia|]. split; done.
  - cbn [Tse.process_resources length]. unfold bind.
    pose proof (process_resource_outcome net year year_dir res st w) as H1.
    destruct (Tse.process_resource _ _ _ _ st w) as [[st1|e] w1]; [|done].
    specialize (IH st1 w1).
    destruct (Tse.process_resources _ _ _ rest st1 w1) as [[st'|e] w'];
      [|done].
    destruct H1 as (Ha1 & Hf1 & Hx1). destruct IH as (Ha2 & Hf2 & Hx2).
    split; [lia|]. split; eauto.
Qed.
End Accounting.

(** X4.  [main] of dados_tse_baixa.py accounts for every resource of a year
    exactly once: when the loop over the resources returns, downloaded +
    skipped + failed has grown by the number of resources, and the list of
    failures is as long as the count of failures if it was before.  The
    loop raises nothing but the [EOFError] of a prompt that found no
    answer; a failed download never stops it. *)
Theorem every_resource_is_counted_once (net : transport)
  (year year_dir : string) (resources : list Tse.resource)
  (st : Tse.run_state) (w : world) :
  match Tse.process_resources net year year_dir resources st w with
  | (Ok st', w') =>
      Tse.total_downloaded st' + Tse.total_skipped st' + Tse.total_failed st'
      = Tse.total_downloaded st + Tse.total_skipped st + Tse.total_failed st
        + length resources
      /\ (length (Tse.failed_downloads st) = Tse.total_failed st ->
          length (Tse.failed_downloads st') = Tse.total_failed st')
  | (Raise e, w') => e = EOFError /\ stdin w' = []
  end.
Proof.
  pose proof (process_resources_outcome net year year_dir resources st w)
    as H.
  destruct (Tse.process_resources _ _ _ _ _ _) as [[st'|e] w']; [|done].
  destruct H as (Ha & Hf & _). split; [exact Ha|exact Hf].
Qed.

(** X5.  The two blanket flags are never both set: if they are not both set
    before the loop over the resources, they are not both set after it,
    whatever the answers. *)
Theorem blanket_flags_stay_exclusive (net : transport)
  (year year_dir : string) (resources : list Tse.resource)
  (st st' : Tse.run_state) (w w' : world) :
  Tse.global_skip_all st && Tse.global_overwrite_all st = false ->
  Tse.process_resources net year year_dir resources st w = (Ok st', w') ->
  Tse.global_skip_all st' && Tse.global_overwrite_all st' = false.
Proof.
  intros Hx Hrun.
  pose proof (process_resources_outcome net year year_dir resources st w)
    as H.
  rewrite Hrun in H. destruct H as (_ & _ & H). by apply H.
Qed.

(** X6.  The answer to overwrite does not truncate the file.  With no flag
    set, a file of K bytes on disk, a server that honours ranges and holds
    N > K bytes, and the answer o or oa, [main] downloads with a range
    request from K and appends: the file keeps its K bytes, followed by the
    content from K on, and the resource counts as downloaded. *)
Theorem overwrite_answer_appends (net : transport)
  (year year_dir : string) (res : Tse.resource) (st : Tse.run_state)
  (a : string) (rest : list string) (s o : bool)
  (content old : list byte) (w : world) :
  Tse.global_skip_all st = false ->
  Tse.global_overwrite_all st = false ->
  fs w !! OsPath.join year_dir (Tse.name res) = Some old ->
  length old < length content ->
  serves_ranges net (Tse.url res) content ->
  stdin w = a :: rest ->
  Tse.parse_choice (PyStr.lower (PyStr.strip a)) = Some (Tse.overwrite, s, o) ->
  Tse.process_resource net year year_dir res st w
  = (Ok (Tse.count_downloaded (Tse.set_flags st s o)),
     {| fs := <[OsPath.join year_dir (Tse.name res)
                := old ++ drop (length old) content]> (fs w);
        stdin := rest;
        trace := trace w ++ [EvPrompt;
                             EvGet (Tse.url res) (Some (length old));
                             EvRecv (length content - length old)] |}).
Proof.
  intros Hs Ho Hold Hlt Hnet Hin Ha.
  set (path := OsPath.join year_dir (Tse.name res)) in *.
  set (w1 := {| fs := fs w; stdin := rest; trace := trace w ++ [EvPrompt] |}).
  assert (Tse.handle_existing_file path (Tse.global_skip_all st)
            (Tse.global_overwrite_all st) w
          = (Ok (Tse.overwrite, s, o), w1)) as Hpol.
  { rewrite Hs, Ho. unfold Tse.handle_existing_file, bind, get_world.
    unfold path_exists. rewrite Hold. cbn [negb]. unfold prompt.
    rewrite Hin. cbn [prompt_loop]. by rewrite Ha. }
  rewrite (process_resource_after_policy net year year_dir res st w w1 _ Hpol).
  cbn [fst snd]. fold path.
  unfold Tse.max_retries. cbn [seq Tse.retry_loop Nat.ltb Nat.leb].
  unfold bind at 1. cbn [ret]. unfold bind at 1.
  rewrite (tse_download_file_resumes net (Tse.url res) path content old w1
             Hnet Hold Hlt).
  cbn [fst ret w1 fs stdin trace]. by rewrite <- app_assoc.
Qed.

(** ** One call of [download_file] (dados_tse_baixa.py) *)

#[local] Instance keeps_files_refl path : Reflexive (keeps_files path).
Proof. by intros w. Qed.
#[local] Instance keeps_files_trans path : Transitive (keeps_files path).
Proof.
  intros a b c [H1 E1] [H2 E2]. split; [|by auto].
  intros p Hp. by rewrite H2, H1.
Qed.

Section TseDownloadMore.
Context {lib : PyLib}.

(** A response that is neither an error nor a 416 is streamed to the file:
    after what is on disk when a range was asked, from the start when there
    was no file.  The status code is not looked at any further. *)
Lemma tse_download_file_streams (net : transport) (url path : string)
  (r : response) (w : world) :
  net url (Tse.resume_offset w path) (requests_made w) = Ok r ->
  status_code r <> 416 ->
  (400 <=? status_code r) && (status_code r <? 600) = false ->
  content_length r <> BadLength ->
  Tse.download_file net url path w
  = (Ok (match body_error r with
         | Some e => (false, Some e)
         | None => (true, None)
         end),
     {| fs := <[path := on_disk w path ++ concat (body r)]> (fs w);
        stdin := stdin w;
        trace := trace w ++ [EvGet url (Tse.resume_offset w path);
                             EvRecv (length (concat (body r)))] |}).
Proof.
  intros Hr H416 Hst Hcl.
  unfold Tse.download_file, try_except, bind, get_world, http_get.
  rewrite Hr. apply Nat.eqb_neq in H416. rewrite H416.
  cbn [ret fst snd]. unfold raise_for_status.
  rewrite check_status_ok by exact Hst.
  destruct (int_content_length_ok r
              (log (EvGet url (Tse.resume_offset w path)) w) Hcl) as [n ->].
  unfold write_stream, log, on_disk, Tse.resume_offset, path_exists, getsize.
  cbn [fs stdin trace].
  destruct (fs w !! path) as [old|] eqn:Hold.
  - rewrite bool_decide_eq_true_2 by done. cbn [andb].
    rewrite write_chunks_concat, <- app_assoc.
    by destruct (body_error r).
  - rewrite bool_decide_eq_false_2 by (by intros [? ?]). cbn [andb].
    rewrite write_chunks_concat, <- app_assoc.
    by destruct (body_error r).
Qed.

Lemma keeps_files_same (path : string) (w w' : world) :
  fs w' = fs w -> keeps_files path w w'.
Proof.
  intros H. split; [by rewrite H|]. unfold path_exists. by rewrite H.
Qed.

Lemma keeps_files_http_get (net : transport) (url path : string)
  (range : option nat) : preserves (keeps_files path) (http_get net url range).
Proof. intros w. by apply keeps_files_same. Qed.

Lemma keeps_files_write_stream (path : string) (mode : open_mode)
  (r : response) : preserves (keeps_files path) (write_stream path mode r).
Proof.
  intros w. unfold write_stream.
  assert (forall c e,
            keeps_files path w
              {| fs := <[path := c]> (fs w); stdin := stdin w; trace := e |})
    as H.
  { intros c e. split; cbn [fs].
    - intros p Hp. by rewrite lookup_insert_ne.
    - intros _. unfold path_exists. cbn [fs]. by rewrite lookup_insert_eq. }
  destruct (body_error r); apply H.
Qed.

Lemma tse_download_file_keeps_files (net : transport) (url path : string) :
  preserves (keeps_files path) (Tse.download_file net url path).
Proof.
  unfold Tse.download_file.
  apply preserves_try_except; [apply _| |intros; by apply preserves_ret].
  apply preserves_bind; [apply _|by intros w|intros w0].
  apply preserves_bind; [apply _|apply keeps_files_http_get|intros resp].
  apply preserves_bind; [apply _| |intros rr].
  { destruct (_ =? 416); [|by apply preserves_ret].
    apply preserves_bind; [apply _|apply keeps_files_http_get|].
    intros; by apply preserves_ret. }
  apply preserves_bind; [apply _| |intros _].
  { intros w. unfold raise_for_status, check_status. by destruct (_ && _). }
  apply preserves_bind; [apply _| |intros n].
  { intros w. unfold int_content_length. by destruct (content_length _). }
  apply preserves_bind; [apply _|by intros w|intros w1].
  apply preserves_bind; [apply _|apply keeps_files_write_stream|intros _].
  by apply preserves_ret.
Qed.
End TseDownloadMore.

(** X7.  When the first answer has a status from 400 to 599 other than 416,
    [download_file] of dados_tse_baixa.py returns failure with that HTTP
    error after its one request: the body is not read and no file is
    touched. *)
Theorem http_error_is_reported (net : transport)
  (url path : string) (r : response) (w : world) :
  net url (Tse.resume_offset w path) (requests_made w) = Ok r ->
  (400 <=? status_code r) && (status_code r <? 600) = true ->
  status_code r <> 416 ->
  Tse.download_file net url path w
  = (Ok (false, Some (HTTPError (status_code r))),
     {| fs := fs w; stdin := stdin w;
        trace := trace w ++ [EvGet url (Tse.resume_offset w path)] |}).
Proof.
  intros Hr Hst H416.
  unfold Tse.download_file, try_except, bind, get_world, http_get.
  rewrite Hr. apply Nat.eqb_neq in H416. rewrite H416.
  cbn [ret fst snd]. unfold raise_for_status, check_status. by rewrite Hst.
Qed.

(** X8.  When the stream breaks, [download_file] of dados_tse_baixa.py
    returns failure with the exception and leaves in the file what was on
    disk (if a range was asked) followed by the bytes received before the
    break; the next call asks for the range that starts after them. *)
Theorem broken_stream_keeps_received_bytes (net : transport)
  (url path : string) (r : response) (e : exn) (w : world) :
  net url (Tse.resume_offset w path) (requests_made w) = Ok r ->
  status_code r <> 416 ->
  (400 <=? status_code r) && (status_code r <? 600) = false ->
  content_length r <> BadLength ->
  body_error r = Some e ->
  exists w',
    Tse.download_file net url path w = (Ok (false, Some e), w')
    /\ fs w' !! path = Some (on_disk w path ++ concat (body r))
    /\ Tse.resume_offset w' path
       = Some (length (on_disk w path) + length (concat (body r)))
    /\ bytes_received (trace w')
       = bytes_received (trace w) + length (concat (body r)).
Proof.
  intros Hr H416 Hst Hcl Herr. eexists. split.
  - rewrite (tse_download_file_streams net url path r w Hr H416 Hst Hcl).
    by rewrite Herr.
  - unfold Tse.resume_offset, path_exists, getsize. cbn [fs trace].
    rewrite lookup_insert_eq, length_app, bytes_received_app. cbn.
    repeat split; lia.
Qed.

(** X9.  [download_file] of dados_tse_baixa.py checks no status but 416 and
    the errors: when the answer to a request with a range is anything else,
    such as a 200 that carries the whole resource, its body is appended to
    the file all the same and the call succeeds. *)
Theorem any_other_status_is_appended (net : transport)
  (url path : string) (r : response) (old : list byte) (w : world) :
  fs w !! path = Some old ->
  net url (Some (length old)) (requests_made w) = Ok r ->
  status_code r <> 416 ->
  (400 <=? status_code r) && (status_code r <? 600) = false ->
  content_length r <> BadLength ->
  body_error r = None ->
  Tse.download_file net url path w
  = (Ok (true, None),
     {| fs := <[path := old ++ concat (body r)]> (fs w);
        stdin := stdin w;
        trace := trace w ++ [EvGet url (Some (length old));
                             EvRecv (length (concat (body r)))] |}).
Proof.
  intros Hold Hr H416 Hst Hcl Herr.
  assert (Tse.resume_offset w path = Some (length old)) as Hoff.
  { unfold Tse.resume_offset, path_exists, getsize. by rewrite Hold. }
  rewrite <- Hoff in Hr.
  rewrite (tse_download_file_streams net url path r w Hr H416 Hst Hcl).
  rewrite Herr, Hoff. unfold on_disk. by rewrite Hold.
Qed.

(** X10.  Whatever the transport does, [download_file] of
    dados_tse_baixa.py returns a result instead of raising, reads no answer
    from the user, changes no file but the one at its output path, and does
    not remove that file if it was there. *)
Theorem download_file_touches_only_its_path (net : transport)
  (url path : string) (w : world) :
  exists result w',
    Tse.download_file net url path w = (Ok result, w')
    /\ (forall p, p <> path -> fs w' !! p = fs w !! p)
    /\ (path_exists w path = true -> path_exists w' path = true)
    /\ stdin w' = stdin w.
Proof.
  destruct (tse_download_file_returns net url path w)
    as (result & w' & Hrun & Hq & _).
  pose proof (tse_download_file_keeps_files net url path w) as [Hf He].
  rewrite Hrun in Hf, He. cbn [snd] in Hf, He.
  by exists result, w'.
Qed.

(** ** Retrying after a broken stream (dados_tse_baixa.py) *)

Lemma requests_app (t u : list event) :
  requests (t ++ u) = requests t + requests u.
Proof.
  induction t as [|e t IH]; [done|]. cbn [app requests]. rewrite IH. lia.
Qed.

(** X11.  The partial file of a failed attempt is where the next attempt
    resumes.  When the stream of the first attempt breaks and the second
    request, sent after 2^2 seconds with a range that starts after the
    bytes now on disk, is answered in full, [main] of dados_tse_baixa.py
    counts the resource as downloaded and the file holds what was on disk
    followed by the bytes of both answers. *)
Theorem retry_resumes_from_partial_file (net : transport)
  (year : string) (res : Tse.resource) (path : string)
  (r1 r2 : response) (e : exn) (st : Tse.run_state) (w : world) :
  net (Tse.url res) (Tse.resume_offset w path) (requests_made w) = Ok r1 ->
  status_code r1 <> 416 ->
  (400 <=? status_code r1) && (status_code r1 <? 600) = false ->
  content_length r1 <> BadLength ->
  body_error r1 = Some e ->
  net (Tse.url res)
    (Some (length (on_disk w path) + length (concat (body r1))))
    (S (requests_made w)) = Ok r2 ->
  status_code r2 <> 416 ->
  (400 <=? status_code r2) && (status_code r2 <? 600) = false ->
  content_length r2 <> BadLength ->
  body_error r2 = None ->
  Tse.retry_loop net year res path Tse.max_retries (seq 1 Tse.max_retries)
    st w
  = (Ok (Tse.count_downloaded st),
     {| fs := <[path := on_disk w path ++ concat (body r1)
                        ++ concat (body r2)]> (fs w);
        stdin := stdin w;
        trace := trace w
                 ++ [EvGet (Tse.url res) (Tse.resume_offset w path);
                     EvRecv (length (concat (body r1)));
                     EvSleep 4;
                     EvGet (Tse.url res)
                       (Some (length (on_disk w path)
                              + length (concat (body r1))));
                     EvRecv (length (concat (body r2)))] |}).
Proof.
  intros Hr1 H1 Hs1 Hc1 He1 Hr2 H2 Hs2 Hc2 He2.
  set (w1 := {| fs := <[path := on_disk w path ++ concat (body r1)]> (fs w);
                stdin := stdin w;
                trace := trace w
                         ++ [EvGet (Tse.url res) (Tse.resume_offset w path);
                             EvRecv (length (concat (body r1)))] |}).
  set (w2 := log (EvSleep (2 ^ 2)) w1).
  assert (Tse.resume_offset w2 path
          = Some (length (on_disk w path) + length (concat (body r1))))
    as Hoff.
  { unfold Tse.resume_offset, path_exists, getsize, w2, w1, log.
    cbn [fs]. by rewrite lookup_insert_eq, length_app. }
  assert (requests_made w2 = S (requests_made w)) as Hn.
  { unfold requests_made, w2, w1, log. cbn [trace].
    rewrite !requests_app. cbn. lia. }
  assert (on_disk w2 path = on_disk w path ++ concat (body r1)) as Hdisk.
  { unfold on_disk, w2, w1, log. cbn [fs]. by rewrite lookup_insert_eq. }
  rewrite <- Hoff, <- Hn in Hr2.
  unfold Tse.max_retries. cbn [seq Tse.retry_loop Nat.ltb Nat.leb].
  unfold bind at 1. cbn [ret]. unfold bind at 1.
  rewrite (tse_download_file_streams net _ path r1 w Hr1 H1 Hs1 Hc1), He1.
  cbn [fst snd]. fold w1.
  unfold bind at 1. unfold sleep at 1. fold w2. unfold bind at 1.
  rewrite (tse_download_file_streams net _ path r2 w2 Hr2 H2 Hs2 Hc2), He2.
  cbn [fst snd ret]. rewrite Hoff, Hdisk.
  unfold w2, w1, log. cbn [fs stdin trace].
  rewrite insert_insert_eq. by rewrite <- !app_assoc.
Qed.

(** ** Resources of a year (dados_tse_baixa.py) *)

Section PathFacts.
Import PyStr.

Lemma contains_slash (s : string) :
  contains s "/" = negb (all_chars not_slash s).
Proof.
  induction s as [|c s IH]; [done|].
  cbn [contains startswith all_chars]. rewrite IH. unfold not_slash.
  destruct (Ascii.eqb c "/"); cbn; [done|].
  by destruct (all_chars _ s).
Qed.

Lemma no_slash_iff (s : string) :
  contains s "/" = false <-> all_chars not_slash s = true.
Proof. rewrite contains_slash. by destruct (all_chars not_slash s). Qed.

(** [os.path.basename] never holds a slash. *)
Lemma basename_no_slash (p : string) :
  contains (OsPath.basename p) "/" = false.
Proof.
  induction p as [|c p IH]; [done|]. cbn [OsPath.basename].
  destruct (contains p "/") eqn:E; [done|].
  destruct (Ascii.eqb c "/") eqn:Ec; [done|].
  cbn [contains startswith]. by rewrite Ec, E.
Qed.

Lemma basename_without_slash (s : string) :
  contains s "/" = false -> OsPath.basename s = s.
Proof.
  destruct s as [|c s]; [done|]. cbn [contains startswith OsPath.basename].
  destruct (Ascii.eqb c "/"); [done|]. cbn. by intros ->.
Qed.

Lemma basename_after_slash (a s : string) :
  contains s "/" = false -> OsPath.basename (a +:+ "/" +:+ s) = s.
Proof.
  intros Hs. induction a as [|c a IH].
  - rewrite app_empty_l. change ("/" +:+ s) with (String "/" s).
    cbn [OsPath.basename]. by rewrite Hs.
  - rewrite app_cons. cbn [OsPath.basename].
    by rewrite contains_app.
Qed.

(** A name without a slash lands in the directory it is joined to. *)
Lemma basename_join (dir name : string) :
  contains name "/" = false ->
  OsPath.basename (OsPath.join dir name) = name.
Proof.
  intros Hn. unfold OsPath.join.
  assert (startswith name "/" = false) as ->.
  { destruct name as [|c name]; [done|].
    cbn [contains startswith] in *. by destruct (Ascii.eqb c "/"). }
  destruct (negb (nonempty dir) || endswith dir "/") eqn:E.
  - apply orb_true_iff in E as [E|E].
    + destruct dir; [|done]. rewrite app_empty_l.
      by apply basename_without_slash.
    + apply endswith_spec in E as [p ->]. rewrite app_assoc_str.
      by apply basename_after_slash.
  - by apply basename_after_slash.
Qed.

Lemma all_chars_impl (p q : ascii -> bool) (s : string) :
  (forall c, p c = true -> q c = true) ->
  all_chars p s = true -> all_chars q s = true.
Proof.
  intros Hpq. induction s as [|c s IH]; [done|]. cbn [all_chars].
  intros H. apply andb_true_iff in H as [Hc Hs].
  by rewrite (Hpq c Hc), IH.
Qed.

Lemma all_chars_lstrip (p q : ascii -> bool) (s : string) :
  all_chars p s = true -> all_chars p (lstrip_by q s) = true.
Proof.
  induction s as [|c s IH]; [done|]. cbn [all_chars lstrip_by].
  intros H. destruct (q c); [|done].
  apply andb_true_iff in H as [_ H]. by apply IH.
Qed.

Lemma all_chars_rstrip (p q : ascii -> bool) (s : string) :
  all_chars p s = true -> all_chars p (rstrip_by q s) = true.
Proof.
  induction s as [|c s IH]; [done|]. cbn [all_chars rstrip_by].
  intros H. apply andb_true_iff in H as [Hc Hs]. specialize (IH Hs).
  destruct (rstrip_by q s) as [|d r].
  - destruct (q c); [done|]. cbn. by rewrite Hc.
  - cbn [all_chars] in *. by rewrite Hc, IH.
Qed.

Lemma all_chars_strip (p q : ascii -> bool) (s : string) :
  all_chars p s = true -> all_chars p (strip_by q s) = true.
Proof. intros H. by apply all_chars_rstrip, all_chars_lstrip. Qed.
Lemma head_of_after_slash (a s : string) :
  contains s "/" = false -> OsPath.head_of (a +:+ "/" +:+ s) = a +:+ "/".
Proof.
  intros Hs. induction a as [|c a IH].
  - rewrite !app_empty_l. change ("/" +:+ s) with (String "/" s).
    cbn [OsPath.head_of]. by rewrite Hs.
  - rewrite (app_cons c a ("/" +:+ s)), (app_cons c a "/").
    cbn [OsPath.head_of]. by rewrite contains_app, IH.
Qed.

Lemma rstrip_after_slash (a : string) :
  a <> EmptyString -> endswith a "/" = false ->
  rstrip (a +:+ "/") "/" = a
  /\ all_chars (fun c => Ascii.eqb c "/") (a +:+ "/") = false.
Proof.
  unfold rstrip. induction a as [|c a IH]; [done|]. intros _ Hend.
  cbn [endswith] in Hend. apply orb_false_iff in Hend as [Hc Hend].
  rewrite (app_cons c a "/"). cbn [rstrip_by all_chars].
  destruct a as [|d a].
  - rewrite app_empty_l. cbn.
    destruct (Ascii.eqb c "/") eqn:E.
    { apply Ascii.eqb_eq in E. subst c. done. }
    done.
  - destruct IH as [IH1 IH2]; [done|exact Hend|].
    rewrite IH1, IH2. by rewrite andb_false_r.
Qed.

Lemma split_join (dir name : string) :
  dir <> EmptyString -> endswith dir "/" = false ->
  name <> EmptyString -> contains name "/" = false ->
  OsPath.dirname (OsPath.join dir name) = dir
  /\ OsPath.basename (OsPath.join dir name) = name.
Proof.
  intros Hd Hend Hn Hs. split; [|by apply basename_join].
  unfold OsPath.join.
  assert (startswith name "/" = false) as ->.
  { destruct name as [|c name]; [done|].
    cbn [contains startswith] in *. by destruct (Ascii.eqb c "/"). }
  rewrite Hend. destruct dir as [|c dir]; [done|]. cbn [nonempty negb orb].
  unfold OsPath.dirname. rewrite head_of_after_slash by done.
  destruct (rstrip_after_slash (String c dir)) as [H1 H2]; [done|done|].
  by rewrite H2, H1.
Qed.
End PathFacts.

Section TitleNames.
Context {lib : PyLib}.
Import PyStr.

(** Runs of hyphens and blanks become one hyphen: what is left holds no
    blank. *)
Lemma collapse_separators_chars (after_separator : bool) (s : string) :
  all_chars (fun c => isalnum c || Ascii.eqb c "_" || isspace c
                      || Ascii.eqb c "-") s = true ->
  all_chars title_char (Tse.collapse_separators after_separator s) = true.
Proof.
  revert after_separator. induction s as [|c s IH]; intros b; [done|].
  cbn [all_chars Tse.collapse_separators]. intros H.
  apply andb_true_iff in H as [Hc Hs].
  destruct (Ascii.eqb c "-" || isspace c) eqn:Esep.
  - destruct b; [by apply IH|]. cbn [all_chars]. by rewrite IH.
  - cbn [all_chars]. rewrite IH by done.
    apply orb_false_iff in Esep as [E1 E2]. unfold title_char.
    rewrite E1, E2 in Hc. rewrite E1.
    by destruct (isalnum c), (Ascii.eqb c "_").
Qed.

Lemma separator_is_no_word_char (c : ascii) :
  Ascii.eqb c "-" || isspace c = true -> word_char c = false.
Proof. by destruct c as [[] [] [] [] [] [] [] []]. Qed.

Lemma filter_chars_filter (p q : ascii -> bool) (s : string) :
  (forall c, q c = true -> p c = true) ->
  filter_chars q (filter_chars p s) = filter_chars q s.
Proof.
  intros Hqp. induction s as [|c s IH]; [done|]. cbn [filter_chars].
  destruct (p c) eqn:Ep; cbn [filter_chars]; rewrite IH; [done|].
  destruct (q c) eqn:Eq; [|done]. rewrite (Hqp c Eq) in Ep. done.
Qed.

Lemma filter_chars_lstrip (p q : ascii -> bool) (s : string) :
  (forall c, p c = true -> q c = false) ->
  filter_chars q (lstrip_by p s) = filter_chars q s.
Proof.
  intros Hpq. induction s as [|c s IH]; [done|]. cbn [lstrip_by].
  destruct (p c) eqn:Ep; [|done]. cbn [filter_chars].
  by rewrite (Hpq c Ep).
Qed.

Lemma filter_chars_rstrip (p q : ascii -> bool) (s : string) :
  (forall c, p c = true -> q c = false) ->
  filter_chars q (rstrip_by p s) = filter_chars q s.
Proof.
  intros Hpq. induction s as [|c s IH]; [done|]. cbn [rstrip_by].
  destruct (rstrip_by p s) as [|d r] eqn:E.
  - cbn [filter_chars] in *. rewrite <- IH.
    destruct (p c) eqn:Ep; [by rewrite (Hpq c Ep)|done].
  - cbn [filter_chars] in *. by rewrite IH.
Qed.

(** The words of the title are kept as they are, in their order. *)
Lemma collapse_separators_words (after_separator : bool) (s : string) :
  filter_chars word_char (Tse.collapse_separators after_separator s)
  = filter_chars word_char s.
Proof.
  revert after_separator. induction s as [|c s IH]; intros b; [done|].
  cbn [Tse.collapse_separators filter_chars].
  destruct (Ascii.eqb c "-" || isspace c) eqn:Esep.
  - rewrite (separator_is_no_word_char c Esep).
    destruct b; [by rewrite IH|]. cbn [filter_chars]. by rewrite IH.
  - cbn [filter_chars]. by rewrite IH.
Qed.

(** No two hyphens follow each other. *)
Lemma collapse_separators_single (after_separator : bool) (s : string) :
  contains (Tse.collapse_separators after_separator s) "--" = false
  /\ (after_separator = true ->
      startswith (Tse.collapse_separators after_separator s) "-" = false).
Proof.
  revert after_separator. induction s as [|c s IH]; intros b; [done|].
  cbn [Tse.collapse_separators].
  destruct (Ascii.eqb c "-" || isspace c) eqn:Esep.
  - destruct b; [apply IH|]. split; [|done].
    destruct (IH true) as [H1 H2]. specialize (H2 eq_refl).
    cbn [contains startswith]. rewrite H1.
    destruct (Tse.collapse_separators true s) as [|d r]; [done|].
    cbn [startswith] in *. cbn.
    destruct (Ascii.eqb d "-"); [done|]. done.
  - apply orb_false_iff in Esep as [E1 E2].
    destruct (IH false) as [H1 _]. split.
    + cbn [contains startswith]. by rewrite E1, H1.
    + intros _. cbn [startswith]. by rewrite E1.
Qed.

Lemma safe_title_of_words (title : string) :
  filter_chars word_char (Tse.safe_title_of title)
  = filter_chars word_char title.
Proof.
  unfold Tse.safe_title_of, strip, strip_by.
  rewrite collapse_separators_words.
  rewrite filter_chars_rstrip, filter_chars_lstrip.
  - apply filter_chars_filter. intros c. unfold word_char.
    destruct (isalnum c), (Ascii.eqb c "_"); done.
  - intros c Hc. apply separator_is_no_word_char. by rewrite Hc, orb_true_r.
  - intros c Hc. apply separator_is_no_word_char. by rewrite Hc, orb_true_r.
Qed.

Lemma safe_title_of_chars (title : string) :
  all_chars title_char (Tse.safe_title_of title) = true.
Proof.
  unfold Tse.safe_title_of. apply collapse_separators_chars.
  apply all_chars_strip, all_chars_filter.
Qed.

Lemma title_char_not_slash (c : ascii) :
  title_char c = true -> not_slash c = true.
Proof.
  unfold title_char, not_slash, isalnum.
  destruct (Ascii.eqb c "/") eqn:E; [|done].
  apply Ascii.eqb_eq in E. by subst c.
Qed.

(** The formats are words without a slash. *)
Lemma file_format_of_no_slash (download_url : string) :
  all_chars not_slash (lower (Tse.file_format_of download_url)) = true
  /\ all_chars title_char (lower (Tse.file_format_of download_url)) = true.
Proof.
  unfold Tse.file_format_of.
  repeat match goal with
         | |- context [if ?b then _ else _] => destruct b
         end; by split.
Qed.

Lemma filename_of_ok (download_url title : string) :
  let name :=
    Tse.filename_of download_url title (Tse.file_format_of download_url) in
  name <> EmptyString /\ contains name "/" = false.
Proof.
  unfold Tse.filename_of.
  destruct (negb (nonempty (OsPath.basename (urlparse_path download_url)))
            || String.eqb (OsPath.basename (urlparse_path download_url)) "/")
    eqn:E.
  - split.
    + intros H. apply (f_equal String.length) in H.
      rewrite !app_length_str in H. cbn in H. lia.
    + apply no_slash_iff. rewrite !all_chars_app.
      rewrite (all_chars_impl _ _ _ title_char_not_slash
                 (safe_title_of_chars title)).
      by rewrite (proj1 (file_format_of_no_slash download_url)).
  - apply orb_false_iff in E as [E _]. split.
    + by destruct (OsPath.basename _).
    + apply basename_no_slash.
Qed.

Lemma resource_name_of_url (pages : Tse.web) (item : Tse.res_item)
  (w w' : world) (r : Tse.resource) :
  Tse.resource_of_item pages item w = (Ok (Some r), w') ->
  Tse.name r
  = Tse.filename_of (Tse.url r) (Tse.title r) (Tse.file_format_of (Tse.url r)).
Proof.
  unfold Tse.resource_of_item.
  destruct (match Tse.heading_text item with
            | Some t => Some t
            | None => _ end) as [title|]; [|discriminate].
  destruct (Tse.find_download_link item) as [a|]; [|discriminate].
  unfold bind.
  destruct (Tse.follow_resource_page pages (Tse.href_of a) w)
    as [[followed|e] w1]; [|discriminate].
  unfold ret. intros [= <- <-]. reflexivity.
Qed.
End TitleNames.

(** X12.  Every resource found on the page of a year has a name that is
    not empty and holds no slash, so [os.path.split] of the path [main]
    builds for it gives back the directory of the year and that name: the
    name adds no directory of its own.  (The names . and .. are not
    excluded: see the resource of a URL whose path ends with two dots,
    below.  The source passes over the items on which a URL function
    raises, so its resources are among those of the model.) *)
Theorem resource_path_splits_into_directory_and_name {lib : PyLib}
  (pages : Tse.web) (item : Tse.res_item) (w w' : world) (r : Tse.resource)
  (year_dir : string) :
  Tse.resource_of_item pages item w = (Ok (Some r), w') ->
  year_dir <> EmptyString ->
  PyStr.endswith year_dir "/" = false ->
  Tse.name r <> EmptyString
  /\ PyStr.contains (Tse.name r) "/" = false
  /\ OsPath.dirname (OsPath.join year_dir (Tse.name r)) = year_dir
  /\ OsPath.basename (OsPath.join year_dir (Tse.name r)) = Tse.name r.
Proof.
  intros H Hdir Hend. rewrite (resource_name_of_url pages item w w' r H).
  destruct (filename_of_ok (Tse.url r) (Tse.title r)) as [Hne Hns].
  split; [exact Hne|]. split; [exact Hns|]. by apply split_join.
Qed.

(** X13.  When the path of the download URL has no last segment, the name
    of the resource is a stem made from its title, a dot and the format in
    lower case.  For an ASCII title the stem holds only alphanumerics,
    underscores and hyphens, never two hyphens in a row, and its
    alphanumerics and underscores are those of the title, in the same
    order: only the other characters of the title are dropped or turned
    into hyphens. *)
Theorem title_names_are_safe {lib : PyLib} (download_url title : string) :
  is_ascii title = true ->
  OsPath.basename (urlparse_path download_url) = EmptyString ->
  exists stem,
    Tse.filename_of download_url title (Tse.file_format_of download_url)
    = stem +:+ "." +:+ PyStr.lower (Tse.file_format_of download_url)
    /\ PyStr.all_chars title_char stem = true
    /\ PyStr.contains stem "--" = false
    /\ PyStr.filter_chars word_char stem
       = PyStr.filter_chars word_char title
    /\ PyStr.all_chars title_char
         (PyStr.lower (Tse.file_format_of download_url)) = true.
Proof.
  intros _ Hb. exists (Tse.safe_title_of title).
  unfold Tse.filename_of. rewrite Hb. cbn [PyStr.nonempty negb orb].
  split; [done|]. split; [apply safe_title_of_chars|].
  split; [apply collapse_separators_single|].
  split; [apply safe_title_of_words|].
  apply file_format_of_no_slash.
Qed.

(** X14.  A year whose page cannot be listed does not stop the run: when
    the request for the page raises, or its status is an error, or the page
    has no heading for the resources, [main] goes on with the next year
    after that one request, with the counters, the flags and the files as
    they were. *)
Theorem failed_year_is_passed_over {lib : PyLib} (pages : Tse.web)
  (net : transport) (year year_url : string)
  (rest : list (string * string)) (st : Tse.run_state) (w : world) :
  no_listing pages year_url (requests_made w) ->
  Tse.process_years pages net ((year, year_url) :: rest) st w
  = Tse.process_years pages net rest st (log (EvGet year_url None) w).
Proof.
  unfold no_listing. intros H.
  cbn [Tse.process_years]. unfold bind at 1.
  assert (Tse.get_resources_from_year pages year_url w
          = (Ok [], log (EvGet year_url None) w)) as ->; [|done].
  unfold Tse.get_resources_from_year, try_except, bind, Tse.fetch, bind.
  destruct (pages year_url (requests_made w)) as [[status page]|e];
    [|by destruct e].
  cbn [fst snd]. unfold check_status.
  destruct ((400 <=? status) && (status <? 600)) eqn:E; [done|].
  destruct H as [H|H]; [done|]. cbn [ret]. by rewrite H.
Qed.

Section Listing.
Context {lib : PyLib}.

Lemma reads_only_refl (w : world) : reads_only 0 w w.
Proof. unfold reads_only. repeat split; lia. Qed.

Lemma reads_only_trans (j k : nat) (w1 w2 w3 : world) :
  reads_only j w1 w2 -> reads_only k w2 w3 -> reads_only (j + k) w1 w3.
Proof.
  intros (F1 & I1 & G1 & P1 & S1) (F2 & I2 & G2 & P2 & S2).
  unfold reads_only. repeat split; try congruence. lia.
Qed.

Lemma reads_only_more (j k : nat) (w w' : world) :
  j <= k -> reads_only j w w' -> reads_only k w w'.
Proof.
  intros Hjk (F & I & G & P & S). unfold reads_only.
  repeat split; try done. lia.
Qed.

Lemma reads_only_log_get (url : string) (w : world) :
  reads_only 1 w (log (EvGet url None) w).
Proof.
  unfold reads_only. cbn [log fs stdin trace].
  rewrite gets_app, prompts_app, sleeps_app. cbn.
  rewrite app_nil_r. repeat split; lia.
Qed.

(** Fetching a page is one request. *)
Lemma fetch_reads_only (pages : Tse.web) (page_url : string) (w : world) :
  reads_only 1 w (snd (Tse.fetch pages page_url w)).
Proof.
  unfold Tse.fetch, bind, check_status.
  destruct (pages page_url (requests_made w)) as [[status page]|e];
    cbn [fst snd]; [|apply reads_only_log_get].
  destruct (_ && _); apply reads_only_log_get.
Qed.

(** An item gives at most one resource, for at most one request, and
    raises nothing. *)
Lemma resource_of_item_reads_only (pages : Tse.web) (item : Tse.res_item)
  (w : world) :
  exists r w',
    Tse.resource_of_item pages item w = (Ok r, w') /\ reads_only 1 w w'.
Proof.
  unfold Tse.resource_of_item.
  destruct (match Tse.heading_text item with
            | Some t => Some t
            | None => _ end) as [title|].
  2:{ eexists _, _. split; [reflexivity|].
      eapply reads_only_more; [|apply reads_only_refl]. lia. }
  destruct (Tse.find_download_link item) as [a|].
  2:{ eexists _, _. split; [reflexivity|].
      eapply reads_only_more; [|apply reads_only_refl]. lia. }
  unfold bind.
  assert (exists u w',
             Tse.follow_resource_page pages (Tse.href_of a) w = (Ok u, w')
             /\ reads_only 1 w w') as (u & w' & -> & Hw).
  { unfold Tse.follow_resource_page.
    destruct (_ && _).
    2:{ eexists _, _. split; [reflexivity|].
        eapply reads_only_more; [|apply reads_only_refl]. lia. }
    destruct (_ || _).
    2:{ eexists _, _. split; [reflexivity|].
        eapply reads_only_more; [|apply reads_only_refl]. lia. }
    unfold try_except, bind.
    pose proof (fetch_reads_only pages
                  (urljoin Tse.BASE_URL (Tse.href_of a)) w) as Hf.
    destruct (Tse.fetch pages _ w) as [[res_soup|e] w1]; cbn [snd] in Hf.
    - destruct (find Tse.is_direct_download _);
        eexists _, _; (split; [reflexivity|exact Hf]).
    - eexists _, _. split; [reflexivity|exact Hf]. }
  eexists _, _. split; [reflexivity|exact Hw].
Qed.

Lemma resources_of_items_reads_only (pages : Tse.web)
  (items : list Tse.res_item) (w : world) :
  exists resources w',
    Tse.resources_of_items pages items w = (Ok resources, w')
    /\ length resources <= length items
    /\ reads_only (length items) w w'.
Proof.
  revert w. induction items as [|item rest IH]; intros w.
  - exists [], w. split; [done|]. split; [done|apply reads_only_refl].
  - cbn [Tse.resources_of_items]. unfold bind at 1.
    destruct (resource_of_item_reads_only pages item w)
      as (r & w1 & -> & H1).
    unfold bind at 1.
    destruct (IH w1) as (rs & w' & -> & Hlen & H2).
    eexists _, _. split; [reflexivity|]. cbn [length].
    split; [destruct r; cbn [length]; lia|].
    change (S (length rest)) with (1 + length rest).
    by eapply reads_only_trans.
Qed.
End Listing.

(** The whole listing.  The outer handler of the model turns every
    exception into the empty list; the source does so for the exceptions
    of [requests], which is why the theorems below ask for them. *)
Lemma get_resources_from_year_outcome {lib : PyLib} (pages : Tse.web)
  (year_url : string) (w : world) :
  exists resources w',
    Tse.get_resources_from_year pages year_url w = (Ok resources, w')
    /\ match pages year_url (requests_made w) with
       | Ok (status, page) =>
           length resources <= length (Tse.resource_items page)
           /\ reads_only (1 + length (Tse.resource_items page)) w w'
       | Raise _ => resources = [] /\ reads_only 1 w w'
       end.
Proof.
  unfold Tse.get_resources_from_year, try_except, bind at 1.
  unfold Tse.fetch, bind, check_status.
  destruct (pages year_url (requests_made w)) as [[status page]|e];
    cbn [fst snd].
  2:{ eexists _, _. split; [reflexivity|].
      split; [done|apply reads_only_log_get]. }
  destruct ((400 <=? status) && (status <? 600)); cbn [raise ret].
  { eexists _, _. split; [reflexivity|]. split; [cbn; lia|].
    eapply reads_only_more; [|apply reads_only_log_get]. lia. }
  destruct (find Tse.is_dados_section (Tse.h2_strings page)).
  - destruct (resources_of_items_reads_only pages (Tse.resource_items page)
                (log (EvGet year_url None) w))
      as (rs & w' & -> & Hlen & Hw).
    eexists _, _. split; [reflexivity|]. split; [exact Hlen|].
    eapply reads_only_trans; [apply reads_only_log_get|exact Hw].
  - eexists _, _. split; [reflexivity|]. split; [cbn; lia|].
    eapply reads_only_more; [|apply reads_only_log_get]. lia.
Qed.


(** X24.  Listing the resources of a year only reads: provided the request
    for the page raises nothing but an exception of [requests],
    [get_resources_from_year] returns a list, the empty one when the page
    could not be fetched; it gives at most one resource for each item of
    the page and sends at most one request for each item besides the one
    for the page; it writes no file, reads no answer and does not wait. *)
Theorem listing_a_year_only_reads {lib : PyLib} (pages : Tse.web)
  (year_url : string) (w : world) :
  (forall e, pages year_url (requests_made w) = Raise e -> request_error e) ->
  exists resources w',
    Tse.get_resources_from_year pages year_url w = (Ok resources, w')
    /\ match pages year_url (requests_made w) with
       | Ok (status, page) =>
           length resources <= length (Tse.resource_items page)
           /\ reads_only (1 + length (Tse.resource_items page)) w w'
       | Raise _ => resources = [] /\ reads_only 1 w w'
       end.
Proof. intros _. apply get_resources_from_year_outcome. Qed.

(** X25.  The run over the selected years is stopped by nothing but the end
    of the input at a prompt: provided the requests for pages raise nothing
    but exceptions of [requests], the loop of [main] over the years returns
    whatever the pages and the downloads do.  The counters have only grown,
    the list of failures is as long as the count of failures if it was
    before, and the two blanket flags are not both set if they were not. *)
Theorem run_is_stopped_only_by_the_end_of_input {lib : PyLib}
  (pages : Tse.web) (net : transport)
  (selected_years : list (string * string)) (st : Tse.run_state)
  (w : world) :
  raises_request_errors pages ->
  match Tse.process_years pages net selected_years st w with
  | (Ok st', w') =>
      accounted st <= accounted st'
      /\ (length (Tse.failed_downloads st) = Tse.total_failed st ->
          length (Tse.failed_downloads st') = Tse.total_failed st')
      /\ (Tse.global_skip_all st && Tse.global_overwrite_all st = false ->
          Tse.global_skip_all st' && Tse.global_overwrite_all st' = false)
  | (Raise e, w') => e = EOFError /\ stdin w' = []
  end.
Proof.
  intros _. revert st w.
  induction selected_years as [|[year year_url] rest IH]; intros st w.
  - cbn [Tse.process_years ret]. split; [lia|]. split; done.
  - cbn [Tse.process_years]. unfold bind at 1.
    destruct (get_resources_from_year_outcome pages year_url w)
      as (resources & w1 & -> & _).
    unfold bind.
    pose proof (process_resources_outcome net year
                  (OsPath.join Tse.PASTA_BASE year) resources st w1) as H1.
    destruct (Tse.process_resources _ _ _ _ st w1) as [[st1|e] w2]; [|done].
    specialize (IH st1 w2).
    destruct (Tse.process_years pages net rest st1 w2) as [[st'|e] w'];
      [|done].
    destruct H1 as (Ha1 & Hf1 & Hx1). destruct IH as (Ha2 & Hf2 & Hx2).
    split; [lia|]. split; eauto.
Qed.

(** ** Downloads of diarios_ceara_scraper.py *)

Lemma requests_of_gets (t u : list event) :
  requests (t ++ u) = requests t + requests u.
Proof. induction t as [|e t IH]; [done|]. cbn. rewrite IH. lia. Qed.

Lemma after_gets_refl (w : world) : after_gets 0 w w.
Proof. unfold after_gets. repeat split; auto with lia. Qed.

Lemma after_gets_trans (j k : nat) (w1 w2 w3 : world) :
  after_gets j w1 w2 -> after_gets k w2 w3 -> after_gets (j + k) w1 w3.
Proof.
  intros (G1 & R1 & S1 & F1) (G2 & R2 & S2 & F2).
  unfold after_gets. split; [lia|]. split; [lia|]. split; [congruence|].
  intros Hnil. destruct (F1 Hnil) as [H1 K1]. destruct (F2 H1) as [H2 K2].
  split; [exact H2|]. intros p c Hp. by apply K2, K1.
Qed.

(** Events that are no request and no wait leave the counts as they are;
    [files] tells what happens to the files. *)
Lemma after_gets_events (k : nat) (t : list event) (w w' : world) :
  trace w' = trace w ++ t ->
  gets t = k -> requests t = k -> sleeps t = [] ->
  (stdin w = [] ->
   stdin w' = [] /\ forall p c, fs w !! p = Some c -> fs w' !! p = Some c) ->
  after_gets k w w'.
Proof.
  intros Ht Hg Hr Hs Hf. unfold after_gets, requests_made.
  rewrite Ht, gets_app, requests_of_gets, sleeps_app, Hg, Hr, Hs, app_nil_r.
  done.
Qed.

Lemma after_gets_log_get (url : string) (w : world) :
  after_gets 1 w (log (EvGet url None) w).
Proof. by apply (after_gets_events 1 [EvGet url None]). Qed.

Lemma after_gets_prompt_loop {A} (parse : string -> option A)
  (answers : list string) (w : world) :
  stdin w = answers ->
  after_gets 0 w (snd (prompt_loop parse answers w)).
Proof.
  revert w. induction answers as [|a rest IH]; intros w Hin.
  - by apply (after_gets_events 0 [EvPrompt]).
  - cbn [prompt_loop].
    set (w1 := {| fs := fs w; stdin := rest;
                  trace := trace w ++ [EvPrompt] |}).
    assert (after_gets 0 w w1) as H1.
    { apply (after_gets_events 0 [EvPrompt]); try done.
      intros Hnil. by rewrite Hnil in Hin. }
    destruct (parse _); [exact H1|].
    change 0 with (0 + 0). eapply after_gets_trans; [exact H1|].
    by apply IH.
Qed.

Section DoeOutcome.
Context {lib : PyLib}.
Lemma save_response_outcome (filepath : string) (r : response) (w : world) :
  match Doe.save_response filepath r w with
  | (res, w') =>
      after_gets 0 w w'
      /\ match res with
         | Ok a => a = (true, Doe.downloaded) \/ a = (true, Doe.skipped)
         | Raise _ => True
         end
  end.
Proof.
  pose proof (after_gets_prompt_loop Doe.parse_choice (stdin w) w eq_refl)
    as Hp.
  pose proof (prompt_loop_outcome Doe.parse_choice (stdin w) w) as Ho.
  unfold Doe.save_response, Doe.should_overwrite_file, bind, get_world,
    int_content_length, prompt, write_stream, ret, raise, path_exists.
  destruct (content_length r); lazy beta iota;
    [| |split; [apply after_gets_refl|done]].
  all: destruct (fs w !! filepath) as [old|] eqn:Hfile; cbn [negb];
    lazy beta iota; rewrite ?Hfile; cbn [negb]; lazy beta iota.
  1,3: destruct (prompt_loop Doe.parse_choice (stdin w) w)
         as [[[|]|e] w1]; cbn [negb snd] in *; lazy beta iota;
       try (split; [exact Hp|by auto]).
  1,2: destruct (body_error r); lazy beta iota; (split; [|by auto]).
  1-4: destruct Ho as (a & Hin & _); destruct Hp as (G & R & S & _);
       unfold after_gets, requests_made in *; cbn [trace fs stdin];
       rewrite gets_app, requests_of_gets, sleeps_app, G, R, S, app_nil_r;
       cbn [gets requests sleeps is_request];
       (split; [lia|]); (split; [lia|]); (split; [done|]);
       intros Hnil; rewrite Hnil in Hin; by destruct Hin.
  all: destruct (body_error r); lazy beta iota; (split; [|by auto]).
  all: apply (after_gets_events 0 [EvRecv (length (concat (body r)))]);
       try done.
  all: intros Hnil; (split; [exact Hnil|]); intros p c Hc; cbn [fs].
  all: rewrite lookup_insert_ne; [done|congruence].
Qed.

(** One attempt sends one GET. *)
Lemma attempt_download_outcome (net : transport) (url filepath : string)
  (w : world) :
  match Doe.attempt_download net url filepath w with
  | (_, res, w') =>
      after_gets 1 w w'
      /\ match res with
         | Ok a => a = (true, Doe.downloaded) \/ a = (true, Doe.skipped)
         | Raise _ => True
         end
  end.
Proof.
  unfold Doe.attempt_download, http_get.
  destruct (net url None (requests_made w)) as [r|e].
  2:{ split; [apply after_gets_log_get|done]. }
  unfold raise_for_status, check_status.
  destruct (_ && _); cbn [raise ret].
  { split; [apply after_gets_log_get|done]. }
  pose proof (save_response_outcome (Doe.choose_filepath filepath r) r
                (log (EvGet url None) w)) as H.
  destruct (Doe.save_response _ r _) as [res w3].
  destruct H as [H1 H2]. split; [|exact H2].
  change 1 with (1 + 0). eapply after_gets_trans; [|exact H1].
  apply after_gets_log_get.
Qed.

(** The loop over the attempts never raises; it reports a failure only
    after the last attempt. *)
Lemma download_loop_outcome (net : transport) (url : string)
  (n first : nat) (filepath : string) (w : world) :
  exists res w' k,
    Doe.download_loop net url (first + n) (seq first n) filepath w
    = (Ok res, w')
    /\ doe_result res /\ after_gets k w w' /\ k <= n
    /\ (res = (false, Doe.failed) -> k = n)
    /\ (fst res = true -> 0 < k).
Proof.
  revert first filepath w. induction n as [|n IH]; intros first filepath w.
  - exists (false, Doe.failed), w, 0. cbn [seq Doe.download_loop].
    repeat split; auto using after_gets_refl.
    + right. by right.
    + by intros [=].
  - cbn [seq Doe.download_loop].
    pose proof (attempt_download_outcome net url filepath w) as H.
    destruct (Doe.attempt_download net url filepath w)
      as [[filepath' [res|e]] w1]; destruct H as [H1 H2].
    + exists res, w1, 1. split; [done|]. split.
      { destruct H2 as [->| ->]; [by left|right; by left]. }
      split; [exact H1|]. split; [lia|]. split; [|lia].
      intros ->. by destruct H2.
    + destruct (first <? first + S n - 1) eqn:E.
      * apply Nat.ltb_lt in E. destruct n as [|n]; [lia|].
        destruct (IH (S first) filepath' w1)
          as (res & w' & k & Hrun & Hres & Hk & Hle & Hfail & Hok).
        replace (first + S (S n)) with (S first + S n) by lia.
        exists res, w', (1 + k). split; [exact Hrun|]. split; [exact Hres|].
        split; [by eapply after_gets_trans|].
        split; [lia|]. split; [|lia]. intros Hf. rewrite (Hfail Hf). lia.
      * apply Nat.ltb_ge in E. assert (n = 0) as -> by lia.
        exists (false, Doe.failed), w1, 1. split; [done|].
        split; [right; by right|]. split; [exact H1|].
        split; [lia|]. split; [done|]. by intros [=].
Qed.
End DoeOutcome.

(** X15.  [download_file] of diarios_ceara_scraper.py never raises: its
    result is (True, downloaded), (True, skipped) or (False, failed).  It
    sends at most [max_retries] GETs and never waits; a success has sent at
    least one GET, and a failure is reported only after exactly
    [max_retries] GETs. *)
Theorem doe_download_file_never_raises {lib : PyLib} (net : transport)
  (url filepath : string) (max_retries : nat) (w : world) :
  exists res w',
    Doe.download_file net url filepath max_retries w = (Ok res, w')
    /\ doe_result res
    /\ gets (trace w') <= gets (trace w) + max_retries
    /\ (res = (false, Doe.failed) ->
        gets (trace w') = gets (trace w) + max_retries)
    /\ (fst res = true -> gets (trace w) < gets (trace w'))
    /\ sleeps (trace w') = sleeps (trace w).
Proof.
  destruct (download_loop_outcome net url max_retries 0 filepath w)
    as (res & w' & k & Hrun & Hres & (G & _ & S & _) & Hle & Hfail & Hok).
  exists res, w'. split; [exact Hrun|]. split; [exact Hres|].
  split; [lia|]. split; [|split; [|exact S]].
  - intros Hf. rewrite (Hfail Hf) in G. exact G.
  - intros Ht. specialize (Hok Ht). lia.
Qed.

(** X16.  Without an answer on the input, [download_file] of
    diarios_ceara_scraper.py overwrites nothing: every file that exists
    before the call has the same content after it, whatever the server
    answers and whatever name its headers give. *)
Theorem no_answer_no_overwrite {lib : PyLib} (net : transport)
  (url filepath : string) (max_retries : nat) (w : world) (p : string)
  (c : list byte) :
  stdin w = [] ->
  fs w !! p = Some c ->
  fs (snd (Doe.download_file net url filepath max_retries w)) !! p = Some c.
Proof.
  intros Hnil Hp.
  destruct (download_loop_outcome net url max_retries 0 filepath w)
    as (res & w' & k & Hrun & _ & (_ & _ & _ & Hf) & _).
  unfold Doe.download_file. cbn [Nat.add] in Hrun. rewrite Hrun. cbn [snd].
  destruct (Hf Hnil) as [_ Hkeep]. by apply Hkeep.
Qed.

(** X17.  The loop of [main] of diarios_ceara_scraper.py over the links of
    a date never raises and counts every link once: the three counters grow
    by the number of links, none decreases.  Every link costs at most three
    GETs, every failure exactly three, every other link at least one. *)
Theorem every_link_is_counted_once {lib : PyLib} (net : transport)
  (year : string) (links : list (string * string)) (t : Doe.totals)
  (w : world) :
  exists t' w',
    Doe.download_links net year links t w = (Ok t', w')
    /\ doe_accounted t' = doe_accounted t + length links
    /\ Doe.total_downloaded t <= Doe.total_downloaded t'
    /\ Doe.total_skipped t <= Doe.total_skipped t'
    /\ Doe.total_failed t <= Doe.total_failed t'
    /\ gets (trace w')
       <= gets (trace w) + 3 * length links
    /\ gets (trace w)
       + 3 * (Doe.total_failed t' - Doe.total_failed t)
       + (Doe.total_downloaded t' - Doe.total_downloaded t)
       + (Doe.total_skipped t' - Doe.total_skipped t)
       <= gets (trace w').
Proof.
  revert t w. induction links as [|[filename url] rest IH]; intros t w.
  - exists t, w. cbn [Doe.download_links ret length].
    repeat split; lia.
  - cbn [Doe.download_links length]. unfold bind at 1.
    unfold Doe.download_file.
    destruct (download_loop_outcome net url 3 0
                (OsPath.join (OsPath.join Doe.BASE_DIR year)
                   (Doe.safe_filename_of filename)) w)
      as (res & w1 & k & Hrun & Hres & (G & _) & Hle & Hfail & Hok).
    cbn [Nat.add] in Hrun. rewrite Hrun.
    destruct (IH (Doe.count (snd res) t) w1)
      as (t' & w' & Hrest & Hsum & Hd & Hs & Hf & Hmax & Hmin).
    exists t', w'. split; [exact Hrest|].
    unfold doe_accounted in *.
    destruct Hres as [->|[->| ->]]; cbn [snd fst Doe.count] in *;
      cbn [Doe.total_downloaded Doe.total_skipped Doe.total_failed] in *.
    + specialize (Hok eq_refl). repeat split; lia.
    + specialize (Hok eq_refl). repeat split; lia.
    + specialize (Hfail eq_refl). repeat split; lia.
Qed.

(** X18.  An attempt whose stream breaks leaves what it has written at the
    path, and the next attempt of the same call finds that file: the path
    was free before the call, yet the user is asked whether to skip or
    overwrite, and the answer to skip ends the call with (True, skipped),
    the file holding the bytes received before the stream broke. *)
Theorem broken_attempt_leaves_a_file_to_ask_about {lib : PyLib}
  (net : transport) (url filepath a : string) (rest : list string)
  (r1 r2 : response) (e : exn) (more : nat) (w : world) :
  fs w !! filepath = None ->
  net url None (requests_made w) = Ok r1 ->
  plain_answer filepath r1 ->
  body_error r1 = Some e ->
  net url None (S (requests_made w)) = Ok r2 ->
  plain_answer filepath r2 ->
  stdin w = a :: rest ->
  Doe.parse_choice (PyStr.lower (PyStr.strip a)) = Some false ->
  Doe.download_file net url filepath (2 + more) w
  = (Ok (true, Doe.skipped),
     {| fs := <[filepath := concat (body r1)]> (fs w);
        stdin := rest;
        trace := trace w ++ [EvGet url None;
                             EvRecv (length (concat (body r1)));
                             EvGet url None; EvPrompt] |}).
Proof.
  intros Hfile Hr1 (Hst1 & Hcl1 & Hp1) He Hr2 (Hst2 & Hcl2 & Hp2) Hin Ha.
  unfold Doe.download_file. cbn [Nat.add seq Doe.download_loop].
  unfold Doe.attempt_download at 1, http_get. rewrite Hr1.
  unfold raise_for_status. rewrite check_status_ok by exact Hst1.
  rewrite Hp1.
  unfold Doe.save_response at 1, bind.
  destruct (int_content_length_ok r1 (log (EvGet url None) w) Hcl1)
    as [n1 ->].
  unfold get_world, path_exists, write_stream, log.
  repeat first [progress cbn [fs stdin trace negb ret]
               | rewrite Hfile | rewrite He].
  replace (0 <? S (S more) - 1) with true
    by (symmetry; apply Nat.ltb_lt; lia).
  set (w1 := {| fs := <[filepath:=write_chunks [] (body r1)]> (fs w);
                stdin := stdin w;
                trace := (trace w ++ [EvGet url None]) ++
                         [EvRecv (length (concat (body r1)))] |}).
  assert (requests_made w1 = S (requests_made w)) as Hreq.
  { unfold requests_made, w1. cbn [trace].
    rewrite !requests_of_gets. cbn. lia. }
  unfold Doe.attempt_download, http_get. rewrite Hreq, Hr2.
  unfold raise_for_status. rewrite check_status_ok by exact Hst2.
  rewrite Hp2.
  unfold Doe.save_response, bind.
  destruct (int_content_length_ok r2 (log (EvGet url None) w1) Hcl2)
    as [n2 ->].
  unfold get_world, Doe.should_overwrite_file, bind, get_world.
  unfold path_exists, prompt, log, w1.
  repeat first [progress cbn [fs stdin trace negb]
               | rewrite lookup_insert_eq | rewrite Hin].
  cbn [prompt_loop]. rewrite Ha. cbn [ret negb fs trace].
  rewrite write_chunks_concat. cbn [app].
  by rewrite <- !app_assoc.
Qed.

(** ** Links of a date (diarios_ceara_scraper.py) *)

Section DoeLinks.
Context {lib : PyLib}.
Import PyStr.

Lemma filter_chars_all (p : ascii -> bool) (s : string) :
  all_chars p s = true -> filter_chars p s = s.
Proof.
  induction s as [|c s IH]; [done|]. cbn [all_chars filter_chars].
  intros H. apply andb_true_iff in H as [-> Hs]. by rewrite IH.
Qed.

Lemma safe_char_not_slash (c : ascii) : safe_char c = true -> not_slash c = true.
Proof.
  unfold safe_char, not_slash.
  destruct (Ascii.eqb c "/") eqn:E; [|done].
  apply Ascii.eqb_eq in E. by subst c.
Qed.
End DoeLinks.


(** X20.  The name [main] of diarios_ceara_scraper.py makes from the name
    of a link holds no slash, so the path asked of [download_file] lies
    directly in the directory it is joined to, under that name; and
    cleaning a cleaned name changes nothing. *)
Theorem cleaned_name_is_a_file_name (dir filename : string) :
  OsPath.basename (OsPath.join dir (Doe.safe_filename_of filename))
  = Doe.safe_filename_of filename
  /\ Doe.safe_filename_of (Doe.safe_filename_of filename)
     = Doe.safe_filename_of filename.
Proof.
  destruct (safe_filename_of_ok filename) as (_ & Hend & Hsafe).
  split.
  - apply basename_join, no_slash_iff.
    eapply all_chars_impl; [|exact Hsafe]. apply safe_char_not_slash.
  - unfold Doe.safe_filename_of at 1. fold safe_char.
    rewrite (filter_chars_all _ _ Hsafe). by rewrite Hend.
Qed.

(** ** The years offered and the menus *)

Section Sorting.
Import TseYears.

Lemma insert_desc_perm (x : nat * string) (l : list (nat * string)) :
  insert_desc x l ≡ₚ x :: l.
Proof.
  induction l as [|y l IH]; [done|]. cbn [insert_desc].
  destruct (fst x <? fst y); [|done].
  rewrite IH. apply Permutation_swap.
Qed.

Lemma sort_desc_perm (l : list (nat * string)) : sort_desc l ≡ₚ l.
Proof.
  induction l as [|x l IH]; [done|].
  cbn [sort_desc foldr]. fold (sort_desc l).
  by rewrite insert_desc_perm, IH.
Qed.

Lemma insert_desc_sorted (x : nat * string) (l : list (nat * string)) :
  StronglySorted not_older l -> StronglySorted not_older (insert_desc x l).
Proof.
  induction 1 as [|y l Hl IH Hy]; cbn [insert_desc].
  - by repeat constructor.
  - destruct (fst x <? fst y) eqn:E.
    + apply Nat.ltb_lt in E. constructor; [exact IH|].
      rewrite insert_desc_perm. constructor; [|exact Hy].
      unfold not_older. lia.
    + apply Nat.ltb_ge in E. constructor; [by constructor|].
      constructor; [exact E|].
      eapply Forall_impl; [exact Hy|]. unfold not_older. intros z. lia.
Qed.

Lemma sort_desc_sorted (l : list (nat * string)) :
  StronglySorted not_older (sort_desc l).
Proof.
  induction l as [|x l IH]; [constructor|].
  cbn [sort_desc foldr]. by apply insert_desc_sorted.
Qed.
End Sorting.

Section Years.
Context {lib : PyLib} {urls : UrlErrors}.
Variable int_of : string -> option Z.
Variable year_in : string -> option nat.
Import TseYears.

Lemma year_entry_resolved (base_url : string) (link : Tse.anchor)
  (entry : nat * string) :
  year_entry year_in base_url link = Ok (Some entry) ->
  resolved_url base_url entry.
Proof.
  unfold year_entry, resolved_url.
  destruct (Tse.a_href link) as [href|]; [|done].
  destruct (_ && _); [|done].
  destruct (year_in _) as [y|]; [|done].
  destruct (PyStr.startswith href "/") eqn:E1.
  { destruct (urljoin_returns base_url href); [|done].
    intros [= <-]. right. by exists href. }
  destruct (PyStr.startswith href "http") eqn:E2; [|done].
  intros [= <-]. by left.
Qed.

(** A link raises nothing but the [ValueError] of [urljoin], and it does
    when [urljoin] is handed an href it rejects. *)
Lemma year_entry_raises (base_url : string) (link : Tse.anchor) (e : exn) :
  year_entry year_in base_url link = Raise e ->
  e = ValueError /\ unjoinable year_in base_url link.
Proof.
  unfold year_entry, unjoinable.
  destruct (Tse.a_href link) as [href|]; [|done].
  destruct (PyStr.contains _ _) eqn:E1; [|done].
  destruct (any_char _ _) eqn:E2; [|done]. cbn [andb].
  destruct (year_in _) as [y|] eqn:E3; [|done].
  destruct (PyStr.startswith href "/") eqn:E4.
  { destruct (urljoin_returns base_url href) eqn:E5; [done|].
    intros [= <-]. split; [done|]. by exists href, y. }
  by destruct (PyStr.startswith href "http").
Qed.

Lemma unjoinable_raises (base_url : string) (link : Tse.anchor) :
  unjoinable year_in base_url link ->
  year_entry year_in base_url link = Raise ValueError.
Proof.
  intros (href & y & H1 & H2 & H3 & H4 & H5 & H6).
  unfold year_entry. by rewrite H1, H2, H3, H4, H5, H6.
Qed.

(** The loop ends with [ValueError] when it meets a link that cannot be
    joined. *)
Lemma collect_years_raises (base_url : string) (all_links : list Tse.anchor)
  (years_data : list (nat * string)) :
  Exists (unjoinable year_in base_url) all_links ->
  collect_years year_in base_url all_links years_data = Raise ValueError.
Proof.
  intros Hex. revert years_data.
  induction all_links as [|link rest IH]; intros years_data.
  { by apply Exists_nil in Hex. }
  cbn [collect_years].
  destruct (year_entry year_in base_url link) as [[entry|]|e] eqn:He.
  - apply Exists_cons in Hex as [Hex|Hex];
      [apply unjoinable_raises in Hex; congruence|].
    destruct (bool_decide _); by apply IH.
  - apply Exists_cons in Hex as [Hex|Hex];
      [apply unjoinable_raises in Hex; congruence|].
    by apply IH.
  - by rewrite (proj1 (year_entry_raises _ _ _ He)).
Qed.

(** Otherwise the loop keeps what was collected, adds entries of the links
    only, and adds none twice. *)
Lemma collect_years_spec (base_url : string) (all_links : list Tse.anchor)
  (years_data : list (nat * string)) :
  Forall (fun link => ~ unjoinable year_in base_url link) all_links ->
  NoDup years_data ->
  exists collected,
    collect_years year_in base_url all_links years_data = Ok collected
    /\ NoDup collected
    /\ forall entry,
         entry ∈ collected
         <-> entry ∈ years_data
             \/ exists link,
                  link ∈ all_links
                  /\ year_entry year_in base_url link = Ok (Some entry).
Proof.
  intros Hall. revert years_data.
  induction Hall as [|link rest Hlink Hrest IH]; intros years_data Hnd.
  - exists years_data. cbn [collect_years]. split; [done|].
    split; [exact Hnd|]. intros entry. split; [by left|].
    intros [H|(link & Hin & _)]; [exact H|]. by apply elem_of_nil in Hin.
  - cbn [collect_years].
    destruct (year_entry year_in base_url link) as [[e|]|x] eqn:He.
    + destruct (bool_decide (e ∈ years_data)) eqn:Hmem.
      * apply bool_decide_eq_true in Hmem.
        destruct (IH years_data Hnd) as (collected & -> & H1 & H2).
        exists collected. split; [done|]. split; [exact H1|].
        intros entry. rewrite H2. split.
        -- intros [H|(l & Hl & Hentry)]; [by left|].
           right. exists l. split; [by right|done].
        -- intros [H|(l & Hl & Hentry)]; [by left|].
           apply elem_of_cons in Hl as [->|Hl].
           ++ left. congruence.
           ++ right. by exists l.
      * apply bool_decide_eq_false in Hmem.
        assert (NoDup (years_data ++ [e])) as Hnd'.
        { apply NoDup_app. split; [exact Hnd|]. split.
          - intros y Hy Hy'. apply list_elem_of_singleton in Hy'. by subst y.
          - apply NoDup_singleton. }
        destruct (IH (years_data ++ [e]) Hnd') as (collected & -> & H1 & H2).
        exists collected. split; [done|]. split; [exact H1|].
        intros entry. rewrite H2, elem_of_app.
        rewrite list_elem_of_singleton. split.
        -- intros [[H| ->]|(l & Hl & Hentry)].
           ++ by left.
           ++ right. exists link. split; [by left|done].
           ++ right. exists l. split; [by right|done].
        -- intros [H|(l & Hl & Hentry)]; [left; by left|].
           apply elem_of_cons in Hl as [->|Hl].
           ++ left. right. congruence.
           ++ right. by exists l.
    + destruct (IH years_data Hnd) as (collected & -> & H1 & H2).
      exists collected. split; [done|]. split; [exact H1|].
      intros entry. rewrite H2. split.
      * intros [H|(l & Hl & Hentry)]; [by left|].
        right. exists l. split; [by right|done].
      * intros [H|(l & Hl & Hentry)]; [by left|].
        apply elem_of_cons in Hl as [->|Hl]; [congruence|].
        right. by exists l.
    + exfalso. apply Hlink. by apply (year_entry_raises _ _ _ He).
Qed.

Lemma years_of_page_holds (base_url : string) (page : Tse.soup)
  (collected : list (nat * string)) :
  collect_years year_in base_url (Tse.soup_anchors page) [] = Ok collected ->
  Forall (fun link => ~ unjoinable year_in base_url link)
         (Tse.soup_anchors page) ->
  years_of_page year_in base_url page (sort_desc collected).
Proof.
  intros Hrun Hall.
  destruct (collect_years_spec base_url (Tse.soup_anchors page) [] Hall)
    as (collected' & Hrun' & Hnd & Hin); [constructor|].
  assert (collected' = collected) as -> by congruence.
  assert (forall entry,
            entry ∈ sort_desc collected
            <-> exists link,
                  link ∈ Tse.soup_anchors page
                  /\ year_entry year_in base_url link = Ok (Some entry))
    as Hiff.
  { intros entry. rewrite sort_desc_perm, Hin. split; [|by right].
    intros [H|H]; [|exact H]. by apply elem_of_nil in H. }
  split; [apply sort_desc_sorted|].
  split; [by rewrite sort_desc_perm|].
  split; [exact Hiff|].
  apply Forall_forall. intros entry Hentry.
  apply Hiff in Hentry as (link & _ & Hlink).
  by eapply year_entry_resolved.
Qed.

Lemma slice_to_prefix {A} (n : Z) (l : list A) :
  slice_to n l `prefix_of` l.
Proof. unfold slice_to. destruct (0 <=? n)%Z; apply prefix_take. Qed.

Lemma pick_available {A} (available_years : list A) (idx : Z) (y : A) :
  pick available_years idx = Some y -> y ∈ available_years.
Proof.
  unfold pick. destruct (_ && _); [|done]. apply list_elem_of_lookup_2.
Qed.

Lemma is_all (choice : string) :
  PyStr.mem_str choice ["all"; "a"] = true
  <-> choice = "all" \/ choice = "a".
Proof.
  unfold PyStr.mem_str. cbn [existsb]. rewrite orb_false_r, orb_true_iff.
  by rewrite !String.eqb_eq.
Qed.

(** The answers the code understands are those of the menu, and they
    select what the menu says. *)
Lemma parse_selection_spec {A} (available_years selected : list A)
  (choice : string) :
  parse_selection int_of available_years choice = Some selected
  <-> answer_selects int_of available_years choice selected.
Proof.
  unfold parse_selection. split.
  - destruct (PyStr.mem_str choice ["all"; "a"]) eqn:Eall.
    { intros [= <-]. apply selects_all. by apply is_all. }
    assert (~ (choice = "all" \/ choice = "a")) as Hnot.
    { intros H. apply is_all in H. congruence. }
    destruct (PyStr.startswith choice "last ") eqn:E1;
      [|destruct (PyStr.startswith choice "l ") eqn:E2]; cbn [orb].
    1,2: destruct (last (words choice)) as [word|] eqn:Ew; [|done];
         destruct (int_of word) as [n|] eqn:En; [|done];
         intros [= <-]; unfold slice_to;
         destruct (0 <=? n)%Z eqn:E0;
         [ eapply selects_first; eauto; by apply Z.leb_le
         | eapply selects_but_last; eauto; by apply Z.leb_gt ].
    destruct (mapM _ _) as [indices|] eqn:Em; [|done].
    destruct (omap (pick available_years) indices) as [|y ys] eqn:E;
      [done|].
    intros [= <-]. apply (selects_numbers _ _ _ indices); try done.
    by apply mapM_Some.
  - intros H. destruct H as [Hall|word n Hnot Hlast Hw Hn H0
                             |word n Hnot Hlast Hw Hn H0
                             |indices selected Hnot H1 H2 Hidx -> Hne].
    + apply is_all in Hall. by rewrite Hall.
    + assert (PyStr.mem_str choice ["all"; "a"] = false) as ->.
      { destruct (PyStr.mem_str _ _) eqn:E; [|done].
        by apply is_all in E. }
      assert (PyStr.startswith choice "last "
              || PyStr.startswith choice "l " = true) as ->.
      { destruct Hlast as [-> | ->]; [done|by rewrite orb_true_r]. }
      rewrite Hw, Hn. unfold slice_to.
      by rewrite (proj2 (Z.leb_le 0 n) H0).
    + assert (PyStr.mem_str choice ["all"; "a"] = false) as ->.
      { destruct (PyStr.mem_str _ _) eqn:E; [|done].
        by apply is_all in E. }
      assert (PyStr.startswith choice "last "
              || PyStr.startswith choice "l " = true) as ->.
      { destruct Hlast as [-> | ->]; [done|by rewrite orb_true_r]. }
      rewrite Hw, Hn. unfold slice_to.
      by rewrite (proj2 (Z.leb_gt 0 n) H0).
    + assert (PyStr.mem_str choice ["all"; "a"] = false) as ->.
      { destruct (PyStr.mem_str _ _) eqn:E; [|done].
        by apply is_all in E. }
      rewrite H1, H2. cbn [orb].
      rewrite (proj2 (mapM_Some _ _ _) Hidx).
      by destruct (omap (pick available_years) indices).
Qed.
End Years.

Lemma prompts_asked (rest : list string) (w : world) :
  prompts (trace (DoeInput.asked rest w)) = S (prompts (trace w)).
Proof. cbn [DoeInput.asked trace]. rewrite prompts_app. cbn. lia. Qed.

(** X21.  [get_election_years] sends one request.  When the request raises
    an exception of [requests] or the status is an error, the script exits
    with code 1.  On a page where [urljoin] raises on none of the hrefs
    handed to it, it returns the entries of the links of the page, each
    once, the most recent year first; the URL of an entry starts with http
    or is an href that starts with a slash, joined to the base: other hrefs
    are left out.  On a page with an href on which [urljoin] raises, the
    [ValueError] leaves the function: line 84 does not catch it. *)
Theorem election_years_are_sorted_and_resolved {lib : PyLib}
  {urls : UrlErrors} (year_in : string -> option nat) (pages : Tse.web)
  (base_url : string) (w : world) :
  let w' := log (EvGet TseYears.CANDIDATOS_URL None) w in
  let result := TseYears.get_election_years year_in pages base_url w in
  match pages TseYears.CANDIDATOS_URL (requests_made w) with
  | Ok (status, page) =>
      if (400 <=? status) && (status <? 600)
      then result = (Ok None, w')
      else
        (Forall (fun link => ~ unjoinable year_in base_url link)
                (Tse.soup_anchors page) ->
         exists years,
           result = (Ok (Some years), w')
           /\ years_of_page year_in base_url page years)
        /\ (Exists (unjoinable year_in base_url) (Tse.soup_anchors page) ->
            result = (Raise ValueError, w'))
  | Raise (RequestException msg) => result = (Ok None, w')
  | Raise (HTTPError status) => result = (Ok None, w')
  | Raise e => result = (Raise e, w')
  end.
Proof.
  unfold TseYears.get_election_years, Tse.fetch, bind, check_status.
  destruct (pages TseYears.CANDIDATOS_URL (requests_made w))
    as [[status page]|e]; cbn [fst snd].
  - destruct ((400 <=? status) && (status <? 600)); [done|].
    cbn [ret]. split.
    + intros Hall.
      destruct (collect_years_spec year_in base_url (Tse.soup_anchors page)
                  [] Hall) as (collected & Hrun & _); [constructor|].
      rewrite Hrun. eexists. split; [reflexivity|].
      by apply years_of_page_holds.
    + intros Hex. by rewrite (collect_years_raises year_in base_url _ [] Hex).
  - by destruct e.
Qed.

(** X22.  [prompt_year_selection] asks until an answer is understood: the
    answers before it are read and dropped, one prompt each.  The answers
    understood are those of the menu, and what is returned is what the
    menu says of the answer: all the years for all or a; the first N
    years of the list for last N or l N (all but the last -N when N is
    negative); for numbers separated by commas, the years with those
    numbers, in the order given, numbers out of range being dropped, if
    one year is left.  It sends no request and writes no file, and it
    raises nothing but the end of the input, after one prompt more than
    there were answers. *)
Theorem selection_is_taken_from_the_years_offered {A}
  (int_of : string -> option Z) (available_years : list A) (w : world) :
  (forall choice selected,
      TseYears.parse_selection int_of available_years choice = Some selected
      <-> answer_selects int_of available_years choice selected)
  /\ match TseYears.prompt_year_selection int_of available_years w with
     | (Ok selected, w') =>
         exists bad a rest,
           stdin w = bad ++ a :: rest
           /\ Forall (fun b =>
                        forall s,
                          ~ answer_selects int_of available_years
                              (PyStr.lower (PyStr.strip b)) s) bad
           /\ answer_selects int_of available_years
                (PyStr.lower (PyStr.strip a)) selected
           /\ w' = {| fs := fs w; stdin := rest;
                      trace := trace w
                               ++ repeat EvPrompt (S (length bad)) |}
     | (Raise e, w') =>
         e = EOFError
         /\ Forall (fun b =>
                      forall s,
                        ~ answer_selects int_of available_years
                            (PyStr.lower (PyStr.strip b)) s) (stdin w)
         /\ w' = {| fs := fs w; stdin := [];
                    trace := trace w
                             ++ repeat EvPrompt (S (length (stdin w))) |}
     end.
Proof.
  assert (forall answers,
            Forall (misunderstood
                      (TseYears.parse_selection int_of available_years))
                   answers ->
            Forall (fun b =>
                      forall s,
                        ~ answer_selects int_of available_years
                            (PyStr.lower (PyStr.strip b)) s) answers)
    as Hbad.
  { intros answers H. eapply Forall_impl; [exact H|]. intros b Hb s Hs.
    apply parse_selection_spec in Hs. unfold misunderstood in Hb.
    congruence. }
  split; [intros; apply parse_selection_spec|].
  unfold TseYears.prompt_year_selection, prompt.
  destruct (prompt_loop_cases
              (TseYears.parse_selection int_of available_years)
              (stdin w) w)
    as [(bad & a & rest & v & Hin & Hb & Ha & ->)|[Hall ->]].
  - exists bad, a, rest. split; [exact Hin|]. split; [by apply Hbad|].
    split; [by apply parse_selection_spec|done].
  - split; [done|]. split; [by apply Hbad|done].
Qed.

(** The loop, on any pending answers. *)
Lemma get_user_input_from_outcome (int_of : string -> option Z)
  (now_year : Z) :
  forall n answers w0,
  length answers <= n ->
  match DoeInput.get_user_input_from int_of now_year answers w0
  with
  | (Ok input, w') =>
      valid_input now_year input
      /\ stdin w' `suffix_of` answers
      /\ length (stdin w') + 2 <= length answers
      /\ prompts (trace w') + length (stdin w')
         = prompts (trace w0) + length answers
      /\ fs w' = fs w0
  | (Raise e, w') =>
      e = EOFError /\ stdin w' = []
      /\ prompts (trace w')
         = prompts (trace w0) + length answers + 1
      /\ fs w' = fs w0
  end.
Proof.
  induction n as [|n IH]; intros answers w0 Hlen.
  { destruct answers; [|cbn in Hlen; lia].
    cbn [DoeInput.get_user_input_from length].
    rewrite prompts_asked. repeat split; lia. }
  destruct answers as [|choice rest].
  { cbn [DoeInput.get_user_input_from length].
    rewrite prompts_asked. repeat split; lia. }
  cbn [DoeInput.get_user_input_from]. cbn [length] in Hlen.
  assert (forall rest' w2,
            rest' `suffix_of` rest -> length rest' <= n ->
            prompts (trace w2) + length rest'
            = prompts (trace w0) + length (choice :: rest) ->
            length rest' < length (choice :: rest) ->
            fs w2 = fs w0 ->
            match DoeInput.get_user_input_from int_of now_year rest' w2
            with
            | (Ok input, w') =>
                valid_input now_year input
                /\ stdin w' `suffix_of` choice :: rest
                /\ length (stdin w') + 2 <= length (choice :: rest)
                /\ prompts (trace w') + length (stdin w')
                   = prompts (trace w0) + length (choice :: rest)
                /\ fs w' = fs w0
            | (Raise e, w') =>
                e = EOFError /\ stdin w' = []
                /\ prompts (trace w')
                   = prompts (trace w0) + length (choice :: rest) + 1
                /\ fs w' = fs w0
            end) as Hagain.
  { intros rest' w2 Hsuf Hle Hp Hlt Hfs.
    specialize (IH rest' w2 Hle).
    destruct (DoeInput.get_user_input_from int_of now_year rest' w2)
      as [[input|e] w'].
    - destruct IH as (Hv & Hs & Hl & Hpr & Hf).
      split; [exact Hv|]. split.
      { etransitivity; [exact Hs|]. by apply suffix_cons_r. }
      split; [lia|]. split; [lia|]. congruence.
    - destruct IH as (-> & Hnil & Hpr & Hf).
      split; [done|]. split; [done|]. split; [lia|]. congruence. }
  destruct (String.eqb (PyStr.strip choice) "1").
  { destruct rest as [|year_text rest'].
    { rewrite !prompts_asked. cbn [length]. repeat split; lia. }
    cbn [length] in *.
    assert (match DoeInput.get_user_input_from int_of now_year rest'
                    (DoeInput.asked rest'
                       (DoeInput.asked (year_text :: rest') w0))
            with
            | (Ok input, w') =>
                valid_input now_year input
                /\ stdin w' `suffix_of` choice :: year_text :: rest'
                /\ length (stdin w') + 2 <= S (S (length rest'))
                /\ prompts (trace w') + length (stdin w')
                   = prompts (trace w0) + S (S (length rest'))
                /\ fs w' = fs w0
            | (Raise e, w') =>
                e = EOFError /\ stdin w' = []
                /\ prompts (trace w')
                   = prompts (trace w0) + S (S (length rest')) + 1
                /\ fs w' = fs w0
            end) as Hloop.
    { apply Hagain; [by apply suffix_cons_r|lia| |cbn; lia|done].
      rewrite !prompts_asked. cbn [length]. lia. }
    destruct (int_of (PyStr.strip year_text)) as [year_int|];
      [|exact Hloop].
    destruct ((2000 <=? year_int)%Z && (year_int <=? now_year + 1)%Z)
      eqn:E; [|exact Hloop].
    apply andb_true_iff in E as [E1 E2].
    apply Z.leb_le in E1, E2.
    split; [by split|]. cbn [DoeInput.asked stdin fs].
    split; [by do 2 apply suffix_cons_r|].
    split; [lia|]. split; [|done].
    change (prompts (trace (DoeInput.asked rest'
              (DoeInput.asked (year_text :: rest') w0)))
            + length rest' = prompts (trace w0) + S (S (length rest'))).
    rewrite !prompts_asked. lia. }
  destruct (String.eqb (PyStr.strip choice) "2").
  { destruct rest as [|days_text rest'].
    { rewrite !prompts_asked. cbn [length]. repeat split; lia. }
    cbn [length] in *.
    assert (match DoeInput.get_user_input_from int_of now_year rest'
                    (DoeInput.asked rest'
                       (DoeInput.asked (days_text :: rest') w0))
            with
            | (Ok input, w') =>
                valid_input now_year input
                /\ stdin w' `suffix_of` choice :: days_text :: rest'
                /\ length (stdin w') + 2 <= S (S (length rest'))
                /\ prompts (trace w') + length (stdin w')
                   = prompts (trace w0) + S (S (length rest'))
                /\ fs w' = fs w0
            | (Raise e, w') =>
                e = EOFError /\ stdin w' = []
                /\ prompts (trace w')
                   = prompts (trace w0) + S (S (length rest')) + 1
                /\ fs w' = fs w0
            end) as Hloop.
    { apply Hagain; [by apply suffix_cons_r|lia| |cbn; lia|done].
      rewrite !prompts_asked. cbn [length]. lia. }
    destruct (int_of (PyStr.strip days_text)) as [days_int|];
      [|exact Hloop].
    destruct (0 <? days_int)%Z eqn:E; [|exact Hloop].
    apply Z.ltb_lt in E.
    split; [exact E|]. cbn [DoeInput.asked stdin fs].
    split; [by do 2 apply suffix_cons_r|].
    split; [lia|]. split; [|done].
    change (prompts (trace (DoeInput.asked rest'
              (DoeInput.asked (days_text :: rest') w0)))
            + length rest' = prompts (trace w0) + S (S (length rest'))).
    rewrite !prompts_asked. lia. }
  apply Hagain; [done|lia| |cbn; lia|done].
  rewrite prompts_asked. cbn [length]. lia.
Qed.

(** X23.  [get_user_input] returns only a value it has checked: a year
    from 2000 to the year after the current one, or a positive number of
    days.  It has then read at least two answers, one prompt each, and left
    the others on the input.  It raises nothing but the end of the input,
    after a prompt for every answer and one more. *)
Theorem user_input_is_validated (int_of : string -> option Z)
  (now_year : Z) (w : world) :
  match DoeInput.get_user_input int_of now_year w with
  | (Ok input, w') =>
      valid_input now_year input
      /\ stdin w' `suffix_of` stdin w
      /\ length (stdin w') + 2 <= length (stdin w)
      /\ prompts (trace w') + length (stdin w')
         = prompts (trace w) + length (stdin w)
      /\ fs w' = fs w
  | (Raise e, w') =>
      e = EOFError /\ stdin w' = []
      /\ prompts (trace w') = prompts (trace w) + length (stdin w) + 1
      /\ fs w' = fs w
  end.
Proof.
  unfold DoeInput.get_user_input.
  apply (get_user_input_from_outcome int_of now_year (length (stdin w))).
  lia.
Qed.

(** ** The further properties on sample inputs *)

Section MoreConcrete.
Import Sample Server Case.

(** *** The policy of dados_tse_baixa.py *)

Lemma overwrite_all_is_permanent_witness :
  exists st' w',
    Tse.process_resources (range_server content) "2022" "dados-tse/2022"
      [zip_resource; other_resource] overwriting_all
      (world_with [(zip_path, partial)] ["s"])
    = (Ok st', w')
    /\ Tse.global_skip_all st' = false
    /\ Tse.global_overwrite_all st' = true
    /\ Tse.total_skipped st' = Tse.total_skipped overwriting_all
    /\ stdin w' = stdin (world_with [(zip_path, partial)] ["s"])
    /\ prompts (trace w')
       = prompts (trace (world_with [(zip_path, partial)] ["s"])).
Proof.
  exact (proj2 (overwrite_all_is_permanent (range_server content) "2022"
                  "dados-tse/2022" [zip_resource; other_resource]
                  overwriting_all (world_with [(zip_path, partial)] ["s"])
                  eq_refl eq_refl)).
Defined.

Lemma fresh_policy_asks_until_understood_witness :
  let w := world_with [(zip_path, partial)] ["maybe"; " O "; "s"] in
  Tse.handle_existing_file zip_path false false w
  = (Ok (Tse.overwrite, false, false),
     {| fs := fs w; stdin := ["s"];
        trace := trace w ++ repeat EvPrompt (S (length ["maybe"])) |}).
Proof.
  intros w.
  apply (fresh_policy_asks_until_understood zip_path ["maybe"] " O " ["s"]
           (Tse.overwrite, false, false) w);
    [reflexivity|reflexivity| |reflexivity].
  repeat constructor.
Defined.

Lemma fresh_policy_runs_out_of_answers_witness :
  let w := world_with [(zip_path, partial)] ["maybe"; "yes"] in
  Tse.handle_existing_file zip_path false false w
  = (Raise EOFError,
     {| fs := fs w; stdin := [];
        trace := trace w ++ repeat EvPrompt (S (length (stdin w))) |}).
Proof.
  intros w.
  apply (fresh_policy_runs_out_of_answers zip_path w); [reflexivity|].
  repeat constructor.
Defined.

Lemma blanket_flags_stay_exclusive_witness :
  exists st' w',
    Tse.process_resources (range_server content) "2022" "dados-tse/2022"
      [zip_resource; other_resource] Tse.initial_state
      (world_with [(zip_path, partial); (other_path, partial)] ["sa"; "oa"])
    = (Ok st', w')
    /\ Tse.global_skip_all st' && Tse.global_overwrite_all st' = false.
Proof.
  eexists _, _. split; [vm_compute; reflexivity|].
  eapply (blanket_flags_stay_exclusive (range_server content) "2022"
            "dados-tse/2022" [zip_resource; other_resource]
            Tse.initial_state _
            (world_with [(zip_path, partial); (other_path, partial)]
               ["sa"; "oa"]) _ eq_refl).
  vm_compute. reflexivity.
Defined.

Lemma overwrite_answer_appends_witness :
  let w := world_with [(zip_path, partial)] ["o"] in
  Tse.process_resource (range_server content) "2022" "dados-tse/2022"
    zip_resource Tse.initial_state w
  = (Ok (Tse.count_downloaded (Tse.set_flags Tse.initial_state false false)),
     {| fs := <[OsPath.join "dados-tse/2022" (Tse.name zip_resource)
                := partial ++ drop (length partial) content]> (fs w);
        stdin := [];
        trace := trace w ++ [EvPrompt;
                             EvGet (Tse.url zip_resource)
                               (Some (length partial));
                             EvRecv (length content - length partial)] |}).
Proof.
  intros w.
  apply (overwrite_answer_appends (range_server content) "2022"
           "dados-tse/2022" zip_resource Tse.initial_state "o" [] false
           false content partial w);
    try reflexivity.
  - vm_compute. lia.
  - apply range_server_serves_ranges.
Defined.

(** *** Downloads of dados_tse_baixa.py *)

Lemma http_error_is_reported_witness :
  let w := world_with [(zip_path, partial)] [] in
  Tse.download_file missing_server zip_url zip_path w
  = (Ok (false, Some (HTTPError (status_code (answer 404 [])))),
     {| fs := fs w; stdin := stdin w;
        trace := trace w ++ [EvGet zip_url (Tse.resume_offset w zip_path)] |}).
Proof.
  intros w.
  apply (http_error_is_reported missing_server zip_url zip_path
           (answer 404 []) w); [reflexivity|reflexivity|].
  vm_compute. lia.
Defined.

Lemma broken_stream_keeps_received_bytes_witness :
  let w := world_with [] [] in
  exists w',
    Tse.download_file flaky_server zip_url zip_path w
    = (Ok (false, Some down), w')
    /\ fs w' !! zip_path
       = Some (on_disk w zip_path ++ concat (body breaking_answer))
    /\ Tse.resume_offset w' zip_path
       = Some (length (on_disk w zip_path)
               + length (concat (body breaking_answer)))
    /\ bytes_received (trace w')
       = bytes_received (trace w) + length (concat (body breaking_answer)).
Proof.
  intros w.
  apply (broken_stream_keeps_received_bytes flaky_server zip_url zip_path
           breaking_answer down w); try reflexivity.
  - vm_compute. lia.
  - discriminate.
Defined.

Lemma any_other_status_is_appended_witness :
  let w := world_with [(zip_path, partial)] [] in
  Tse.download_file (rangeless_server content) zip_url zip_path w
  = (Ok (true, None),
     {| fs := <[zip_path := partial ++ concat (body (answer 200 content))]>
                (fs w);
        stdin := stdin w;
        trace := trace w
                 ++ [EvGet zip_url (Some (length partial));
                     EvRecv (length (concat (body (answer 200 content))))] |}).
Proof.
  intros w.
  apply (any_other_status_is_appended (rangeless_server content) zip_url
           zip_path (answer 200 content) partial w); try reflexivity.
  - vm_compute. lia.
  - discriminate.
Defined.

Lemma retry_resumes_from_partial_file_witness :
  let w := world_with [] [] in
  let r2 := answer 206 (drop 2 content) in
  Tse.retry_loop flaky_server "2022" zip_resource zip_path Tse.max_retries
    (seq 1 Tse.max_retries) Tse.initial_state w
  = (Ok (Tse.count_downloaded Tse.initial_state),
     {| fs := <[zip_path := on_disk w zip_path
                            ++ concat (body breaking_answer)
                            ++ concat (body r2)]> (fs w);
        stdin := stdin w;
        trace := trace w
                 ++ [EvGet (Tse.url zip_resource)
                       (Tse.resume_offset w zip_path);
                     EvRecv (length (concat (body breaking_answer)));
                     EvSleep 4;
                     EvGet (Tse.url zip_resource)
                       (Some (length (on_disk w zip_path)
                              + length (concat (body breaking_answer))));
                     EvRecv (length (concat (body r2)))] |}).
Proof.
  intros w r2.
  apply (retry_resumes_from_partial_file flaky_server "2022" zip_resource
           zip_path breaking_answer r2 down Tse.initial_state w);
    try reflexivity; try discriminate; vm_compute; lia.
Defined.

(** *** Resources of a year *)

Lemma resource_path_splits_into_directory_and_name_witness :
  let r := {| Tse.name := "consulta_cand_2022.zip";
              Tse.title := "Candidatos 2022";
              Tse.url := zip_url;
              Tse.format := Tse.file_format_of zip_url;
              Tse.size := None |} in
  Tse.name r <> EmptyString
  /\ PyStr.contains (Tse.name r) "/" = false
  /\ OsPath.dirname (OsPath.join "dados-tse/2022" (Tse.name r))
     = "dados-tse/2022"
  /\ OsPath.basename (OsPath.join "dados-tse/2022" (Tse.name r))
     = Tse.name r.
Proof.
  intros r.
  apply (resource_path_splits_into_directory_and_name unreachable zip_item
           (world_with [] []) (world_with [] []) r "dados-tse/2022");
    [reflexivity|discriminate|reflexivity].
Defined.

(** A URL whose path ends with two dots gives the resource that name. *)
Example resource_named_after_two_dots :
  let item :=
    {| Tse.heading_text := Some "Candidatos 2022";
       Tse.item_anchors :=
         [ir_para_recurso
            (Some "https://cdn.tse.jus.br/download/..?x=1.zip")];
       Tse.item_strings := [] |} in
  match fst (Tse.resource_of_item unreachable item (world_with [] [])) with
  | Ok (Some r) =>
      Tse.name r = ".."
      /\ OsPath.join "dados-tse/2022" (Tse.name r) = "dados-tse/2022/.."
  | _ => False
  end.
Proof. vm_compute. by split. Qed.

Lemma title_names_are_safe_witness :
  exists stem,
    Tse.filename_of folder_url "Candidatos - 2022 (CSV)"
      (Tse.file_format_of folder_url)
    = stem +:+ "." +:+ PyStr.lower (Tse.file_format_of folder_url)
    /\ PyStr.all_chars title_char stem = true
    /\ PyStr.contains stem "--" = false
    /\ PyStr.filter_chars word_char stem
       = PyStr.filter_chars word_char "Candidatos - 2022 (CSV)"
    /\ PyStr.all_chars title_char
         (PyStr.lower (Tse.file_format_of folder_url)) = true.
Proof.
  apply (title_names_are_safe folder_url "Candidatos - 2022 (CSV)");
    reflexivity.
Defined.

Lemma failed_year_is_passed_over_witness :
  let w := world_with [] [] in
  Tse.process_years unreachable (range_server content)
    [("2024", "https://dadosabertos.tse.jus.br/dataset/candidatos-2024");
     ("2022", "https://dadosabertos.tse.jus.br/dataset/candidatos-2022")]
    Tse.initial_state w
  = Tse.process_years unreachable (range_server content)
      [("2022", "https://dadosabertos.tse.jus.br/dataset/candidatos-2022")]
      Tse.initial_state
      (log (EvGet "https://dadosabertos.tse.jus.br/dataset/candidatos-2024"
              None) w).
Proof.
  intros w.
  apply (failed_year_is_passed_over unreachable (range_server content)
           "2024" "https://dadosabertos.tse.jus.br/dataset/candidatos-2024").
  exact I.
Defined.

Lemma listing_a_year_only_reads_witness :
  let w := world_with [] [] in
  exists resources w',
    Tse.get_resources_from_year unreachable
      "https://dadosabertos.tse.jus.br/dataset/candidatos-2024" w
    = (Ok resources, w')
    /\ resources = [] /\ reads_only 1 w w'.
Proof.
  intros w.
  apply (listing_a_year_only_reads unreachable
           "https://dadosabertos.tse.jus.br/dataset/candidatos-2024" w).
  intros e [= <-]. exact I.
Defined.

(** The file of the one resource is on disk and no answer is left: the
    run ends at the prompt. *)
Lemma run_is_stopped_only_by_the_end_of_input_witness :
  match Tse.process_years resources_web (range_server content)
          [("2022", "https://dadosabertos.tse.jus.br/dataset/candidatos-2022")]
          Tse.initial_state (world_with [(zip_path, partial)] [])
  with
  | (Ok st', w') =>
      accounted Tse.initial_state <= accounted st'
      /\ (length (Tse.failed_downloads Tse.initial_state)
          = Tse.total_failed Tse.initial_state ->
          length (Tse.failed_downloads st') = Tse.total_failed st')
      /\ (Tse.global_skip_all Tse.initial_state
          && Tse.global_overwrite_all Tse.initial_state = false ->
          Tse.global_skip_all st' && Tse.global_overwrite_all st' = false)
  | (Raise e, w') => e = EOFError /\ stdin w' = []
  end.
Proof.
  apply (run_is_stopped_only_by_the_end_of_input resources_web
           (range_server content)).
  intros page_url n e H. discriminate H.
Defined.

Example run_without_answers :
  fst (Tse.process_years resources_web (range_server content)
         [("2022", "https://dadosabertos.tse.jus.br/dataset/candidatos-2022")]
         Tse.initial_state (world_with [(zip_path, partial)] []))
  = Raise EOFError.
Proof. vm_compute. reflexivity. Qed.

(** *** Downloads of diarios_ceara_scraper.py *)

Lemma no_answer_no_overwrite_witness :
  let w := world_with [(pdf_path, partial)] [] in
  fs (snd (Doe.download_file (range_server content) pdf_url pdf_path 3 w))
    !! pdf_path
  = Some partial.
Proof.
  intros w.
  apply (no_answer_no_overwrite (range_server content) pdf_url pdf_path 3 w
           pdf_path partial); reflexivity.
Defined.

Lemma broken_attempt_leaves_a_file_to_ask_about_witness :
  let w := world_with [] ["s"] in
  Doe.download_file breaking_server pdf_url pdf_path (2 + 1) w
  = (Ok (true, Doe.skipped),
     {| fs := <[pdf_path := concat (body breaking_answer)]> (fs w);
        stdin := [];
        trace := trace w
                 ++ [EvGet pdf_url None;
                     EvRecv (length (concat (body breaking_answer)));
                     EvGet pdf_url None; EvPrompt] |}).
Proof.
  intros w.
  apply (broken_attempt_leaves_a_file_to_ask_about breaking_server pdf_url
           pdf_path "s" [] breaking_answer breaking_answer down 1 w);
    try reflexivity.
  - split; [reflexivity|]. split; [discriminate|reflexivity].
  - split; [reflexivity|]. split; [discriminate|reflexivity].
Defined.

(** *** The years and the menu *)

Lemma election_years_are_sorted_and_resolved_witness :
  let w := world_with [] [] in
  Forall (fun link => ~ unjoinable year_after_candidatos Tse.BASE_URL link)
         (Tse.soup_anchors years_page)
  /\ exists years,
      TseYears.get_election_years year_after_candidatos years_web
        Tse.BASE_URL w
      = (Ok (Some years), log (EvGet TseYears.CANDIDATOS_URL None) w)
      /\ years_of_page year_after_candidatos Tse.BASE_URL years_page years.
Proof.
  intros w.
  assert (Forall (fun link =>
                    ~ unjoinable year_after_candidatos Tse.BASE_URL link)
                 (Tse.soup_anchors years_page)) as Hall.
  { repeat constructor;
      intros (href & y & H1 & H2 & H3 & H4 & H5 & H6);
      injection H1 as <-; vm_compute in H5, H6; discriminate. }
  split; [exact Hall|].
  exact (proj1 (election_years_are_sorted_and_resolved
                  year_after_candidatos years_web Tse.BASE_URL w) Hall).
Defined.

Lemma selection_is_taken_from_the_years_offered_witness :
  answer_selects int_of [2024; 2022; 2020] "last 2" [2024; 2022].
Proof.
  exact (proj1 (proj1 (selection_is_taken_from_the_years_offered int_of
                         [2024; 2022; 2020] (world_with [] []))
                      "last 2" [2024; 2022]) eq_refl).
Defined.

(** *** Examples *)

(** The years of the sample page: the entry that appears twice is kept
    once, the link without a year and the link whose href is relative to
    the page are left out, the most recent year comes first. *)
Example years_of_the_sample_page :
  fst (TseYears.get_election_years year_after_candidatos years_web
         Tse.BASE_URL (world_with [] []))
  = Ok (Some
          [(2024, "https://dadosabertos.tse.jus.br/dataset/candidatos-2024");
           (2022, "https://dadosabertos.tse.jus.br/dataset/candidatos-2022");
           (2020, "https://dadosabertos.tse.jus.br/dataset/candidatos-2020")]).
Proof. vm_compute. reflexivity. Qed.

(** With a link whose href [urljoin] rejects, the [ValueError] leaves
    [get_election_years]. *)
Example years_of_a_page_with_a_broken_href :
  fst (TseYears.get_election_years year_after_candidatos broken_years_web
         Tse.BASE_URL (world_with [] []))
  = Raise ValueError.
Proof. vm_compute. reflexivity. Qed.

(** Answers to the menu of the years. *)
Example selections_of_years :
  let years := [2024; 2022; 2020; 2018] in
  TseYears.parse_selection int_of years "a" = Some years
  /\ TseYears.parse_selection int_of years "last 2" = Some [2024; 2022]
  /\ TseYears.parse_selection int_of years "l -1" = Some [2024; 2022; 2020]
  /\ TseYears.parse_selection int_of years "last 0" = Some []
  /\ TseYears.parse_selection int_of years "last two" = None
  /\ TseYears.parse_selection int_of years "1, 3,3, 9" = Some [2024; 2020; 2020]
  /\ TseYears.parse_selection int_of years "9" = None
  /\ TseYears.parse_selection int_of years "1,,2" = None.
Proof. repeat split; vm_compute; reflexivity. Qed.

(** Answers to the menu of diarios_ceara_scraper.py: a choice that is
    neither 1 nor 2, a year out of range, a year that is no number, a
    number of days that is not positive, then the year after the current
    one. *)
Example answers_until_a_valid_year :
  let r := DoeInput.get_user_input int_of 2026
             (world_with []
                ["3"; " 1 "; "1999"; "1"; "x"; "2"; "0"; "1"; " 2027 "; "7"]) in
  fst r = Ok (DoeInput.year, 2027%Z)
  /\ stdin (snd r) = ["7"]
  /\ prompts (trace (snd r)) = 9.
Proof. repeat split; vm_compute; reflexivity. Qed.
End MoreConcrete.
